(** * Submission aggregation pipeline: a shallow embedding

    This development embeds [assignment_submissions_staging.py] in Rocq and
    proves properties of its pagination loop, its best-run selection, its
    per-assignment assembly and its batch loop.

    Conventions of the embedding:
    - Python values that flow through the program (decoded JSON, the
      assignment dictionaries) are terms of [value]; dictionaries are
      association lists in insertion order, with keys unique.
    - Numbers are integers ([Z]); strings are byte strings, whose
      lexicographic order coincides with Python's code-point order on
      UTF-8 text.
    - A Python call either returns, raises, or (for the [while True] loop)
      may fail to finish within the fuel it is given: [outcome].
    - The GitHub API is a function from requests to outcomes, a response
      carrying its body already decoded; the user
      lookup in the database is a function as well; both are section
      variables, so every theorem holds for every such world.
    - In-place mutation of [assignment_data] is explicit state passing: the
      functions that mutate it return the final state of the object next to
      their outcome, also when they raise.
    - Audit files written under [logs_dir] and the text that [print] shows
      have no influence on any returned value and are left out; a [len(...)]
      evaluated inside a printed f-string is kept, since it can raise. *)

From Stdlib Require Import ZArith List String Ascii Bool Lia Arith.
Import ListNotations.

Set Warnings "-register-all".

Local Open Scope string_scope.
Local Open Scope Z_scope.

(** ** Python values *)

Inductive key : Type :=
| KNone
| KInt (n : Z)
| KStr (s : string).

Inductive value : Type :=
| VNone
| VBool (b : bool)
| VInt (n : Z)
| VStr (s : string)
| VList (l : list value)
| VDict (kvs : list (key * value)).

Inductive exn : Type :=
| RequestException
| KeyError
| TypeError
| AttributeError
| IndexError
| ValueError
| DatabaseError.

Inductive outcome (A : Type) : Type :=
| Ret (a : A)
| Raise (e : exn)
| OutOfFuel.

Arguments Ret {A} a.
Arguments Raise {A} e.
Arguments OutOfFuel {A}.

Definition bind {A B : Type} (m : outcome A) (f : A -> outcome B) : outcome B :=
  match m with
  | Ret a => f a
  | Raise e => Raise e
  | OutOfFuel => OutOfFuel
  end.

Declare Scope py_scope.
Delimit Scope py_scope with py.
Notation "x <- m ;; k" := (bind m (fun x => k))
  (at level 100, m at next level, right associativity) : py_scope.
Notation "m ;;; k" := (bind m (fun _ => k))
  (at level 100, right associativity) : py_scope.
Local Open Scope py_scope.

Definition key_eqb (a b : key) : bool :=
  match a, b with
  | KNone, KNone => true
  | KInt n, KInt m => Z.eqb n m
  | KStr s, KStr t => String.eqb s t
  | _, _ => false
  end.

(** [bool(v)] *)
Definition truthy (v : value) : bool :=
  match v with
  | VNone => false
  | VBool b => b
  | VInt n => negb (Z.eqb n 0)
  | VStr s => negb (String.eqb s "")
  | VList l => match l with [] => false | _ => true end
  | VDict kvs => match kvs with [] => false | _ => true end
  end.

(** Hashing a value as a dictionary key: [True] and [1] are the same key,
    lists and dictionaries are unhashable. *)
Definition to_key (v : value) : outcome key :=
  match v with
  | VNone => Ret KNone
  | VBool b => Ret (KInt (if b then 1 else 0))
  | VInt n => Ret (KInt n)
  | VStr s => Ret (KStr s)
  | VList _ | VDict _ => Raise TypeError
  end.

Definition as_index (v : value) : option Z :=
  match v with
  | VBool b => Some (if b then 1 else 0)
  | VInt n => Some n
  | _ => None
  end.

Fixpoint dict_lookup (k : key) (kvs : list (key * value)) : option value :=
  match kvs with
  | [] => None
  | (k', v) :: rest => if key_eqb k k' then Some v else dict_lookup k rest
  end.

(** [d[k] = v] on a dictionary: an existing key keeps its position, a new
    key is appended. *)
Fixpoint dict_set (k : key) (v : value) (kvs : list (key * value))
  : list (key * value) :=
  match kvs with
  | [] => [(k, v)]
  | (k', v') :: rest =>
      if key_eqb k k' then (k', v) :: rest else (k', v') :: dict_set k v rest
  end.

(** Python list indexing, negative indices counting from the end. *)
Definition norm_index (len : nat) (i : Z) : option nat :=
  let n := Z.of_nat len in
  if (0 <=? i) && (i <? n) then Some (Z.to_nat i)
  else if (i <? 0) && (0 <=? i + n) then Some (Z.to_nat (i + n))
  else None.

Fixpoint list_set {A : Type} (n : nat) (x : A) (l : list A) : list A :=
  match l, n with
  | [], _ => []
  | _ :: t, O => x :: t
  | h :: t, S n' => h :: list_set n' x t
  end.

(** [c[k]] *)
Definition getitem (c k : value) : outcome value :=
  match c with
  | VDict kvs =>
      k' <- to_key k ;;
      match dict_lookup k' kvs with
      | Some v => Ret v
      | None => Raise KeyError
      end
  | VList l =>
      match as_index k with
      | Some i =>
          match norm_index (List.length l) i with
          | Some n => match nth_error l n with
                      | Some v => Ret v
                      | None => Raise IndexError
                      end
          | None => Raise IndexError
          end
      | None => Raise TypeError
      end
  | VStr s =>
      match as_index k with
      | Some i =>
          match norm_index (String.length s) i with
          | Some n => match String.get n s with
                      | Some c => Ret (VStr (String c EmptyString))
                      | None => Raise IndexError
                      end
          | None => Raise IndexError
          end
      | None => Raise TypeError
      end
  | VNone | VBool _ | VInt _ => Raise TypeError
  end.

(** [c[k] = v], returning the updated container. *)
Definition setitem (c k v : value) : outcome value :=
  match c with
  | VDict kvs => k' <- to_key k ;; Ret (VDict (dict_set k' v kvs))
  | VList l =>
      match as_index k with
      | Some i =>
          match norm_index (List.length l) i with
          | Some n => Ret (VList (list_set n v l))
          | None => Raise IndexError
          end
      | None => Raise TypeError
      end
  | VNone | VBool _ | VInt _ | VStr _ => Raise TypeError
  end.

(** [c.get(k, default)]: only dictionaries have the method. *)
Definition get_default (c : value) (k : string) (default : value)
  : outcome value :=
  match c with
  | VDict kvs =>
      match dict_lookup (KStr k) kvs with
      | Some v => Ret v
      | None => Ret default
      end
  | _ => Raise AttributeError
  end.

(** [c.get(k)] *)
Definition get (c : value) (k : string) : outcome value :=
  get_default c k VNone.

Definition num_of (v : value) : option Z := as_index v.

(** [a == b] on values; dictionaries compare regardless of order. *)
Fixpoint py_eq (a b : value) {struct a} : bool :=
  match a, b with
  | VNone, VNone => true
  | VStr s, VStr t => String.eqb s t
  | VBool x, VBool y => Bool.eqb x y
  | VBool x, VInt m => Z.eqb (if x then 1 else 0) m
  | VInt n, VBool y => Z.eqb n (if y then 1 else 0)
  | VInt n, VInt m => Z.eqb n m
  | VList l, VList m =>
      (fix go (l m : list value) {struct l} : bool :=
         match l, m with
         | [], [] => true
         | x :: l', y :: m' => py_eq x y && go l' m'
         | _, _ => false
         end) l m
  | VDict kvs, VDict kvs' =>
      Nat.eqb (List.length kvs) (List.length kvs') &&
      (fix go (kvs : list (key * value)) {struct kvs} : bool :=
         match kvs with
         | [] => true
         | (k, v) :: rest =>
             match dict_lookup k kvs' with
             | Some v' => py_eq v v'
             | None => false
             end && go rest
         end) kvs
  | _, _ => false
  end.

(** [a > b] on strings: lexicographic. *)
Definition str_gt (a b : string) : bool :=
  match String.compare a b with
  | Gt => true
  | _ => false
  end.

(** [a > b] on values: numbers with numbers, strings with strings, lists
    with lists; any other pairing is a [TypeError]. *)
Fixpoint py_gt (a b : value) {struct a} : outcome bool :=
  match a, b with
  | VStr s, VStr t => Ret (str_gt s t)
  | VList l, VList m =>
      (fix go (l m : list value) {struct l} : outcome bool :=
         match l, m with
         | x :: l', y :: m' => if py_eq x y then go l' m' else py_gt x y
         | _ :: _, [] => Ret true
         | [], _ => Ret false
         end) l m
  | _, _ =>
      match num_of a, num_of b with
      | Some n, Some m => Ret (Z.gtb n m)
      | _, _ => Raise TypeError
      end
  end.

(** ['needle' in hay] on strings. *)
Fixpoint str_contains (needle hay : string) : bool :=
  if String.prefix needle hay then true
  else match hay with
       | EmptyString => false
       | String _ rest => str_contains needle rest
       end.

(** [len(v)] *)
Definition py_len (v : value) : outcome nat :=
  match v with
  | VStr s => Ret (String.length s)
  | VList l => Ret (List.length l)
  | VDict kvs => Ret (List.length kvs)
  | VNone | VBool _ | VInt _ => Raise TypeError
  end.

Definition key_value (k : key) : value :=
  match k with
  | KNone => VNone
  | KInt n => VInt n
  | KStr s => VStr s
  end.

(** The elements a [for] loop or [list.extend] draws from a value. *)
Definition iterate (v : value) : outcome (list value) :=
  match v with
  | VList l => Ret l
  | VDict kvs => Ret (map (fun kv => key_value (fst kv)) kvs)
  | VStr s => Ret (map (fun c => VStr (String c EmptyString))
                       (list_ascii_of_string s))
  | VNone | VBool _ | VInt _ => Raise TypeError
  end.

(** [d.items()] *)
Definition dict_items (v : value) : outcome (list (key * value)) :=
  match v with
  | VDict kvs => Ret kvs
  | _ => Raise AttributeError
  end.

(** [c['k']] with a string literal as key. *)
Definition item (c : value) (k : string) : outcome value := getitem c (VStr k).

Definition set_item (c : value) (k : string) (v : value) : outcome value :=
  setitem c (VStr k) v.

(** A dictionary display with string keys. *)
Definition dict_of (fields : list (string * value)) : value :=
  VDict (map (fun kv => (KStr (fst kv), snd kv)) fields).

(** ** Mutable state: the [assignment_data] object

    [M A] is a computation that may mutate one object, the state, and then
    returns, raises or runs out of fuel. The state it leaves is kept in
    every case. *)

Definition M (A : Type) : Type := value -> value * outcome A.

Definition retM {A : Type} (a : A) : M A := fun s => (s, Ret a).

Definition bindM {A B : Type} (m : M A) (f : A -> M B) : M B :=
  fun s =>
    match m s with
    | (s', Ret a) => f a s'
    | (s', Raise e) => (s', Raise e)
    | (s', OutOfFuel) => (s', OutOfFuel)
    end.

Definition lift {A : Type} (o : outcome A) : M A := fun s => (s, o).

(** Read the object. *)
Definition readM {A : Type} (f : value -> outcome A) : M A :=
  fun s => (s, f s).

(** Mutate the object; a mutation that raises leaves it as it was. *)
Definition modifyM (f : value -> outcome value) : M unit :=
  fun s =>
    match f s with
    | Ret s' => (s', Ret tt)
    | Raise e => (s, Raise e)
    | OutOfFuel => (s, OutOfFuel)
    end.

Notation "x <~ m ;; k" := (bindM m (fun x => k))
  (at level 100, m at next level, right associativity) : py_scope.
Notation "m ~;; k" := (bindM m (fun _ => k))
  (at level 100, right associativity) : py_scope.

(** [for x in l: body(x)]; [continue] is a body that returns. *)
Fixpoint for_each {A : Type} (body : A -> M unit) (l : list A) : M unit :=
  match l with
  | [] => retM tt
  | x :: rest => body x ~;; for_each body rest
  end.

(** [try: m  except RequestException: handler] *)
Definition try_except_request {A : Type} (m : M A) (handler : M A) : M A :=
  fun s =>
    match m s with
    | (s', Raise RequestException) => handler s'
    | r => r
    end.

(** ** The hosting API *)

(** The three GET requests the program sends, by their variable parts:
    [/repos/{owner}/{repo}/pulls] with [state=all, per_page=100, page],
    [/repos/{owner}/{repo}/actions/runs] with [per_page=20, page=1, head_sha],
    [/repos/{owner}/{repo}/actions/runs/{run_id}]. *)
Inductive request : Type :=
| GetPulls (owner repo : value) (page : Z)
| GetActionsRuns (owner repo head_sha : value)
| GetRun (owner repo run_id : value).

(** A response: its status, its decoded JSON body and its [Link] header,
    if it has one. *)
Record response : Type := mkResponse {
  status_code : Z;
  body : value;
  link : option string
}.

(** [response.raise_for_status()]: client and server error statuses raise
    [HTTPError], a [RequestException]. *)
Definition raise_for_status (r : response) : outcome unit :=
  if (400 <=? status_code r) && (status_code r <? 600)
  then Raise RequestException else Ret tt.

(** The text [rel="next"]. *)
Definition rel_next : string :=
  "rel=" ++ String "034" "next" ++ String "034" "".

(** A persistence row: the values interpolated into one [VALUES] tuple. *)
Record row : Type := mkRow {
  row_user_id : value;
  row_assignment_id : value;
  row_submission_link : value;
  row_passes_preliminary_checks : bool;
  row_submission_time : value;
  row_pull_request_data : value;
  row_github_username : value;
  row_pr_state : value
}.

(** ** The program *)

Section Pipeline.

(** The hosting API: a request is answered, or the transport fails with a
    [RequestException]. *)
Variable http_get : request -> outcome response.

(** The user lookup of the persistence side: [cursor.fetchone()] for the
    given GitHub username, a tuple (a list here) or [None]. *)
Variable query_user_id : value -> outcome value.

(** The [while True] loop of [fetch_pull_requests], from [page] on. *)
Fixpoint fetch_pull_requests_loop (fuel : nat) (owner repo : value)
    (page : Z) (all_pulls : list value) : outcome (list value) :=
  match fuel with
  | O => OutOfFuel
  | S fuel' =>
      response <- http_get (GetPulls owner repo page) ;;
      raise_for_status response ;;;
      let pulls_json := body response in
      if negb (truthy pulls_json) then Ret all_pulls
      else
        new_pulls <- iterate pulls_json ;;
        let all_pulls := (all_pulls ++ new_pulls)%list in
        match link response with
        | Some links =>
            if negb (str_contains rel_next links) then Ret all_pulls
            else fetch_pull_requests_loop fuel' owner repo (page + 1) all_pulls
        | None => Ret all_pulls
        end
  end.

Definition fetch_pull_requests (fuel : nat) (owner repo : value)
  : outcome (list value) :=
  fetch_pull_requests_loop fuel owner repo 1 [].

Definition fetch_workflow_runs (owner repo pr_number head_sha : value)
  : outcome value :=
  actions_res <- http_get (GetActionsRuns owner repo head_sha) ;;
  raise_for_status actions_res ;;;
  let actions_json := body actions_res in
  workflow_runs <- get_default actions_json "workflow_runs" (VList []) ;;
  py_len workflow_runs ;;;
  Ret workflow_runs.

Definition fetch_workflow_run_id (owner repo run_id : value)
  : outcome value :=
  workflow_res <- http_get (GetRun owner repo run_id) ;;
  raise_for_status workflow_res ;;;
  let workflow_json := body workflow_res in
  py_len workflow_json ;;;
  Ret workflow_json.

(** The dictionary both branches of the selector build; [conclusion] is
    the variable in the first branch and a lookup in the second. *)
Definition run_record (run_id workflow_json : value)
    (conclusion : outcome value) : outcome value :=
  run_number <- item workflow_json "run_number" ;;
  event <- item workflow_json "event" ;;
  status <- item workflow_json "status" ;;
  conclusion <- conclusion ;;
  created_at <- item workflow_json "created_at" ;;
  updated_at <- item workflow_json "updated_at" ;;
  workflow_url <- item workflow_json "html_url" ;;
  head_repository <- item workflow_json "head_repository" ;;
  full_name <- item head_repository "full_name" ;;
  head_repository' <- item workflow_json "head_repository" ;;
  fork <- item head_repository' "fork" ;;
  Ret (dict_of [("run_id", run_id);
                ("run_number", run_number);
                ("event", event);
                ("status", status);
                ("conclusion", conclusion);
                ("created_at", created_at);
                ("updated_at", updated_at);
                ("workflow_url", workflow_url);
                ("head_repository", full_name);
                ("fork", fork)]).

(** [not current or workflow_json['updated_at'] > current['updated_at']] *)
Definition is_newer (workflow_json current : value) : outcome bool :=
  if negb (truthy current) then Ret true
  else
    updated_at <- item workflow_json "updated_at" ;;
    current_updated_at <- item current "updated_at" ;;
    py_gt updated_at current_updated_at.

(** One iteration of the selector's loop over the pair
    [(recent_successful_run, most_recent_run)]. *)
Definition process_workflow_run (owner repo : value)
    (best : value * value) (workflow_run : value)
  : outcome (value * value) :=
  let (recent_successful_run, most_recent_run) := best in
  run_id <- get workflow_run "id" ;;
  if negb (truthy run_id) then Ret best
  else
    workflow_json <- fetch_workflow_run_id owner repo run_id ;;
    run_status <- item workflow_json "status" ;;
    recent_successful_run <-
      (if py_eq run_status (VStr "completed") then
         conclusion <- item workflow_json "conclusion" ;;
         if py_eq conclusion (VStr "success") then
           newer <- is_newer workflow_json recent_successful_run ;;
           if newer then run_record run_id workflow_json (Ret conclusion)
           else Ret recent_successful_run
         else Ret recent_successful_run
       else Ret recent_successful_run) ;;
    newer <- is_newer workflow_json most_recent_run ;;
    most_recent_run <-
      (if newer
       then run_record run_id workflow_json (item workflow_json "conclusion")
       else Ret most_recent_run) ;;
    Ret (recent_successful_run, most_recent_run).

Fixpoint process_workflow_runs_loop (owner repo : value)
    (best : value * value) (workflow_runs : list value)
  : outcome (value * value) :=
  match workflow_runs with
  | [] => Ret best
  | workflow_run :: rest =>
      best' <- process_workflow_run owner repo best workflow_run ;;
      process_workflow_runs_loop owner repo best' rest
  end.

(** [a or b] *)
Definition py_or (a b : value) : value := if truthy a then a else b.

Definition process_workflow_runs (owner repo workflow_runs : value)
  : outcome value :=
  py_len workflow_runs ;;;
  runs <- iterate workflow_runs ;;
  best <- process_workflow_runs_loop owner repo (VNone, VNone) runs ;;
  let (recent_successful_run, most_recent_run) := best in
  Ret (py_or recent_successful_run most_recent_run).

(** [assignment_data['pull_requests'][pr_number] = record]: the inner
    dictionary is updated in place, which the write-back expresses. *)
Definition store_pull_request (pr_number record : value) : M unit :=
  modifyM (fun assignment_data =>
    pull_requests <- item assignment_data "pull_requests" ;;
    pull_requests' <- setitem pull_requests pr_number record ;;
    set_item assignment_data "pull_requests" pull_requests').

(** [assignment_data['pull_requests'][pr_number]['workflow_run'] = best_run] *)
Definition store_workflow_run (pr_number best_run : value) : M unit :=
  modifyM (fun assignment_data =>
    pull_requests <- item assignment_data "pull_requests" ;;
    record <- getitem pull_requests pr_number ;;
    record' <- set_item record "workflow_run" best_run ;;
    pull_requests' <- setitem pull_requests pr_number record' ;;
    set_item assignment_data "pull_requests" pull_requests').

(** The body of the loop over the pull requests of one repository. *)
Definition retrieve_pull_request (owner repo pull_request : value)
  : M unit :=
  pr_number <~ lift (item pull_request "number") ;;
  head_sha <~ lift (head <- item pull_request "head" ;; item head "sha") ;;
  if negb (truthy pr_number) || negb (truthy head_sha) then retM tt
  else
    pr_id <~ lift (item pull_request "id") ;;
    state <~ lift (item pull_request "state") ;;
    submission_link <~ lift (item pull_request "html_url") ;;
    github_username <~
      lift (user <- item pull_request "user" ;; item user "login") ;;
    submission_time <~ lift (item pull_request "created_at") ;;
    store_pull_request pr_number
      (dict_of [("pr_id", pr_id);
                ("state", state);
                ("submission_link", submission_link);
                ("github_username", github_username);
                ("submission_time", submission_time);
                ("head_sha", head_sha);
                ("workflow_run", VDict [])]) ~;;
    workflow_runs <~
      lift (fetch_workflow_runs owner repo pr_number head_sha) ;;
    best_run <~ lift (process_workflow_runs owner repo workflow_runs) ;;
    if truthy best_run then store_workflow_run pr_number best_run
    else retM tt.

(** [assignment_data['pull_requests'] =
     assignment_data.get('pull_requests', {})] *)
Definition init_pull_requests (assignment_data : value) : outcome value :=
  pull_requests <- get_default assignment_data "pull_requests" (VDict []) ;;
  set_item assignment_data "pull_requests" pull_requests.

(** The [try] block: list the pull requests, process each, return the
    assignment data. *)
Definition retrieve_pull_requests (fuel : nat) (owner repo : value)
  : M value :=
  pulls_json <~ lift (fetch_pull_requests fuel owner repo) ;;
  for_each (retrieve_pull_request owner repo) pulls_json ~;;
  readM (fun assignment_data => Ret assignment_data).

(** The state is [assignment_data]; the result is [False] after a
    [RequestException] and the assignment data otherwise. *)
Definition retrieve_assignment_submission_data (fuel : nat)
    (assignment_id : value) : M value :=
  owner <~ readM (fun assignment_data => item assignment_data "github_org") ;;
  repo <~ readM (fun assignment_data => item assignment_data "repo_name") ;;
  modifyM init_pull_requests ~;;
  try_except_request (retrieve_pull_requests fuel owner repo)
    (retM (VBool false)).

(** [try: m  except Exception: pass], for a block that leaves [values]
    as they were when it raises. *)
Definition try_except_pass {A : Type} (m : outcome A) (unchanged : A)
  : outcome A :=
  match m with
  | Ret a => Ret a
  | Raise _ => Ret unchanged
  | OutOfFuel => OutOfFuel
  end.

(** [workflow_run.get('conclusion') == 'success'] on the [workflow_run]
    of one pull request. *)
Definition passes_preliminary_checks (pull_request_data : value)
  : outcome bool :=
  workflow_run <- get_default pull_request_data "workflow_run" (VDict []) ;;
  conclusion <- get workflow_run "conclusion" ;;
  Ret (py_eq conclusion (VStr "success")).

(** The body of the loop over [pull_requests.items()]. *)
Definition add_assignment_submission_record (assignment_id : value)
    (values : list row) (entry : key * value) : outcome (list row) :=
  let (pr_number, pull_request_data) := entry in
  pr_state <- get pull_request_data "state" ;;
  github_username <- get pull_request_data "github_username" ;;
  submission_link <- get pull_request_data "submission_link" ;;
  passes_preliminary_checks <- passes_preliminary_checks pull_request_data ;;
  submission_time <- get pull_request_data "submission_time" ;;
  try_except_pass
    (if truthy github_username then
       user_result <- query_user_id github_username ;;
       user_id <-
         (if negb (truthy user_result) then Ret (VStr "null")
          else getitem user_result (VInt 0)) ;;
       Ret (values ++ [mkRow user_id assignment_id submission_link
                         passes_preliminary_checks submission_time
                         pull_request_data github_username pr_state])%list
     else Ret values)
    values.

Fixpoint add_assignment_submissions_loop (assignment_id : value)
    (values : list row) (entries : list (key * value))
  : outcome (list row) :=
  match entries with
  | [] => Ret values
  | entry :: rest =>
      values' <- add_assignment_submission_record assignment_id values entry ;;
      add_assignment_submissions_loop assignment_id values' rest
  end.

Definition add_assignment_submissions_records
    (assignment_id assignment_data : value) : outcome (list row) :=
  pull_requests <- item assignment_data "pull_requests" ;;
  entries <- dict_items pull_requests ;;
  add_assignment_submissions_loop assignment_id [] entries.

(** The body of the loop of [main] over [assignments.items()]; the state
    is the assignment's own [assignment_data]. [json_path] is the decoded
    content of the file at that path, [None] for the empty path. *)
Definition main_assignment (fuel : nat) (json_path : option value)
    (values : list row) (assignment_id : value) : M (list row) :=
  owner <~ readM (fun assignment_data => get assignment_data "github_org") ;;
  repo <~ readM (fun assignment_data => get assignment_data "repo_name") ;;
  if negb (truthy owner) || negb (truthy repo) then lift (Raise ValueError)
  else
    new_assignment_data <~
      match json_path with
      | Some content => retM content
      | None => retrieve_assignment_submission_data fuel assignment_id
      end ;;
    if truthy new_assignment_data then
      rows <~ lift (add_assignment_submissions_records assignment_id
                      new_assignment_data) ;;
      retM (values ++ rows)%list
    else retM values.

(** The loop of [main]: the assignments with their final state, and the
    values collected for the insert. An exception leaves the loop. *)
Fixpoint main_loop (fuel : nat) (json_path : option value)
    (assignments : list (value * value)) (values : list row)
  : list (value * value) * outcome (list row) :=
  match assignments with
  | [] => ([], Ret values)
  | (assignment_id, assignment_data) :: rest =>
      match main_assignment fuel json_path values assignment_id
              assignment_data with
      | (assignment_data', Ret values') =>
          let (rest', result) := main_loop fuel json_path rest values' in
          ((assignment_id, assignment_data') :: rest', result)
      | (assignment_data', Raise e) =>
          ((assignment_id, assignment_data') :: rest, Raise e)
      | (assignment_data', OutOfFuel) =>
          ((assignment_id, assignment_data') :: rest, OutOfFuel)
      end
  end.

(** [main], from the assignments [query_assignments] returned: the rows
    of the [VALUES] clause handed to [execute_insert_query] (none when
    the list is empty), next to the final state of the assignments. *)
Definition main (fuel : nat) (json_path : option value)
    (assignments : list (value * value))
  : list (value * value) * outcome (list row) :=
  main_loop fuel json_path assignments [].

End Pipeline.

(** ** Resolved workflow runs

    The selector works on the details its loop fetches, one per summary
    that carries a run identifier. [run_detail] is the part of a detail
    the selector reads, [decode_run] reads it off a response body, and
    [resolve_runs] is the list of details the loop will see. *)

Record run_detail : Type := mkRunDetail {
  d_run_id : value;
  d_run_number : value;
  d_event : value;
  d_status : value;
  d_conclusion : value;
  d_created_at : value;
  d_updated_at : string;
  d_html_url : value;
  d_full_name : value;
  d_fork : value
}.

Definition returned {A : Type} (o : outcome A) : option A :=
  match o with
  | Ret a => Some a
  | _ => None
  end.

Notation "'let?' x := e 'in' k" :=
  (match e with Some x => k | None => None end)
  (at level 10, x pattern, e at level 100, k at level 200).

Definition as_str (v : value) : option string :=
  match v with
  | VStr s => Some s
  | _ => None
  end.

Definition decode_run (run_id workflow_json : value) : option run_detail :=
  let? run_number := returned (item workflow_json "run_number") in
  let? event := returned (item workflow_json "event") in
  let? status := returned (item workflow_json "status") in
  let? conclusion := returned (item workflow_json "conclusion") in
  let? created_at := returned (item workflow_json "created_at") in
  let? updated_at := returned (item workflow_json "updated_at") in
  let? updated_at := as_str updated_at in
  let? html_url := returned (item workflow_json "html_url") in
  let? head_repository := returned (item workflow_json "head_repository") in
  let? full_name := returned (item head_repository "full_name") in
  let? fork := returned (item head_repository "fork") in
  Some (mkRunDetail run_id run_number event status conclusion created_at
          updated_at html_url full_name fork).

(** The record the selector builds from a detail. *)
Definition record_of (d : run_detail) : value :=
  dict_of [("run_id", d_run_id d);
           ("run_number", d_run_number d);
           ("event", d_event d);
           ("status", d_status d);
           ("conclusion", d_conclusion d);
           ("created_at", d_created_at d);
           ("updated_at", VStr (d_updated_at d));
           ("workflow_url", d_html_url d);
           ("head_repository", d_full_name d);
           ("fork", d_fork d)].

Section Resolution.

Variable http_get : request -> outcome response.
Variables owner repo : value.

Fixpoint resolve_runs (workflow_runs : list value)
  : option (list run_detail) :=
  match workflow_runs with
  | [] => Some []
  | workflow_run :: rest =>
      let? run_id := returned (get workflow_run "id") in
      if truthy run_id then
        let? res := returned (http_get (GetRun owner repo run_id)) in
        let? _ := returned (raise_for_status res) in
        let? d := decode_run run_id (body res) in
        let? ds := resolve_runs rest in
        Some (d :: ds)
      else resolve_runs rest
  end.

End Resolution.

(** A run that completed with success. *)
Definition is_success (d : run_detail) : Prop :=
  d_status d = VStr "completed" /\ d_conclusion d = VStr "success".

Definition successb (d : run_detail) : bool :=
  py_eq (d_status d) (VStr "completed") &&
  py_eq (d_conclusion d) (VStr "success").

(** Lexicographic order on timestamps. *)
Definition str_lt (a b : string) : Prop := String.compare a b = Lt.
Definition str_le (a b : string) : Prop := String.compare a b <> Gt.

(** [d], at position [i] of [ds], is the first of the runs satisfying [P]
    that have the greatest [updated_at] among them. *)
Definition first_latest (P : run_detail -> Prop) (ds : list run_detail)
    (i : nat) (d : run_detail) : Prop :=
  nth_error ds i = Some d /\ P d /\
  forall j d', nth_error ds j = Some d' -> P d' ->
    str_le (d_updated_at d') (d_updated_at d) /\
    ((j < i)%nat -> str_lt (d_updated_at d') (d_updated_at d)).

(** The selector's loop on resolved details: the pair of the latest
    successful run and the latest run so far. *)
Definition newer (d : run_detail) (current : option run_detail) : bool :=
  match current with
  | None => true
  | Some c => str_gt (d_updated_at d) (d_updated_at c)
  end.

Definition select_step (best : option run_detail * option run_detail)
    (d : run_detail) : option run_detail * option run_detail :=
  (if successb d && newer d (fst best) then Some d else fst best,
   if newer d (snd best) then Some d else snd best).

Definition encode_run (current : option run_detail) : value :=
  match current with
  | None => VNone
  | Some d => record_of d
  end.

(** The latest run among those satisfying [P], starting from [current]. *)
Fixpoint latest (P : run_detail -> bool) (current : option run_detail)
    (ds : list run_detail) : option run_detail :=
  match ds with
  | [] => current
  | d :: rest =>
      latest P (if P d && newer d current then Some d else current) rest
  end.

(** ** The pull requests of an assignment *)

(** The state holds the dictionary [prs] under ['pull_requests']. *)
Definition has_pulls (assignment_data : value) (prs : list (key * value))
  : Prop :=
  item assignment_data "pull_requests" = Ret (VDict prs).

(** The key under which a raw pull request is stored, when its number is
    there and hashable. *)
Definition pull_request_key (pull_request : value) : option key :=
  let? pr_number := returned (item pull_request "number") in
  returned (to_key pr_number).

(** How many entries of a dictionary carry the key. *)
Fixpoint count_key (k : key) (kvs : list (key * value)) : nat :=
  match kvs with
  | [] => 0
  | (k', _) :: rest => (if key_eqb k k' then 1 else 0) + count_key k rest
  end.

(** [prs'] is [prs], possibly after assignments to the key of
    [pr_number]. *)
Inductive touched (pr_number : value) (prs : list (key * value))
  : list (key * value) -> Prop :=
| touched_none : touched pr_number prs prs
| touched_set prs' k record :
    touched pr_number prs prs' ->
    to_key pr_number = Ret k ->
    touched pr_number prs (dict_set k record prs').

(** A request fails in transport: the call raises, or the response has a
    client or server error status. *)
Definition request_fails (http_get : request -> outcome response)
    (r : request) : Prop :=
  http_get r = Raise RequestException \/
  exists res, http_get r = Ret res /\ 400 <= status_code res < 600.

(** A transport error interrupts the [try] block started in state [s1] and
    leaves state [s3]: the listing of the pull requests fails, or the
    processing of one of the listed pull requests does after those before
    it were processed. *)
Definition transport_error (http_get : request -> outcome response)
    (fuel : nat) (owner repo : value) (s1 s3 : value) : Prop :=
  (fetch_pull_requests http_get fuel owner repo = Raise RequestException /\
   s3 = s1)
  \/ (exists before pull_request after s2,
         fetch_pull_requests http_get fuel owner repo
         = Ret (before ++ pull_request :: after)%list /\
         for_each (retrieve_pull_request http_get owner repo) before s1
         = (s2, Ret tt) /\
         retrieve_pull_request http_get owner repo pull_request s2
         = (s3, Raise RequestException)).

(** A raw pull request that carries every field the loop reads, with a
    truthy number, hashable as [k], and a truthy head SHA. *)
Definition complete_pull (pull_request pr_number head_sha : value) (k : key)
  : Prop :=
  item pull_request "number" = Ret pr_number /\
  (head <- item pull_request "head" ;; item head "sha") = Ret head_sha /\
  truthy pr_number = true /\
  truthy head_sha = true /\
  to_key pr_number = Ret k /\
  (exists pr_id, item pull_request "id" = Ret pr_id) /\
  (exists state, item pull_request "state" = Ret state) /\
  (exists submission_link, item pull_request "html_url" = Ret submission_link) /\
  (exists github_username,
      (user <- item pull_request "user" ;; item user "login")
      = Ret github_username) /\
  (exists submission_time, item pull_request "created_at" = Ret submission_time).

(** Two states of [assignment_data] are dictionaries that agree on every
    field other than ['pull_requests']. *)
Definition same_other_fields (s s' : value) : Prop :=
  exists kvs kvs',
    s = VDict kvs /\ s' = VDict kvs' /\
    forall k, k <> KStr "pull_requests" ->
              dict_lookup k kvs' = dict_lookup k kvs.

(** [best_run] is [None], or the record built from the detail fetched for
    the identifier of one of the summaries. *)
Definition built_from_run (http_get : request -> outcome response)
    (owner repo : value) (workflow_runs : list value) (best_run : value)
  : Prop :=
  best_run = VNone \/
  exists workflow_run run_id workflow_json,
    In workflow_run workflow_runs /\
    get workflow_run "id" = Ret run_id /\
    truthy run_id = true /\
    fetch_workflow_run_id http_get owner repo run_id = Ret workflow_json /\
    run_record run_id workflow_json (item workflow_json "conclusion")
    = Ret best_run /\
    item best_run "run_id" = Ret run_id.

(** ** Paginated resources *)

(** The response announces a next page. *)
Definition has_next (res : response) : bool :=
  match link res with
  | Some links => str_contains rel_next links
  | None => false
  end.

(** The items split into pages of [page_size], the last one shorter when
    the size does not divide their number. *)
Fixpoint chunks_upto (n page_size : nat) (items : list value)
  : list (list value) :=
  match n with
  | O => []
  | S n' =>
      match items with
      | [] => []
      | _ :: _ =>
          firstn page_size items
          :: chunks_upto n' page_size (skipn page_size items)
      end
  end.

Definition chunks (page_size : nat) (items : list value) : list (list value) :=
  chunks_upto (List.length items) page_size items.

(** The API serves [pages] as the pull requests of a repository: page
    [k + 1] answers with the [k]-th page and announces a next page exactly
    when there is one; a resource without items answers its first page
    with an empty list. *)
Definition serves_pages (http_get : request -> outcome response)
    (owner repo : value) (pages : list (list value)) : Prop :=
  (forall k page,
      nth_error pages k = Some page ->
      exists res,
        http_get (GetPulls owner repo (Z.of_nat k + 1)) = Ret res /\
        200 <= status_code res < 300 /\
        body res = VList page /\
        (has_next res = true <-> (S k < List.length pages)%nat)) /\
  (pages = [] ->
   exists res,
     http_get (GetPulls owner repo 1) = Ret res /\
     200 <= status_code res < 300 /\
     body res = VList []).

(** ** A scripted API

    A stand-in for the hosting API, answering from tables: the pages of
    pull requests of each repository, the run list of each head commit and
    the detail of each run. *)

Module Scripted.

Definition ok (body : value) (link : option string) : response :=
  mkResponse 200 body link.

Fixpoint assoc {A : Type} (k : value) (table : list (value * A))
  : option A :=
  match table with
  | [] => None
  | (k', a) :: rest => if py_eq k k' then Some a else assoc k rest
  end.

Definition api (pulls : list (value * list response))
    (runs details : list (value * response)) (r : request)
  : outcome response :=
  match r with
  | GetPulls _ repo page =>
      match assoc repo pulls with
      | Some pages =>
          match nth_error pages (Z.to_nat (page - 1)) with
          | Some res => Ret res
          | None => Ret (ok (VList []) None)
          end
      | None => Ret (mkResponse 404 (dict_of [("message", VStr "Not Found")])
                       None)
      end
  | GetActionsRuns _ _ head_sha =>
      match assoc head_sha runs with
      | Some res => Ret res
      | None => Ret (ok (dict_of [("total_count", VInt 0);
                                  ("workflow_runs", VList [])]) None)
      end
  | GetRun _ _ run_id =>
      match assoc run_id details with
      | Some res => Ret res
      | None => Ret (mkResponse 404 (dict_of [("message", VStr "Not Found")])
                       None)
      end
  end.

(** No user is known to the database. *)
Definition no_user (github_username : value) : outcome value := Ret VNone.

Definition pull (number : Z) (head_sha login : string) : value :=
  dict_of [("id", VInt (1000 + number));
           ("number", VInt number);
           ("state", VStr "open");
           ("html_url", VStr "https://github.com/org/repo/pull");
           ("user", dict_of [("login", VStr login)]);
           ("created_at", VStr "2024-01-01T09:00:00Z");
           ("head", dict_of [("sha", VStr head_sha)])].

Definition run_summary (run_id : Z) : value :=
  dict_of [("id", VInt run_id)].

Definition run_list (run_ids : list Z) : response :=
  ok (dict_of [("total_count", VInt (Z.of_nat (List.length run_ids)));
               ("workflow_runs", VList (map run_summary run_ids))]) None.

Definition run_json (run_id : Z) (status : string) (conclusion : value)
    (updated_at : string) : value :=
  dict_of [("id", VInt run_id);
           ("run_number", VInt run_id);
           ("event", VStr "pull_request");
           ("status", VStr status);
           ("conclusion", conclusion);
           ("created_at", VStr "2024-01-01T09:00:00Z");
           ("updated_at", VStr updated_at);
           ("html_url", VStr "https://github.com/org/repo/actions/runs");
           ("head_repository",
            dict_of [("full_name", VStr "student/repo");
                     ("fork", VBool true)])].

Definition run_detail_of (run_id : Z) (status : string) (conclusion : value)
    (updated_at : string) : run_detail :=
  mkRunDetail (VInt run_id) (VInt run_id) (VStr "pull_request")
    (VStr status) conclusion (VStr "2024-01-01T09:00:00Z") updated_at
    (VStr "https://github.com/org/repo/actions/runs")
    (VStr "student/repo") (VBool true).

Definition org : value := VStr "org".
Definition repo : value := VStr "repo".

(** Three runs of one commit: success, a later failure, a success later
    still; a fourth run without identifier. *)
Definition three_runs : list value :=
  [run_summary 1; run_summary 2; dict_of [("name", VStr "CI")];
   run_summary 3].

Definition three_runs_api : request -> outcome response :=
  api [] []
    [(VInt 1, ok (run_json 1 "completed" (VStr "success")
                    "2024-01-01T10:00:00Z") None);
     (VInt 2, ok (run_json 2 "completed" (VStr "failure")
                    "2024-01-01T11:00:00Z") None);
     (VInt 3, ok (run_json 3 "completed" (VStr "success")
                    "2024-01-01T12:00:00Z") None)].

Definition three_details : list run_detail :=
  [run_detail_of 1 "completed" (VStr "success") "2024-01-01T10:00:00Z";
   run_detail_of 2 "completed" (VStr "failure") "2024-01-01T11:00:00Z";
   run_detail_of 3 "completed" (VStr "success") "2024-01-01T12:00:00Z"].

(** Two runs of one commit, neither a success: a failure and a run still
    in progress, updated at the same time. *)
Definition two_runs : list value := [run_summary 4; run_summary 5].

Definition two_runs_api : request -> outcome response :=
  api [] []
    [(VInt 4, ok (run_json 4 "completed" (VStr "failure")
                    "2024-01-02T10:00:00Z") None);
     (VInt 5, ok (run_json 5 "in_progress" VNone
                    "2024-01-02T10:00:00Z") None)].

Definition two_details : list run_detail :=
  [run_detail_of 4 "completed" (VStr "failure") "2024-01-02T10:00:00Z";
   run_detail_of 5 "in_progress" VNone "2024-01-02T10:00:00Z"].

Definition rel (name : string) : string :=
  "rel=" ++ String "034" name ++ String "034" "".

(** Five pull requests served two to a page. *)
Definition five_pulls : list value :=
  [pull 1 "a1" "ada"; pull 2 "b2" "bob"; pull 3 "c3" "cy";
   pull 4 "d4" "dee"; pull 5 "e5" "eve"].

Definition five_pulls_api : request -> outcome response :=
  api [(repo,
        [ok (VList [pull 1 "a1" "ada"; pull 2 "b2" "bob"])
            (Some ("<https://api.github.com/pulls?page=2>; " ++ rel "next"
                   ++ ", <https://api.github.com/pulls?page=3>; "
                   ++ rel "last"));
          ok (VList [pull 3 "c3" "cy"; pull 4 "d4" "dee"])
            (Some ("<https://api.github.com/pulls?page=1>; " ++ rel "prev"
                   ++ ", <https://api.github.com/pulls?page=3>; "
                   ++ rel "next"));
          ok (VList [pull 5 "e5" "eve"])
            (Some ("<https://api.github.com/pulls?page=2>; " ++ rel "prev"
                   ++ ", <https://api.github.com/pulls?page=1>; "
                   ++ rel "first"))])] [] [].

(** An assignment as [query_assignments] yields it. *)
Definition assignment (repo_name : string) : value :=
  dict_of [("assignment_title", VStr "Homework");
           ("assignment_link", VStr "https://example.org/homework");
           ("github_org", VStr "org");
           ("repo_name", VStr repo_name)].

(** A repository with two pull requests: the head commit of the first
    has one run, completed with success; the head commit of the second
    has no run. *)
Definition scenario_api : request -> outcome response :=
  api [(repo, [ok (VList [pull 1 "a1" "ada"; pull 2 "b2" "bob"]) None])]
      [(VStr "a1", run_list [11])]
      [(VInt 11, ok (run_json 11 "completed" (VStr "success")
                       "2024-01-01T10:00:00Z") None)].

Definition server_error : response :=
  mkResponse 500 (dict_of [("message", VStr "Server Error")]) None.

(** Two assignments. The repository of the first has four pull
    requests, and the run list of the third one's head commit fails
    with status 500; the repository of the second has one pull request
    with a successful run. *)
Definition batch_api : request -> outcome response :=
  api [(VStr "repoA",
        [ok (VList [pull 1 "a1" "ada"; pull 2 "a2" "bob";
                    pull 3 "a3" "cy"; pull 4 "a4" "dee"]) None]);
       (VStr "repoB", [ok (VList [pull 1 "b1" "eve"]) None])]
      [(VStr "a1", run_list [11]);
       (VStr "a3", server_error);
       (VStr "b1", run_list [21])]
      [(VInt 11, ok (run_json 11 "completed" (VStr "success")
                       "2024-01-01T10:00:00Z") None);
       (VInt 21, ok (run_json 21 "completed" (VStr "success")
                       "2024-01-03T10:00:00Z") None)].

(** An assignment without repository name. *)
Definition incomplete_assignment : value :=
  dict_of [("assignment_title", VStr "Homework");
           ("assignment_link", VStr "https://example.org/homework");
           ("github_org", VStr "org");
           ("repo_name", VNone)].

(** A raw pull request whose [head] has no [sha]. *)
Definition pull_without_sha : value :=
  dict_of [("id", VInt 1002);
           ("number", VInt 2);
           ("state", VStr "open");
           ("html_url", VStr "https://github.com/org/repo/pull");
           ("user", dict_of [("login", VStr "bob")]);
           ("created_at", VStr "2024-01-01T09:00:00Z");
           ("head", dict_of [("ref", VStr "main")])].

(** A raw pull request whose [head.sha] is [null]. *)
Definition pull_null_sha : value :=
  dict_of [("id", VInt 1002);
           ("number", VInt 2);
           ("state", VStr "open");
           ("html_url", VStr "https://github.com/org/repo/pull");
           ("user", dict_of [("login", VStr "bob")]);
           ("created_at", VStr "2024-01-01T09:00:00Z");
           ("head", dict_of [("sha", VNone)])].

(** The first repository lists a pull request without [head.sha] between
    two regular ones. *)
Definition malformed_api : request -> outcome response :=
  api [(VStr "repoA",
        [ok (VList [pull 1 "a1" "ada"; pull_without_sha;
                    pull 3 "a3" "cy"]) None]);
       (VStr "repoB", [ok (VList [pull 1 "b1" "eve"]) None])]
      [] [].

(** The same listing with a [null] [head.sha] instead. *)
Definition null_sha_api : request -> outcome response :=
  api [(VStr "repoA",
        [ok (VList [pull 1 "a1" "ada"; pull_null_sha;
                    pull 3 "a3" "cy"]) None])]
      [] [].

(** One pull request whose only run is still in progress and yet
    carries the conclusion [success]. *)
Definition in_progress_api : request -> outcome response :=
  api [(repo, [ok (VList [pull 1 "a1" "ada"]) None])]
      [(VStr "a1", run_list [11])]
      [(VInt 11, ok (run_json 11 "in_progress" (VStr "success")
                       "2024-01-01T10:00:00Z") None)].

(** Assignment data whose second pull request has no author handle. *)
Definition anonymous_data : value :=
  dict_of [("github_org", VStr "org");
           ("repo_name", VStr "repo");
           ("pull_requests",
            VDict [(KInt 1, dict_of [("state", VStr "open");
                                     ("github_username", VStr "ada");
                                     ("workflow_run", VDict [])]);
                   (KInt 2, dict_of [("state", VStr "open");
                                     ("github_username", VStr "");
                                     ("workflow_run", VDict [])]);
                   (KInt 3, dict_of [("state", VStr "closed");
                                     ("workflow_run", VDict [])])])].

(** The first assignment of the batch when its [try] block starts, and
    when the failing run list interrupts it. *)
Definition repoA_started : value :=
  Eval vm_compute in
    match init_pull_requests (assignment "repoA") with
    | Ret s => s
    | _ => VNone
    end.

Definition repoA_interrupted : value :=
  Eval vm_compute in
    fst (retrieve_assignment_submission_data batch_api 5 (VInt 1)
           (assignment "repoA")).

(** The record of a pull request whose selected run is in progress with
    conclusion [success], and the row built from it. *)
Definition in_progress_record : value :=
  dict_of [("pr_id", VInt 1001);
           ("state", VStr "open");
           ("submission_link", VStr "https://github.com/org/repo/pull");
           ("github_username", VStr "ada");
           ("submission_time", VStr "2024-01-01T09:00:00Z");
           ("head_sha", VStr "a1");
           ("workflow_run",
            record_of (run_detail_of 11 "in_progress" (VStr "success")
                         "2024-01-01T10:00:00Z"))].

Definition in_progress_row : row :=
  mkRow (VStr "null") (VInt 1) (VStr "https://github.com/org/repo/pull")
    true (VStr "2024-01-01T09:00:00Z") in_progress_record (VStr "ada")
    (VStr "open").

(** Two successful runs updated at the same time. *)
Definition tied_runs : list value := [run_summary 6; run_summary 7].

Definition tied_runs_api : request -> outcome response :=
  api [] []
    [(VInt 6, ok (run_json 6 "completed" (VStr "success")
                    "2024-01-02T10:00:00Z") None);
     (VInt 7, ok (run_json 7 "completed" (VStr "success")
                    "2024-01-02T10:00:00Z") None)].

(** The first page announces a next page, which fails. *)
Definition failing_page_api : request -> outcome response :=
  api [(repo,
        [ok (VList [pull 1 "a1" "ada"; pull 2 "b2" "bob"])
            (Some ("<https://api.github.com/pulls?page=2>; " ++ rel "next"));
          server_error])] [] [].

(** Every page holds one pull request and announces a next page. *)
Definition endless_api (r : request) : outcome response :=
  Ret (ok (VList [pull 1 "a1" "ada"])
          (Some ("<https://api.github.com/pulls>; " ++ rel "next"))).

(** The run list of the only pull request has no ['workflow_runs']. *)
Definition no_key_api : request -> outcome response :=
  api [(repo, [ok (VList [pull 1 "a1" "ada"]) None])]
      [(VStr "a1", ok (dict_of [("total_count", VInt 0)]) None)] [].

(** The run list of the only pull request has [null] under
    ['workflow_runs']. *)
Definition null_runs_api : request -> outcome response :=
  api [(repo, [ok (VList [pull 1 "a1" "ada"]) None])]
      [(VStr "a1", ok (dict_of [("total_count", VInt 0);
                                ("workflow_runs", VNone)]) None)] [].

(** The head commit of the only pull request has two runs; the detail of
    the second is not found. *)
Definition missing_run_api : request -> outcome response :=
  api [(repo, [ok (VList [pull 1 "a1" "ada"]) None])]
      [(VStr "a1", run_list [11; 12])]
      [(VInt 11, ok (run_json 11 "completed" (VStr "success")
                       "2024-01-01T10:00:00Z") None)].

(** The user lookup fails for one username and finds no user otherwise. *)
Definition failing_lookup (github_username : value) : outcome value :=
  if py_eq github_username (VStr "bob") then Raise DatabaseError
  else Ret VNone.

Definition entry (number : Z) (login : string) : key * value :=
  (KInt number,
   dict_of [("state", VStr "open");
            ("submission_link", VStr "https://github.com/org/repo/pull");
            ("github_username", VStr login);
            ("submission_time", VStr "2024-01-01T09:00:00Z");
            ("workflow_run", VDict [])]).

(** An entry whose ['workflow_run'] is [null]. *)
Definition null_run_entry : key * value :=
  (KInt 9,
   dict_of [("state", VStr "open");
            ("github_username", VStr "zed");
            ("workflow_run", VNone)]).

End Scripted.

(** * Properties *)

(** ** Lexicographic order on strings *)

Lemma ascii_compare_refl (a : ascii) : Ascii.compare a a = Eq.
Proof. unfold Ascii.compare. apply N.compare_refl. Qed.

Lemma ascii_compare_lt_trans (a b c : ascii) :
  Ascii.compare a b = Lt -> Ascii.compare b c = Lt -> Ascii.compare a c = Lt.
Proof.
  unfold Ascii.compare. rewrite !N.compare_lt_iff. apply N.lt_trans.
Qed.

Lemma str_compare_refl (s : string) : String.compare s s = Eq.
Proof.
  induction s as [|a s IH]; simpl; [reflexivity|].
  now rewrite ascii_compare_refl.
Qed.

Lemma str_compare_lt_trans (s t u : string) :
  String.compare s t = Lt -> String.compare t u = Lt -> String.compare s u = Lt.
Proof.
  revert t u. induction s as [|a s IH]; intros [|b t] [|c u]; simpl;
    try discriminate; try reflexivity.
  destruct (Ascii.compare a b) eqn:Hab; try discriminate;
    destruct (Ascii.compare b c) eqn:Hbc; try discriminate; intros H1 H2.
  - apply Ascii.compare_eq_iff in Hab, Hbc. subst.
    rewrite ascii_compare_refl. eauto.
  - apply Ascii.compare_eq_iff in Hab. subst. now rewrite Hbc.
  - apply Ascii.compare_eq_iff in Hbc. subst. now rewrite Hab.
  - now rewrite (ascii_compare_lt_trans _ _ _ Hab Hbc).
Qed.

Lemma str_gt_lt (a b : string) : str_gt a b = true <-> str_lt b a.
Proof.
  unfold str_gt, str_lt. rewrite (String.compare_antisym b a).
  destruct (String.compare a b); simpl; split; congruence.
Qed.

Lemma str_gt_false_le (a b : string) : str_gt a b = false <-> str_le a b.
Proof.
  unfold str_gt, str_le. destruct (String.compare a b); split; congruence.
Qed.

Lemma str_le_refl (a : string) : str_le a a.
Proof. unfold str_le. now rewrite str_compare_refl. Qed.

Lemma str_lt_le (a b : string) : str_lt a b -> str_le a b.
Proof. unfold str_lt, str_le. congruence. Qed.

Lemma str_lt_trans (a b c : string) : str_lt a b -> str_lt b c -> str_lt a c.
Proof. apply str_compare_lt_trans. Qed.

Lemma str_le_lt_trans (a b c : string) : str_le a b -> str_lt b c -> str_lt a c.
Proof.
  unfold str_le, str_lt. intros Hab Hbc.
  destruct (String.compare a b) eqn:E; try congruence.
  - apply String.compare_eq_iff in E. now subst.
  - eapply str_compare_lt_trans; eauto.
Qed.

(** ** Selection on resolved runs *)

Lemma select_step_latest (ds : list run_detail)
    (r m : option run_detail) :
  fold_left select_step ds (r, m)
  = (latest successb r ds, latest (fun _ => true) m ds).
Proof.
  revert r m. induction ds as [|d ds IH]; intros r m; simpl; [reflexivity|].
  unfold select_step at 2. simpl. apply IH.
Qed.

Section Latest.

Variable P : run_detail -> bool.
Variable Q : run_detail -> Prop.
Hypothesis PQ : forall d, P d = true <-> Q d.

Lemma latest_spec (ds : list run_detail) :
  forall current,
    match latest P current ds with
    | None => current = None /\ forall d, In d ds -> ~ Q d
    | Some d =>
        (current = Some d /\
         forall d', In d' ds -> Q d' ->
                    str_le (d_updated_at d') (d_updated_at d))
        \/ (exists i, first_latest Q ds i d /\
                      forall c, current = Some c ->
                                str_lt (d_updated_at c) (d_updated_at d))
    end.
Proof.
  induction ds as [|x rest IH]; intros current; simpl.
  - destruct current as [c|]; [left|]; split; auto; intros ? [].
  - specialize (IH (if P x && newer x current then Some x else current)).
    destruct (latest P _ rest) as [d|].
    + destruct (P x && newer x current) eqn:Htake.
      * apply andb_true_iff in Htake as [HP Hnew]. apply PQ in HP.
        right. destruct IH as [[Hd Hle]|[i [[Hi [HQ Hall]] Hlt]]].
        -- injection Hd as <-. exists 0%nat. split.
           ++ split; [reflexivity|]. split; [exact HP|].
              intros [|j] d' Hj Hd'; simpl in Hj.
              ** injection Hj as <-. split; [apply str_le_refl|lia].
              ** split; [|lia]. eapply Hle; eauto using nth_error_In.
           ++ intros c ->. simpl in Hnew. now apply str_gt_lt.
        -- exists (S i). split.
           ++ split; [exact Hi|]. split; [exact HQ|].
              intros [|j] d' Hj Hd'; simpl in Hj.
              ** injection Hj as <-.
                 specialize (Hlt _ eq_refl).
                 split; [now apply str_lt_le|auto].
              ** destruct (Hall j d' Hj Hd') as [Hle' Hlt'].
                 split; [exact Hle'|]. intros. apply Hlt'. lia.
           ++ intros c ->. simpl in Hnew. apply str_gt_lt in Hnew.
              eapply str_lt_trans; eauto.
      * destruct IH as [[Hd Hle]|[i [[Hi [HQ Hall]] Hlt]]].
        -- left. split; [exact Hd|]. intros d' [<-|Hin] Hd'; [|auto].
           apply PQ in Hd'. rewrite Hd' in Htake. subst current.
           simpl in Htake. now apply str_gt_false_le.
        -- right. exists (S i). split; [|exact Hlt].
           split; [exact Hi|]. split; [exact HQ|].
           intros [|j] d' Hj Hd'; simpl in Hj.
           ** injection Hj as <-. apply PQ in Hd'. rewrite Hd' in Htake.
              destruct current as [c|]; simpl in Htake; [|discriminate].
              apply str_gt_false_le in Htake.
              assert (str_lt (d_updated_at x) (d_updated_at d))
                by (eapply str_le_lt_trans; eauto).
              split; [now apply str_lt_le|auto].
           ** destruct (Hall j d' Hj Hd') as [Hle' Hlt'].
              split; [exact Hle'|]. intros. apply Hlt'. lia.
    + destruct IH as [Hcur Hnone].
      destruct (P x && newer x current) eqn:Htake; [discriminate|].
      subst current. split; [reflexivity|].
      intros d [<-|Hin]; [|auto]. intros Hd. apply PQ in Hd.
      rewrite Hd in Htake. discriminate.
Qed.

Lemma latest_first_latest (ds : list run_detail) :
  (exists d, In d ds /\ Q d) ->
  exists i d, latest P None ds = Some d /\ first_latest Q ds i d.
Proof.
  intros [d0 [Hin HQ]]. pose proof (latest_spec ds None) as H.
  destruct (latest P None ds) as [d|].
  - destruct H as [[? _]|[i [H _]]]; [discriminate|]. eauto.
  - destruct H as [_ H]. exfalso. eapply H; eauto.
Qed.

End Latest.

(** ** The selector's loop follows the selection on resolved runs *)

Lemma py_eq_str (v : value) (s : string) :
  py_eq v (VStr s) = true <-> v = VStr s.
Proof.
  destruct v; simpl; try (split; [discriminate|intros H; discriminate H]).
  rewrite String.eqb_eq. split; congruence.
Qed.

Lemma successb_is_success (d : run_detail) :
  successb d = true <-> is_success d.
Proof.
  unfold successb, is_success.
  now rewrite andb_true_iff, !py_eq_str.
Qed.

Ltac invert_returned :=
  repeat match goal with
    | H : context [returned ?o] |- _ =>
        let E := fresh "E" in
        destruct o eqn:E; simpl returned in H; try discriminate H
    | H : context [as_str ?v] |- _ =>
        destruct v; simpl as_str in H; try discriminate H
    end.

Lemma item_dict_len (c : value) (k : string) (v : value) :
  item c k = Ret v -> exists n, py_len c = Ret n.
Proof.
  destruct c; simpl; try discriminate; eauto.
Qed.

Lemma decode_run_fields (run_id workflow_json : value) (d : run_detail) :
  decode_run run_id workflow_json = Some d ->
  d_run_id d = run_id /\
  item workflow_json "run_number" = Ret (d_run_number d) /\
  item workflow_json "event" = Ret (d_event d) /\
  item workflow_json "status" = Ret (d_status d) /\
  item workflow_json "conclusion" = Ret (d_conclusion d) /\
  item workflow_json "created_at" = Ret (d_created_at d) /\
  item workflow_json "updated_at" = Ret (VStr (d_updated_at d)) /\
  item workflow_json "html_url" = Ret (d_html_url d) /\
  exists head_repository,
    item workflow_json "head_repository" = Ret head_repository /\
    item head_repository "full_name" = Ret (d_full_name d) /\
    item head_repository "fork" = Ret (d_fork d).
Proof.
  unfold decode_run. intros H. invert_returned.
  injection H as <-. simpl. repeat (split; [reflexivity|]).
  eexists. repeat split; eassumption.
Qed.

Lemma run_record_decoded (run_id workflow_json : value) (d : run_detail)
    (conclusion : outcome value) :
  decode_run run_id workflow_json = Some d ->
  conclusion = Ret (d_conclusion d) ->
  run_record run_id workflow_json conclusion = Ret (record_of d).
Proof.
  intros Hd ->. apply decode_run_fields in Hd.
  destruct Hd as (<- & Hn & He & Hs & Hc & Hcr & Hu & Hh & hr & Hr & Hf & Hk).
  unfold run_record. rewrite Hn, He, Hs, Hcr, Hu, Hh, Hr. simpl.
  rewrite Hf, Hk. reflexivity.
Qed.

Lemma is_newer_decoded (run_id workflow_json : value) (d : run_detail)
    (current : option run_detail) :
  decode_run run_id workflow_json = Some d ->
  is_newer workflow_json (encode_run current) = Ret (newer d current).
Proof.
  intros Hd. apply decode_run_fields in Hd.
  destruct Hd as (_ & _ & _ & _ & _ & _ & Hu & _).
  destruct current as [c|]; [|reflexivity].
  unfold is_newer. simpl truthy. simpl negb. cbv iota. rewrite Hu. reflexivity.
Qed.

Section Selector.

Variable http_get : request -> outcome response.
Variables owner repo : value.

Lemma process_workflow_runs_loop_resolved (workflow_runs : list value) :
  forall (ds : list run_detail) (best : option run_detail * option run_detail),
    resolve_runs http_get owner repo workflow_runs = Some ds ->
    process_workflow_runs_loop http_get owner repo
      (encode_run (fst best), encode_run (snd best)) workflow_runs
    = Ret (encode_run (fst (fold_left select_step ds best)),
           encode_run (snd (fold_left select_step ds best))).
Proof.
  induction workflow_runs as [|w rest IH]; intros ds [r m] Hres;
    simpl in Hres.
  - injection Hres as <-. reflexivity.
  - destruct (get w "id") as [run_id| |] eqn:Hid; simpl in Hres;
      try discriminate.
    simpl process_workflow_runs_loop. unfold process_workflow_run.
    cbn [fst snd]. rewrite Hid. cbn [bind].
    destruct (truthy run_id) eqn:Hrun; cbn [negb].
    + destruct (http_get (GetRun owner repo run_id)) as [res| |] eqn:Hget;
        simpl in Hres; try discriminate.
      destruct (raise_for_status res) as [[]| |] eqn:Hst; simpl in Hres;
        try discriminate.
      destruct (decode_run run_id (body res)) as [d|] eqn:Hd;
        try discriminate.
      destruct (resolve_runs http_get owner repo rest) as [ds'|] eqn:Hrest;
        try discriminate.
      injection Hres as <-.
      pose proof (decode_run_fields _ _ _ Hd)
        as (_ & _ & _ & Hs & Hc & _).
      destruct (item_dict_len _ _ _ Hs) as [n Hlen].
      unfold fetch_workflow_run_id. rewrite Hget. cbn [bind].
      rewrite Hst. cbn [bind]. rewrite Hlen. cbn [bind].
      rewrite Hs, Hc. cbn [bind].
      rewrite (is_newer_decoded _ _ _ m Hd), (is_newer_decoded _ _ _ r Hd).
      rewrite (run_record_decoded _ _ d _ Hd eq_refl).
      specialize (IH ds' (select_step (r, m) d) eq_refl).
      simpl fold_left. rewrite <- IH. clear IH.
      unfold select_step, successb. cbn [fst snd].
      destruct (py_eq (d_status d) (VStr "completed")),
        (py_eq (d_conclusion d) (VStr "success")),
        (newer d r), (newer d m); reflexivity.
    + apply (IH ds (r, m) Hres).
Qed.

Lemma process_workflow_runs_resolved (workflow_runs : list value)
    (ds : list run_detail) :
  resolve_runs http_get owner repo workflow_runs = Some ds ->
  process_workflow_runs http_get owner repo (VList workflow_runs)
  = Ret (match latest successb None ds with
         | Some d => record_of d
         | None => encode_run (latest (fun _ => true) None ds)
         end).
Proof.
  intros Hres. unfold process_workflow_runs. simpl py_len. cbn [bind iterate].
  pose proof (process_workflow_runs_loop_resolved _ ds (None, None) Hres)
    as Hloop.
  cbn [fst snd encode_run] in Hloop. rewrite Hloop. cbn [bind].
  rewrite select_step_latest. cbn [fst snd].
  destruct (latest successb None ds); reflexivity.
Qed.

End Selector.

(** ** Best-run selection *)

(** C1. When at least one resolved run completed with success, the
    selector returns the record built from the successful run with the
    lexicographically greatest [updated_at], the first such run in input
    order when several share that timestamp. *)
Theorem process_workflow_runs_success
    (http_get : request -> outcome response) (owner repo : value)
    (workflow_runs : list value) (ds : list run_detail) :
  resolve_runs http_get owner repo workflow_runs = Some ds ->
  (exists d, In d ds /\ is_success d) ->
  exists i d,
    first_latest is_success ds i d /\
    process_workflow_runs http_get owner repo (VList workflow_runs)
    = Ret (record_of d).
Proof.
  intros Hres Hex.
  destruct (latest_first_latest successb is_success successb_is_success
              ds Hex) as (i & d & Hlatest & Hfirst).
  exists i, d. split; [exact Hfirst|].
  rewrite (process_workflow_runs_resolved _ _ _ _ _ Hres), Hlatest.
  reflexivity.
Qed.

Lemma process_workflow_runs_success_witness :
  exists i d,
    first_latest is_success Scripted.three_details i d /\
    process_workflow_runs Scripted.three_runs_api Scripted.org Scripted.repo
      (VList Scripted.three_runs)
    = Ret (record_of d).
Proof.
  apply (process_workflow_runs_success Scripted.three_runs_api Scripted.org
           Scripted.repo Scripted.three_runs Scripted.three_details).
  - reflexivity.
  - exists (Scripted.run_detail_of 3 "completed" (VStr "success")
              "2024-01-01T12:00:00Z").
    split; [simpl; auto|split; reflexivity].
Defined.

(** C2. When no resolved run completed with success, the selector returns
    the record built from the run with the greatest [updated_at] of the
    whole input, the first one on ties; on the empty input it returns
    [None]. *)
Theorem process_workflow_runs_fallback
    (http_get : request -> outcome response) (owner repo : value)
    (workflow_runs : list value) (ds : list run_detail) :
  resolve_runs http_get owner repo workflow_runs = Some ds ->
  (forall d, In d ds -> ~ is_success d) ->
  process_workflow_runs http_get owner repo (VList []) = Ret VNone /\
  match ds with
  | [] =>
      process_workflow_runs http_get owner repo (VList workflow_runs)
      = Ret VNone
  | _ :: _ =>
      exists i d,
        first_latest (fun _ => True) ds i d /\
        process_workflow_runs http_get owner repo (VList workflow_runs)
        = Ret (record_of d)
  end.
Proof.
  intros Hres Hnone. split; [reflexivity|].
  rewrite (process_workflow_runs_resolved _ _ _ _ _ Hres).
  pose proof (latest_spec successb is_success successb_is_success ds None)
    as Hs.
  destruct (latest successb None ds) as [d|].
  - exfalso. destruct Hs as [[? _]|[i [(Hi & Hd & _) _]]]; [discriminate|].
    apply (Hnone d); eauto using nth_error_In.
  - clear Hs. destruct ds as [|d0 ds']; [reflexivity|].
    destruct (latest_first_latest (fun _ => true) (fun _ => True)
                (fun _ => conj (fun _ => I) (fun _ => eq_refl))
                (d0 :: ds')) as (i & d & Hlatest & Hfirst).
    + exists d0. split; [now left|exact I].
    + exists i, d. split; [exact Hfirst|]. now rewrite Hlatest.
Qed.

Lemma process_workflow_runs_fallback_witness :
  process_workflow_runs Scripted.two_runs_api Scripted.org Scripted.repo
    (VList []) = Ret VNone /\
  exists i d,
    first_latest (fun _ => True) Scripted.two_details i d /\
    process_workflow_runs Scripted.two_runs_api Scripted.org Scripted.repo
      (VList Scripted.two_runs)
    = Ret (record_of d).
Proof.
  apply (process_workflow_runs_fallback Scripted.two_runs_api Scripted.org
           Scripted.repo Scripted.two_runs Scripted.two_details).
  - reflexivity.
  - intros d [<-|[<-|[]]] [H1 H2]; discriminate.
Defined.

(** ** Pagination *)

Lemma raise_for_status_success (res : response) :
  200 <= status_code res < 300 -> raise_for_status res = Ret tt.
Proof.
  intros H. unfold raise_for_status.
  destruct (400 <=? status_code res) eqn:E; [|reflexivity].
  apply Z.leb_le in E. lia.
Qed.

Lemma raise_for_status_error (res : response) :
  400 <= status_code res < 600 -> raise_for_status res = Raise RequestException.
Proof.
  intros [H1 H2]. unfold raise_for_status.
  apply Z.leb_le in H1. apply Z.ltb_lt in H2. now rewrite H1, H2.
Qed.

(** One turn of the loop: stop on an empty body, collect the body
    otherwise and go on exactly when a next page is announced. *)
Lemma fetch_pull_requests_loop_step
    (http_get : request -> outcome response) (fuel : nat)
    (owner repo : value) (page : Z) (all_pulls : list value) (res : response) :
  http_get (GetPulls owner repo page) = Ret res ->
  raise_for_status res = Ret tt ->
  fetch_pull_requests_loop http_get (S fuel) owner repo page all_pulls
  = if negb (truthy (body res)) then Ret all_pulls
    else new_pulls <- iterate (body res) ;;
         if has_next res
         then fetch_pull_requests_loop http_get fuel owner repo (page + 1)
                (all_pulls ++ new_pulls)
         else Ret (all_pulls ++ new_pulls)%list.
Proof.
  intros Hget Hst. simpl. rewrite Hget. cbn [bind]. rewrite Hst. cbn [bind].
  destruct (truthy (body res)); cbn [negb]; [|reflexivity].
  destruct (iterate (body res)); cbn [bind]; try reflexivity.
  unfold has_next. destruct (link res) as [links|]; [|reflexivity].
  destruct (str_contains rel_next links); reflexivity.
Qed.

Lemma chunks_upto_concat (page_size : nat) :
  (0 < page_size)%nat ->
  forall n items,
    (List.length items <= n)%nat ->
    List.concat (chunks_upto n page_size items) = items.
Proof.
  intros Hps. induction n as [|n IH]; intros items Hlen; simpl.
  - destruct items; [reflexivity|simpl in Hlen; lia].
  - destruct items as [|x items']; [reflexivity|].
    cbn [List.concat]. rewrite IH.
    + apply firstn_skipn.
    + rewrite length_skipn.
      change (List.length (x :: items')) with (S (List.length items')) in *.
      lia.
Qed.

Lemma chunks_upto_nonempty (page_size : nat) :
  (0 < page_size)%nat ->
  forall n items, Forall (fun page => page <> []) (chunks_upto n page_size items).
Proof.
  intros Hps. induction n as [|n IH]; intros items; simpl; [constructor|].
  destruct items as [|x items']; constructor; [|apply IH].
  destruct page_size; [lia|]. simpl. discriminate.
Qed.

Lemma chunks_upto_length (page_size : nat) :
  (0 < page_size)%nat ->
  forall n items,
    (List.length items <= n)%nat ->
    List.length (chunks_upto n page_size items)
    = ((List.length items + page_size - 1) / page_size)%nat.
Proof.
  intros Hps. induction n as [|n IH]; intros items Hlen.
  - destruct items; [|simpl in Hlen; lia]. simpl.
    symmetry. apply Nat.div_small. lia.
  - destruct items as [|x items'].
    + simpl. symmetry. apply Nat.div_small. lia.
    + cbn [chunks_upto]. set (items := x :: items') in *.
      assert (HN : (1 <= List.length items)%nat) by (subst items; simpl; lia).
      clearbody items.
      change (List.length (firstn page_size items
                           :: chunks_upto n page_size (skipn page_size items)))
        with (S (List.length (chunks_upto n page_size
                                (skipn page_size items)))).
      rewrite IH by (rewrite length_skipn; lia).
      rewrite length_skipn.
      destruct (Nat.le_gt_cases (List.length items) page_size) as [Hle|Hgt].
      * replace (List.length items - page_size)%nat with 0%nat by lia.
        rewrite (Nat.div_small (0 + page_size - 1)) by lia.
        apply (Nat.div_unique _ _ 1 (List.length items - 1)); lia.
      * replace (List.length items + page_size - 1)%nat
          with ((List.length items - page_size + page_size - 1)
                + 1 * page_size)%nat by lia.
        rewrite Nat.div_add by lia. lia.
Qed.

Lemma skipn_nth_error {A : Type} (l : list A) :
  forall k x, nth_error l k = Some x -> skipn k l = x :: skipn (S k) l.
Proof.
  induction l as [|a l IH]; intros [|k] x H; simpl in H; try discriminate.
  - now injection H as <-.
  - simpl. now rewrite (IH _ _ H).
Qed.

Section Pagination.

Variable http_get : request -> outcome response.
Variables owner repo : value.
Variable pages : list (list value).
Hypothesis Hserves : serves_pages http_get owner repo pages.
Hypothesis Hnonempty : Forall (fun page => page <> []) pages.

Lemma fetch_pull_requests_loop_pages (n : nat) :
  forall (k fuel : nat) (all_pulls : list value),
    (k + S n = List.length pages)%nat ->
    (S n <= fuel)%nat ->
    fetch_pull_requests_loop http_get fuel owner repo (Z.of_nat k + 1)
      all_pulls
    = Ret (all_pulls ++ List.concat (skipn k pages))%list.
Proof.
  induction n as [|n IH]; intros k fuel all_pulls Hk Hfuel;
    (destruct fuel as [|fuel]; [lia|]);
    (destruct (nth_error pages k) as [page|] eqn:Hpage;
     [|apply nth_error_None in Hpage; lia]);
    destruct (proj1 Hserves k page Hpage) as (res & Hget & Hst & Hbody & Hnext);
    rewrite (fetch_pull_requests_loop_step _ _ _ _ _ _ res Hget
               (raise_for_status_success _ Hst));
    rewrite Hbody;
    assert (Hne : page <> [])
      by (eapply (proj1 (Forall_forall _ _) Hnonempty);
          eauto using nth_error_In);
    (destruct page as [|x page']; [congruence|]);
    cbn [truthy negb iterate bind];
    rewrite (skipn_nth_error _ _ _ Hpage); cbn [List.concat].
  - destruct (has_next res) eqn:E; [pose proof (proj1 Hnext eq_refl); lia|].
    rewrite skipn_all2 by lia. simpl. now rewrite app_nil_r.
  - destruct (has_next res) eqn:E.
    + replace (Z.of_nat k + 1 + 1) with (Z.of_nat (S k) + 1) by lia.
      rewrite IH by lia. now rewrite <- app_assoc.
    + assert (H : (S k < List.length pages)%nat) by lia.
      apply Hnext in H. discriminate H.
Qed.

Lemma fetch_pull_requests_pages (fuel : nat) :
  (1 <= fuel)%nat ->
  (List.length pages <= fuel)%nat ->
  fetch_pull_requests http_get fuel owner repo = Ret (List.concat pages).
Proof.
  intros H1 Hfuel. unfold fetch_pull_requests.
  destruct (Nat.eq_dec (List.length pages) 0) as [Hz|Hnz].
  - apply length_zero_iff_nil in Hz.
    destruct (proj2 Hserves Hz) as (res & Hget & Hst & Hbody).
    destruct fuel as [|fuel]; [lia|].
    rewrite (fetch_pull_requests_loop_step _ _ _ _ _ _ res Hget
               (raise_for_status_success _ Hst)).
    rewrite Hbody, Hz. reflexivity.
  - apply (fetch_pull_requests_loop_pages (List.length pages - 1) 0 fuel []);
      lia.
Qed.

End Pagination.

(** C5. A resource of N items served in pages of [page_size] has
    ceil(N / page_size) pages, and the fetcher, given fuel for that many
    requests, returns exactly the N items in page order; each turn of its
    loop stops on an empty body and otherwise goes on to the next page
    exactly when the [Link] header announces one. *)
Theorem fetch_pull_requests_complete
    (http_get : request -> outcome response) (owner repo : value)
    (items : list value) (page_size fuel : nat) :
  (0 < page_size)%nat ->
  serves_pages http_get owner repo (chunks page_size items) ->
  (1 <= fuel)%nat ->
  (List.length (chunks page_size items) <= fuel)%nat ->
  List.length (chunks page_size items)
  = ((List.length items + page_size - 1) / page_size)%nat /\
  fetch_pull_requests http_get fuel owner repo = Ret items /\
  forall fuel' page all_pulls res,
    http_get (GetPulls owner repo page) = Ret res ->
    raise_for_status res = Ret tt ->
    fetch_pull_requests_loop http_get (S fuel') owner repo page all_pulls
    = if negb (truthy (body res)) then Ret all_pulls
      else new_pulls <- iterate (body res) ;;
           if has_next res
           then fetch_pull_requests_loop http_get fuel' owner repo (page + 1)
                  (all_pulls ++ new_pulls)
           else Ret (all_pulls ++ new_pulls)%list.
Proof.
  intros Hps Hserves H1 Hfuel. split; [|split].
  - apply chunks_upto_length; [exact Hps|lia].
  - rewrite (fetch_pull_requests_pages http_get owner repo _ Hserves
               (chunks_upto_nonempty _ Hps _ _) fuel H1 Hfuel).
    f_equal. apply chunks_upto_concat; [exact Hps|lia].
  - intros. now apply fetch_pull_requests_loop_step.
Qed.

Lemma five_pulls_served :
  serves_pages Scripted.five_pulls_api Scripted.org Scripted.repo
    (chunks 2 Scripted.five_pulls).
Proof.
  split; [|discriminate].
  intros [|[|[|k]]] page Hpage; simpl in Hpage;
    try (destruct k; discriminate Hpage);
    injection Hpage as <-; eexists;
    (split; [reflexivity|]); (split; [simpl; lia|]);
    (split; [reflexivity|]); simpl List.length.
  - split; [lia|reflexivity].
  - split; [lia|reflexivity].
  - split; [intros H; vm_compute in H; discriminate H|lia].
Defined.

Lemma fetch_pull_requests_complete_witness :
  List.length (chunks 2 Scripted.five_pulls) = ((5 + 2 - 1) / 2)%nat /\
  fetch_pull_requests Scripted.five_pulls_api 3 Scripted.org Scripted.repo
  = Ret Scripted.five_pulls.
Proof.
  destruct (fetch_pull_requests_complete Scripted.five_pulls_api Scripted.org
              Scripted.repo Scripted.five_pulls 2 3) as (Hlen & Hfetch & _).
  - lia.
  - exact five_pulls_served.
  - lia.
  - simpl. lia.
  - split; [exact Hlen|exact Hfetch].
Defined.

(** ** Dictionaries *)

Lemma key_eqb_eq (a b : key) : key_eqb a b = true <-> a = b.
Proof.
  destruct a, b; simpl; try (split; [discriminate|intros H; discriminate H]).
  - split; reflexivity.
  - rewrite Z.eqb_eq. split; congruence.
  - rewrite String.eqb_eq. split; congruence.
Qed.

Lemma key_eqb_refl (k : key) : key_eqb k k = true.
Proof. now apply key_eqb_eq. Qed.

Lemma key_eqb_neq (a b : key) : key_eqb a b = false <-> a <> b.
Proof.
  rewrite <- key_eqb_eq. destruct (key_eqb a b); split; congruence.
Qed.

Lemma dict_lookup_set_same (k : key) (v : value) (kvs : list (key * value)) :
  dict_lookup k (dict_set k v kvs) = Some v.
Proof.
  induction kvs as [|[k' v'] rest IH]; simpl.
  - now rewrite key_eqb_refl.
  - destruct (key_eqb k k') eqn:E; simpl; now rewrite E.
Qed.

Lemma dict_lookup_set_other (k k' : key) (v : value)
    (kvs : list (key * value)) :
  k <> k' -> dict_lookup k (dict_set k' v kvs) = dict_lookup k kvs.
Proof.
  intros Hne. induction kvs as [|[k0 v0] rest IH]; simpl.
  - apply key_eqb_neq in Hne. now rewrite Hne.
  - destruct (key_eqb k' k0) eqn:E; simpl.
    + apply key_eqb_eq in E. subst k0. apply key_eqb_neq in Hne.
      now rewrite Hne.
    + now rewrite IH.
Qed.

Lemma dict_lookup_set_keeps (k k' : key) (v : value)
    (kvs : list (key * value)) :
  dict_lookup k kvs <> None -> dict_lookup k (dict_set k' v kvs) <> None.
Proof.
  intros H. destruct (key_eqb k k') eqn:E.
  - apply key_eqb_eq in E. subst. now rewrite dict_lookup_set_same.
  - apply key_eqb_neq in E. now rewrite dict_lookup_set_other.
Qed.

Lemma count_key_set_other (k k' : key) (v : value)
    (kvs : list (key * value)) :
  k <> k' -> count_key k (dict_set k' v kvs) = count_key k kvs.
Proof.
  intros Hne. induction kvs as [|[k0 v0] rest IH]; simpl.
  - apply key_eqb_neq in Hne. now rewrite Hne.
  - destruct (key_eqb k' k0) eqn:E; simpl; [reflexivity|now rewrite IH].
Qed.

Lemma count_key_set_same (k : key) (v : value) (kvs : list (key * value)) :
  count_key k (dict_set k v kvs) = Nat.max 1 (count_key k kvs).
Proof.
  induction kvs as [|[k0 v0] rest IH]; simpl.
  - now rewrite key_eqb_refl.
  - destruct (key_eqb k k0) eqn:E; simpl; rewrite E; [lia|].
    rewrite IH. reflexivity.
Qed.

Lemma item_dict_inv (c : value) (k : string) (v : value) :
  item c k = Ret v ->
  exists kvs, c = VDict kvs /\ dict_lookup (KStr k) kvs = Some v.
Proof.
  destruct c; simpl; try discriminate.
  unfold item, getitem. simpl.
  destruct (dict_lookup (KStr k) kvs) eqn:E; [|discriminate].
  intros H. injection H as <-. eauto.
Qed.

Lemma get_truthy_item (c : value) (k : string) (v : value) :
  get c k = Ret v -> truthy v = true -> item c k = Ret v.
Proof.
  destruct c; simpl; try discriminate.
  unfold get, get_default, item, getitem. simpl.
  destruct (dict_lookup (KStr k) kvs); intros H; injection H as <-;
    [reflexivity|discriminate].
Qed.

Lemma touched_frame (pr_number : value) (prs prs' : list (key * value)) :
  touched pr_number prs prs' ->
  (forall k, dict_lookup k prs <> None -> dict_lookup k prs' <> None) /\
  (forall k, to_key pr_number <> Ret k ->
             dict_lookup k prs' = dict_lookup k prs /\
             count_key k prs' = count_key k prs).
Proof.
  induction 1 as [|prs' k0 record Ht [IH1 IH2] Hk]; [auto|].
  split.
  - intros k H. apply dict_lookup_set_keeps. auto.
  - intros k Hne. assert (k <> k0) by congruence.
    rewrite dict_lookup_set_other, count_key_set_other by assumption. auto.
Qed.

(** ** Steps of the state monad *)

Lemma bindM_lift {A B : Type} (o : outcome A) (f : A -> M B) (s : value) :
  bindM (lift o) f s
  = match o with
    | Ret a => f a s
    | Raise e => (s, Raise e)
    | OutOfFuel => (s, OutOfFuel)
    end.
Proof. unfold bindM, lift. destruct o; reflexivity. Qed.

Lemma for_each_cons {A : Type} (body : A -> M unit) (x : A) (l : list A)
    (s : value) :
  for_each body (x :: l) s
  = match body x s with
    | (s', Ret _) => for_each body l s'
    | r => r
    end.
Proof.
  simpl. unfold bindM. destruct (body x s) as [s' [[]| |]]; reflexivity.
Qed.

Lemma for_each_app {A : Type} (body : A -> M unit) (l1 l2 : list A) :
  forall s,
    for_each body (l1 ++ l2) s
    = match for_each body l1 s with
      | (s', Ret _) => for_each body l2 s'
      | r => r
      end.
Proof.
  induction l1 as [|x l1 IH]; intros s; [reflexivity|].
  rewrite <- app_comm_cons, !for_each_cons.
  destruct (body x s) as [s' [[]| |]]; auto.
Qed.

Lemma has_pulls_set (s : value) (prs prs' : list (key * value)) :
  has_pulls s prs ->
  exists s', set_item s "pull_requests" (VDict prs') = Ret s' /\
             has_pulls s' prs'.
Proof.
  intros H. apply item_dict_inv in H as (kvs & -> & _).
  eexists. split; [reflexivity|].
  unfold has_pulls, item, getitem. cbn [to_key bind].
  now rewrite dict_lookup_set_same.
Qed.

Section Stores.

Variable http_get : request -> outcome response.
Variables owner repo : value.

Lemma store_pull_request_run (pr_number record s : value)
    (prs : list (key * value)) :
  has_pulls s prs ->
  match to_key pr_number with
  | Ret k =>
      exists s', store_pull_request pr_number record s = (s', Ret tt) /\
                 has_pulls s' (dict_set k record prs)
  | Raise e => store_pull_request pr_number record s = (s, Raise e)
  | OutOfFuel => False
  end.
Proof.
  intros H. unfold store_pull_request, modifyM. rewrite H. cbn [bind setitem].
  destruct pr_number; cbn [to_key bind]; try reflexivity;
    match goal with
    | |- context [dict_set ?k record prs] =>
        destruct (has_pulls_set s prs (dict_set k record prs) H)
          as (s' & -> & Hs'); eauto
    end.
Qed.

Lemma store_workflow_run_run (pr_number best_run s : value)
    (prs : list (key * value)) :
  has_pulls s prs ->
  (exists o, store_workflow_run pr_number best_run s = (s, o)) \/
  (exists k record' s',
      to_key pr_number = Ret k /\
      store_workflow_run pr_number best_run s = (s', Ret tt) /\
      has_pulls s' (dict_set k record' prs)).
Proof.
  intros H. unfold store_workflow_run, modifyM. rewrite H. cbn [bind].
  destruct (getitem (VDict prs) pr_number) as [record| |] eqn:Hrec;
    cbn [bind]; eauto.
  destruct (set_item record "workflow_run" best_run) as [record'| |];
    cbn [bind]; eauto.
  cbn [setitem].
  destruct (to_key pr_number) as [k| |] eqn:Hk; cbn [bind]; eauto.
  destruct (has_pulls_set s prs (dict_set k record' prs) H)
    as (s' & -> & Hs').
  right. exists k, record', s'. auto.
Qed.

Lemma retrieve_pull_request_touched (pull_request s : value)
    (prs : list (key * value)) :
  has_pulls s prs ->
  exists prs',
    has_pulls (fst (retrieve_pull_request http_get owner repo pull_request s))
      prs' /\
    (prs' = prs \/
     exists pr_number,
       item pull_request "number" = Ret pr_number /\
       touched pr_number prs prs').
Proof.
  intros H. unfold retrieve_pull_request.
  rewrite bindM_lift.
  destruct (item pull_request "number") as [pr_number| |] eqn:Hn;
    [|eauto..].
  rewrite bindM_lift.
  destruct (head <- item pull_request "head";; item head "sha")
    as [head_sha| |]; [|eauto..].
  destruct (negb (truthy pr_number) || negb (truthy head_sha));
    [unfold retM; eauto|].
  repeat (rewrite bindM_lift;
          match goal with
          | |- context [match ?o with Ret _ => _ | _ => _ end] =>
              destruct o; [|eauto..]
          end).
  unfold bindM at 1.
  match goal with
  | |- context [store_pull_request pr_number ?r s] =>
      pose proof (store_pull_request_run pr_number r s prs H) as Hst;
      assert (Ht1 : forall k, to_key pr_number = Ret k ->
                              touched pr_number prs (dict_set k r prs))
        by (intros; apply touched_set; [constructor|assumption])
  end.
  destruct (to_key pr_number) as [k| |] eqn:Hk; [|rewrite Hst; eauto|tauto].
  destruct Hst as (s1 & -> & Hs1). specialize (Ht1 k eq_refl).
  repeat (rewrite bindM_lift;
          match goal with
          | |- context [match ?o with Ret _ => _ | _ => _ end] =>
              destruct o; [|eauto 6..]
          end).
  match goal with
  | |- context [truthy ?best_run] =>
      destruct (truthy best_run); [|unfold retM; eauto 6];
      destruct (store_workflow_run_run pr_number best_run s1 _ Hs1)
        as [[o Ho]|(k' & record' & s2 & Hk' & Ho & Hs2)]; rewrite Ho;
      cbn [fst]
  end.
  - eauto 6.
  - eexists. split; [exact Hs2|]. right. exists pr_number.
    split; [reflexivity|]. apply touched_set; assumption.
Qed.

End Stores.

(** ** What processing pull requests does to the stored records *)

Lemma pull_request_key_number (pull_request pr_number : value) (k : key) :
  item pull_request "number" = Ret pr_number ->
  pull_request_key pull_request <> Some k ->
  to_key pr_number <> Ret k.
Proof.
  unfold pull_request_key. intros -> H Hk. simpl in H. rewrite Hk in H.
  now apply H.
Qed.

Section Frame.

Variable http_get : request -> outcome response.
Variables owner repo : value.

(** Processing one pull request, whatever its outcome, removes no
    record and leaves the records of other numbers as they were. *)
Lemma retrieve_pull_request_frame (pull_request s : value)
    (prs : list (key * value)) :
  has_pulls s prs ->
  exists prs',
    has_pulls (fst (retrieve_pull_request http_get owner repo pull_request s))
      prs' /\
    (forall k, dict_lookup k prs <> None -> dict_lookup k prs' <> None) /\
    (forall k, pull_request_key pull_request <> Some k ->
               dict_lookup k prs' = dict_lookup k prs /\
               count_key k prs' = count_key k prs).
Proof.
  intros H.
  destruct (retrieve_pull_request_touched http_get owner repo pull_request
              s prs H) as (prs' & Hs' & [->|(n & Hn & Ht)]).
  - exists prs. auto.
  - exists prs'. destruct (touched_frame _ _ _ Ht) as [Hkeep Hother].
    split; [exact Hs'|]. split; [exact Hkeep|].
    intros k Hk. apply Hother. eapply pull_request_key_number; eauto.
Qed.

Lemma for_each_frame (pulls : list value) :
  forall (s : value) (prs : list (key * value)),
    has_pulls s prs ->
    exists prs',
      has_pulls
        (fst (for_each (retrieve_pull_request http_get owner repo) pulls s))
        prs' /\
      (forall k, dict_lookup k prs <> None -> dict_lookup k prs' <> None) /\
      (forall k,
          (forall q, In q pulls -> pull_request_key q <> Some k) ->
          dict_lookup k prs' = dict_lookup k prs /\
          count_key k prs' = count_key k prs).
Proof.
  induction pulls as [|p pulls IH]; intros s prs H.
  - exists prs. simpl. auto.
  - rewrite for_each_cons.
    destruct (retrieve_pull_request_frame p s prs H)
      as (prs1 & H1 & Hkeep1 & Hother1).
    destruct (retrieve_pull_request http_get owner repo p s)
      as [s1 [[]| |]]; cbn [fst] in H1.
    + destruct (IH s1 prs1 H1) as (prs2 & H2 & Hkeep2 & Hother2).
      exists prs2. split; [exact H2|]. split; [auto|].
      intros k Hk.
      destruct (Hother1 k) as [E1 E2]; [apply Hk; now left|].
      destruct (Hother2 k) as [E3 E4]; [intros q Hq; apply Hk; now right|].
      split; congruence.
    + exists prs1. split; [exact H1|]. split; [exact Hkeep1|].
      intros k Hk. apply Hother1. apply Hk. now left.
    + exists prs1. split; [exact H1|]. split; [exact Hkeep1|].
      intros k Hk. apply Hother1. apply Hk. now left.
Qed.

(** A pull request with a number and a head commit that has no workflow
    run is stored with an empty [workflow_run], which fails the check. *)
Lemma retrieve_pull_request_no_runs
    (pull_request pr_number head_sha s s' : value) (k : key)
    (prs : list (key * value)) :
  has_pulls s prs ->
  item pull_request "number" = Ret pr_number ->
  (head <- item pull_request "head" ;; item head "sha") = Ret head_sha ->
  truthy pr_number = true ->
  truthy head_sha = true ->
  to_key pr_number = Ret k ->
  fetch_workflow_runs http_get owner repo pr_number head_sha
  = Ret (VList []) ->
  retrieve_pull_request http_get owner repo pull_request s = (s', Ret tt) ->
  exists record,
    has_pulls s' (dict_set k record prs) /\
    item record "head_sha" = Ret head_sha /\
    item record "workflow_run" = Ret (VDict []) /\
    passes_preliminary_checks record = Ret false.
Proof.
  intros H Hn Hsha Tn Tsha Hk Hruns. unfold retrieve_pull_request.
  rewrite bindM_lift, Hn, bindM_lift, Hsha, Tn, Tsha. cbn [negb orb].
  repeat (rewrite bindM_lift;
          match goal with
          | |- context [match ?o with Ret _ => _ | _ => _ end] =>
              destruct o; [|discriminate..]
          end).
  unfold bindM at 1.
  match goal with
  | |- context [store_pull_request pr_number ?r s] =>
      pose proof (store_pull_request_run pr_number r s prs H) as Hst;
      rewrite Hk in Hst; destruct Hst as (s1 & -> & Hs1);
      set (record := r) in *
  end.
  rewrite bindM_lift, Hruns, bindM_lift.
  cbn [process_workflow_runs py_len bind iterate process_workflow_runs_loop
         py_or truthy].
  unfold retM. intros E. injection E as <-.
  exists record. split; [exact Hs1|]. repeat split; reflexivity.
Qed.

End Frame.

(** ** Retrieval of one assignment *)

Section Retrieve.

Variable http_get : request -> outcome response.

Lemma init_pull_requests_has_pulls (assignment_data : value)
    (prs0 : list (key * value)) :
  get_default assignment_data "pull_requests" (VDict []) = Ret (VDict prs0) ->
  exists s1, init_pull_requests assignment_data = Ret s1 /\ has_pulls s1 prs0.
Proof.
  intros H. unfold init_pull_requests. rewrite H. cbn [bind].
  destruct assignment_data; try discriminate.
  eexists. split; [reflexivity|].
  unfold has_pulls, item, getitem. cbn [to_key bind].
  now rewrite dict_lookup_set_same.
Qed.

Lemma retrieve_assignment_submission_data_unfold (fuel : nat)
    (assignment_id assignment_data owner repo s1 : value) :
  item assignment_data "github_org" = Ret owner ->
  item assignment_data "repo_name" = Ret repo ->
  init_pull_requests assignment_data = Ret s1 ->
  retrieve_assignment_submission_data http_get fuel assignment_id
    assignment_data
  = try_except_request (retrieve_pull_requests http_get fuel owner repo)
      (retM (VBool false)) s1.
Proof.
  intros Ho Hr Hi. unfold retrieve_assignment_submission_data.
  unfold bindM, readM, modifyM. now rewrite Ho, Hr, Hi.
Qed.

Lemma retrieve_pull_requests_unfold (fuel : nat) (owner repo s1 : value)
    (pulls : list value) :
  fetch_pull_requests http_get fuel owner repo = Ret pulls ->
  retrieve_pull_requests http_get fuel owner repo s1
  = match for_each (retrieve_pull_request http_get owner repo) pulls s1 with
    | (s', Ret _) => (s', Ret s')
    | (s', Raise e) => (s', Raise e)
    | (s', OutOfFuel) => (s', OutOfFuel)
    end.
Proof.
  intros Hf. unfold retrieve_pull_requests. rewrite bindM_lift, Hf.
  unfold bindM, readM.
  destruct (for_each _ pulls s1) as [s' [[]| |]]; reflexivity.
Qed.

(** A transport error in the [try] block makes the retrieval return
    [False], in the state the error left. *)
Lemma retrieve_transport_error (fuel : nat)
    (assignment_id assignment_data owner repo s1 s3 : value) :
  item assignment_data "github_org" = Ret owner ->
  item assignment_data "repo_name" = Ret repo ->
  init_pull_requests assignment_data = Ret s1 ->
  transport_error http_get fuel owner repo s1 s3 ->
  retrieve_assignment_submission_data http_get fuel assignment_id
    assignment_data
  = (s3, Ret (VBool false)).
Proof.
  intros Ho Hr Hi Herr.
  rewrite (retrieve_assignment_submission_data_unfold _ _ _ _ _ _ Ho Hr Hi).
  unfold try_except_request.
  destruct Herr as [[Hf ->]|(before & p & after & s2 & Hf & Hb & Hp)].
  - unfold retrieve_pull_requests. now rewrite bindM_lift, Hf.
  - rewrite (retrieve_pull_requests_unfold _ _ _ _ _ Hf).
    rewrite for_each_app, Hb. now rewrite for_each_cons, Hp.
Qed.

End Retrieve.

(** C8. A pull request with a number and a head SHA whose head commit has
    no workflow run gets, in a retrieval that completes, exactly one record
    under its number; the record has an empty [workflow_run] and fails the
    preliminary checks. *)
Theorem no_runs_one_record
    (http_get : request -> outcome response) (fuel : nat)
    (assignment_id assignment_data owner repo : value)
    (prs0 : list (key * value)) (before after : list value)
    (pull_request pr_number head_sha : value) (k : key)
    (s' result : value) :
  item assignment_data "github_org" = Ret owner ->
  item assignment_data "repo_name" = Ret repo ->
  get_default assignment_data "pull_requests" (VDict []) = Ret (VDict prs0) ->
  (count_key k prs0 <= 1)%nat ->
  fetch_pull_requests http_get fuel owner repo
  = Ret (before ++ pull_request :: after)%list ->
  item pull_request "number" = Ret pr_number ->
  truthy pr_number = true ->
  to_key pr_number = Ret k ->
  (head <- item pull_request "head" ;; item head "sha") = Ret head_sha ->
  truthy head_sha = true ->
  (forall q, In q (before ++ after) -> pull_request_key q <> Some k) ->
  fetch_workflow_runs http_get owner repo pr_number head_sha = Ret (VList []) ->
  retrieve_assignment_submission_data http_get fuel assignment_id
    assignment_data = (s', Ret result) ->
  result <> VBool false ->
  exists prs record,
    result = s' /\
    has_pulls s' prs /\
    dict_lookup k prs = Some record /\
    count_key k prs = 1%nat /\
    item record "workflow_run" = Ret (VDict []) /\
    passes_preliminary_checks record = Ret false.
Proof.
  intros Ho Hr Hprs0 Hcount Hf Hn Tn Hk Hsha Tsha Hdistinct Hruns Hret Hres.
  destruct (init_pull_requests_has_pulls _ _ Hprs0) as (s1 & Hi & Hs1).
  rewrite (retrieve_assignment_submission_data_unfold _ _ _ _ _ _ _ Ho Hr Hi)
    in Hret.
  unfold try_except_request in Hret.
  rewrite (retrieve_pull_requests_unfold _ _ _ _ _ _ Hf) in Hret.
  rewrite for_each_app in Hret.
  destruct (for_each_frame http_get owner repo before s1 prs0 Hs1)
    as (prs2 & Hs2 & _ & Hother2).
  destruct (for_each (retrieve_pull_request http_get owner repo) before s1)
    as [s2 [[]|e|]] eqn:Hb; cbn [fst] in Hs2;
    [|destruct e; inversion Hret; congruence|discriminate].
  rewrite for_each_cons in Hret.
  destruct (retrieve_pull_request http_get owner repo pull_request s2)
    as [s3 [[]|e|]] eqn:Hp;
    [|destruct e; inversion Hret; congruence|discriminate].
  destruct (retrieve_pull_request_no_runs http_get owner repo _ _ _ _ _ _ _
              Hs2 Hn Hsha Tn Tsha Hk Hruns Hp)
    as (record & Hs3 & _ & Hrun & Hpass).
  destruct (for_each_frame http_get owner repo after s3 _ Hs3)
    as (prs & Hs & _ & Hother).
  destruct (for_each (retrieve_pull_request http_get owner repo) after s3)
    as [s4 [[]|e|]] eqn:Ha; cbn [fst] in Hs;
    [|destruct e; inversion Hret; congruence|discriminate].
  injection Hret as <- <-.
  destruct (Hother2 k) as [_ Hc2];
    [intros q Hq; apply Hdistinct, in_or_app; now left|].
  destruct (Hother k) as [Hl Hc];
    [intros q Hq; apply Hdistinct, in_or_app; now right|].
  exists prs, record. split; [reflexivity|]. split; [exact Hs|].
  split; [now rewrite Hl, dict_lookup_set_same|].
  split; [rewrite Hc, count_key_set_same; lia|].
  split; assumption.
Qed.

Lemma no_runs_one_record_witness :
  exists s' prs record,
    has_pulls s' prs /\
    dict_lookup (KInt 2) prs = Some record /\
    count_key (KInt 2) prs = 1%nat /\
    item record "workflow_run" = Ret (VDict []) /\
    passes_preliminary_checks record = Ret false.
Proof.
  edestruct (no_runs_one_record Scripted.scenario_api 5 (VInt 7)
               (Scripted.assignment "repo") Scripted.org Scripted.repo []
               [Scripted.pull 1 "a1" "ada"] []
               (Scripted.pull 2 "b2" "bob") (VInt 2) (VStr "b2") (KInt 2))
    as (prs & record & _ & H).
  - reflexivity.
  - reflexivity.
  - reflexivity.
  - simpl. lia.
  - reflexivity.
  - reflexivity.
  - reflexivity.
  - reflexivity.
  - reflexivity.
  - reflexivity.
  - intros q [<-|[]]. discriminate.
  - reflexivity.
  - vm_compute. reflexivity.
  - discriminate.
  - eexists. exists prs, record. exact H.
Defined.

Section Stored.

Variable http_get : request -> outcome response.
Variables owner repo : value.

(** A pull request with a number and a head SHA that is processed to the
    end has a record under its number. *)
Lemma retrieve_pull_request_stored
    (pull_request pr_number head_sha s s' : value) (k : key)
    (prs : list (key * value)) :
  has_pulls s prs ->
  item pull_request "number" = Ret pr_number ->
  (head <- item pull_request "head" ;; item head "sha") = Ret head_sha ->
  truthy pr_number = true ->
  truthy head_sha = true ->
  to_key pr_number = Ret k ->
  retrieve_pull_request http_get owner repo pull_request s = (s', Ret tt) ->
  exists prs', has_pulls s' prs' /\ dict_lookup k prs' <> None.
Proof.
  intros H Hn Hsha Tn Tsha Hk. unfold retrieve_pull_request.
  rewrite bindM_lift, Hn, bindM_lift, Hsha, Tn, Tsha. cbn [negb orb].
  repeat (rewrite bindM_lift;
          match goal with
          | |- context [match ?o with Ret _ => _ | _ => _ end] =>
              destruct o; [|discriminate..]
          end).
  unfold bindM at 1.
  match goal with
  | |- context [store_pull_request pr_number ?r s] =>
      pose proof (store_pull_request_run pr_number r s prs H) as Hst;
      rewrite Hk in Hst; destruct Hst as (s1 & -> & Hs1)
  end.
  repeat (rewrite bindM_lift;
          match goal with
          | |- context [match ?o with Ret _ => _ | _ => _ end] =>
              destruct o; [|discriminate..]
          end).
  match goal with
  | |- context [truthy ?best_run] =>
      destruct (truthy best_run);
      [destruct (store_workflow_run_run pr_number best_run s1 _ Hs1)
         as [[o Ho]|(k' & record' & s2 & Hk' & Ho & Hs2)]; rewrite Ho|]
  end.
  - intros E. injection E as <- _. eexists. split; [exact Hs1|].
    rewrite dict_lookup_set_same. discriminate.
  - intros E. injection E as <-. eexists. split; [exact Hs2|].
    assert (k' = k) by congruence. subst k'.
    rewrite dict_lookup_set_same. discriminate.
  - unfold retM. intros E. injection E as <-. eexists. split; [exact Hs1|].
    rewrite dict_lookup_set_same. discriminate.
Qed.

Lemma for_each_stored (pulls : list value) :
  forall (s s' : value) (prs : list (key * value)),
    has_pulls s prs ->
    for_each (retrieve_pull_request http_get owner repo) pulls s
    = (s', Ret tt) ->
    exists prs',
      has_pulls s' prs' /\
      (forall k, dict_lookup k prs <> None -> dict_lookup k prs' <> None) /\
      forall q pr_number head_sha k,
        In q pulls ->
        item q "number" = Ret pr_number ->
        (head <- item q "head" ;; item head "sha") = Ret head_sha ->
        truthy pr_number = true ->
        truthy head_sha = true ->
        to_key pr_number = Ret k ->
        dict_lookup k prs' <> None.
Proof.
  induction pulls as [|p pulls IH]; intros s s' prs H Hrun.
  - injection Hrun as <-. exists prs. split; [exact H|].
    split; [auto|]. intros ? ? ? ? [].
  - rewrite for_each_cons in Hrun.
    destruct (retrieve_pull_request_frame http_get owner repo p s prs H)
      as (prs1 & H1 & Hkeep1 & _).
    destruct (retrieve_pull_request http_get owner repo p s)
      as [s1 [[]| |]] eqn:Hp; try discriminate. cbn [fst] in H1.
    destruct (IH s1 s' prs1 H1 Hrun) as (prs' & Hs' & Hkeep & Hall).
    exists prs'. split; [exact Hs'|]. split; [auto|].
    intros q n sha k [<-|Hin] Hn Hsha Tn Tsha Hk; [|eauto].
    destruct (retrieve_pull_request_stored _ _ _ _ _ _ _ H Hn Hsha Tn Tsha
                Hk Hp) as (prs1' & H1' & Hl).
    unfold has_pulls in H1, H1'. rewrite H1 in H1'. injection H1' as <-.
    auto.
Qed.

End Stored.

(** ** The batch loop *)

Section Batch.

Variable http_get : request -> outcome response.
Variable query_user_id : value -> outcome value.
Variable fuel : nat.
Variable json_path : option value.

Lemma main_loop_app (pre : list (value * value)) :
  forall (rest : list (value * value)) (values : list row),
    main_loop http_get query_user_id fuel json_path (pre ++ rest) values
    = match main_loop http_get query_user_id fuel json_path pre values with
      | (pre', Ret values') =>
          (pre' ++ fst (main_loop http_get query_user_id fuel json_path
                          rest values'),
           snd (main_loop http_get query_user_id fuel json_path
                  rest values'))
      | (pre', result) => (pre' ++ rest, result)
      end%list.
Proof.
  induction pre as [|[aid ad] pre IH]; intros rest values.
  - simpl. now destruct (main_loop _ _ _ _ rest values).
  - simpl.
    destruct (main_assignment http_get query_user_id fuel json_path values
                aid ad) as [ad' [values'| |]]; try reflexivity.
    rewrite IH.
    destruct (main_loop http_get query_user_id fuel json_path pre values')
      as [pre' [v| |]]; reflexivity.
Qed.

Lemma main_loop_cons_ret (assignment_id assignment_data s : value)
    (rest : list (value * value)) (values values' : list row) :
  main_assignment http_get query_user_id fuel json_path values assignment_id
    assignment_data = (s, Ret values') ->
  main_loop http_get query_user_id fuel json_path
    ((assignment_id, assignment_data) :: rest) values
  = ((assignment_id, s)
       :: fst (main_loop http_get query_user_id fuel json_path rest values'),
     snd (main_loop http_get query_user_id fuel json_path rest values')).
Proof.
  intros H. simpl. rewrite H.
  now destruct (main_loop http_get query_user_id fuel json_path rest values').
Qed.

End Batch.

Section Isolation.

Variable http_get : request -> outcome response.
Variable query_user_id : value -> outcome value.
Variable fuel : nat.

Lemma main_assignment_transport_error (values : list row)
    (assignment_id assignment_data owner repo s1 s3 : value) :
  get assignment_data "github_org" = Ret owner ->
  truthy owner = true ->
  get assignment_data "repo_name" = Ret repo ->
  truthy repo = true ->
  init_pull_requests assignment_data = Ret s1 ->
  transport_error http_get fuel owner repo s1 s3 ->
  main_assignment http_get query_user_id fuel None values assignment_id
    assignment_data
  = (s3, Ret values).
Proof.
  intros Ho To Hr Tr Hi Herr. unfold main_assignment.
  unfold bindM at 1. unfold readM at 1. rewrite Ho.
  unfold bindM at 1. unfold readM at 1. rewrite Hr, To, Tr. cbn [negb orb].
  unfold bindM at 1.
  rewrite (retrieve_transport_error http_get fuel assignment_id
             assignment_data owner repo s1 s3
             (get_truthy_item _ _ _ Ho To) (get_truthy_item _ _ _ Hr Tr)
             Hi Herr).
  reflexivity.
Qed.

Lemma main_assignment_missing (json_path : option value) (values : list row)
    (assignment_id assignment_data owner repo : value) :
  get assignment_data "github_org" = Ret owner ->
  get assignment_data "repo_name" = Ret repo ->
  truthy owner = false \/ truthy repo = false ->
  main_assignment http_get query_user_id fuel json_path values assignment_id
    assignment_data
  = (assignment_data, Raise ValueError).
Proof.
  intros Ho Hr Hmiss. unfold main_assignment.
  unfold bindM at 1. unfold readM at 1. rewrite Ho.
  unfold bindM at 1. unfold readM at 1. rewrite Hr.
  destruct Hmiss as [-> | ->]; [reflexivity|].
  now rewrite orb_true_r.
Qed.

End Isolation.

(** ** Where transport errors come from *)

Section Transport.

Variable http_get : request -> outcome response.
Variables owner repo : value.

Lemma fetch_pull_requests_fails (fuel : nat) :
  request_fails http_get (GetPulls owner repo 1) ->
  fetch_pull_requests http_get (S fuel) owner repo = Raise RequestException.
Proof.
  unfold fetch_pull_requests. simpl.
  intros [->|(res & -> & Hst)]; [reflexivity|].
  cbn [bind]. now rewrite (raise_for_status_error _ Hst).
Qed.

Lemma fetch_workflow_runs_fails (pr_number head_sha : value) :
  request_fails http_get (GetActionsRuns owner repo head_sha) ->
  fetch_workflow_runs http_get owner repo pr_number head_sha
  = Raise RequestException.
Proof.
  unfold fetch_workflow_runs.
  intros [->|(res & -> & Hst)]; [reflexivity|].
  cbn [bind]. now rewrite (raise_for_status_error _ Hst).
Qed.

Lemma fetch_workflow_run_id_fails (run_id : value) :
  request_fails http_get (GetRun owner repo run_id) ->
  fetch_workflow_run_id http_get owner repo run_id = Raise RequestException.
Proof.
  unfold fetch_workflow_run_id.
  intros [->|(res & -> & Hst)]; [reflexivity|].
  cbn [bind]. now rewrite (raise_for_status_error _ Hst).
Qed.

(** When the run list of a well-formed pull request fails in transport,
    its processing raises [RequestException] after its record, with an
    empty [workflow_run], has been stored. *)
Lemma retrieve_pull_request_runs_fail
    (pull_request pr_number head_sha pr_id state submission_link
       github_username submission_time s : value)
    (k : key) (prs : list (key * value)) :
  has_pulls s prs ->
  item pull_request "number" = Ret pr_number ->
  (head <- item pull_request "head" ;; item head "sha") = Ret head_sha ->
  truthy pr_number = true ->
  truthy head_sha = true ->
  to_key pr_number = Ret k ->
  item pull_request "id" = Ret pr_id ->
  item pull_request "state" = Ret state ->
  item pull_request "html_url" = Ret submission_link ->
  (user <- item pull_request "user" ;; item user "login")
  = Ret github_username ->
  item pull_request "created_at" = Ret submission_time ->
  request_fails http_get (GetActionsRuns owner repo head_sha) ->
  exists s' record,
    retrieve_pull_request http_get owner repo pull_request s
    = (s', Raise RequestException) /\
    has_pulls s' (dict_set k record prs) /\
    item record "workflow_run" = Ret (VDict []).
Proof.
  intros H Hn Hsha Tn Tsha Hk Hid Hstate Hurl Huser Htime Hfail.
  unfold retrieve_pull_request.
  rewrite bindM_lift, Hn, bindM_lift, Hsha, Tn, Tsha. cbn [negb orb].
  rewrite bindM_lift, Hid, bindM_lift, Hstate, bindM_lift, Hurl,
    bindM_lift, Huser, bindM_lift, Htime.
  unfold bindM at 1.
  match goal with
  | |- context [store_pull_request pr_number ?r s] =>
      pose proof (store_pull_request_run pr_number r s prs H) as Hst;
      rewrite Hk in Hst; destruct Hst as (s1 & -> & Hs1);
      exists s1, r
  end.
  rewrite bindM_lift, (fetch_workflow_runs_fails _ _ Hfail).
  split; [reflexivity|]. split; [exact Hs1|reflexivity].
Qed.

End Transport.

(** ** Failures in a batch *)

(** C6. When a transport error interrupts the retrieval of one assignment,
    the retrieval returns [False] in the state the error left, so that the
    rest of that assignment's pull requests are not processed; the
    assignment adds no row, and the assignments after it are processed
    exactly as they are in the batch without it. *)
Theorem transport_error_isolated
    (http_get : request -> outcome response)
    (query_user_id : value -> outcome value) (fuel : nat)
    (assignment_id assignment_data owner repo s1 s3 : value)
    (pre pre' post : list (value * value)) (values values' : list row) :
  get assignment_data "github_org" = Ret owner ->
  truthy owner = true ->
  get assignment_data "repo_name" = Ret repo ->
  truthy repo = true ->
  init_pull_requests assignment_data = Ret s1 ->
  transport_error http_get fuel owner repo s1 s3 ->
  main_loop http_get query_user_id fuel None pre values = (pre', Ret values') ->
  retrieve_assignment_submission_data http_get fuel assignment_id
    assignment_data = (s3, Ret (VBool false)) /\
  main_loop http_get query_user_id fuel None
    (pre ++ (assignment_id, assignment_data) :: post) values
  = ((pre' ++ (assignment_id, s3)
        :: fst (main_loop http_get query_user_id fuel None post values'))%list,
     snd (main_loop http_get query_user_id fuel None post values')) /\
  main_loop http_get query_user_id fuel None (pre ++ post) values
  = ((pre' ++ fst (main_loop http_get query_user_id fuel None post values'))%list,
     snd (main_loop http_get query_user_id fuel None post values')).
Proof.
  intros Ho To Hr Tr Hi Herr Hpre. split; [|split].
  - exact (retrieve_transport_error http_get fuel assignment_id
             assignment_data owner repo s1 s3
             (get_truthy_item _ _ _ Ho To) (get_truthy_item _ _ _ Hr Tr)
             Hi Herr).
  - rewrite main_loop_app, Hpre.
    rewrite (main_loop_cons_ret _ _ _ _ _ _ s3 _ _ values'
               (main_assignment_transport_error http_get query_user_id fuel
                  values' _ _ _ _ _ _ Ho To Hr Tr Hi Herr)).
    reflexivity.
  - now rewrite main_loop_app, Hpre.
Qed.

Lemma transport_error_isolated_witness :
  retrieve_assignment_submission_data Scripted.batch_api 5 (VInt 1)
    (Scripted.assignment "repoA")
  = (Scripted.repoA_interrupted, Ret (VBool false)) /\
  main_loop Scripted.batch_api Scripted.no_user 5 None
    ([] ++ [(VInt 1, Scripted.assignment "repoA");
            (VInt 2, Scripted.assignment "repoB")]) []
  = (([] ++ (VInt 1, Scripted.repoA_interrupted)
        :: fst (main_loop Scripted.batch_api Scripted.no_user 5 None
                  [(VInt 2, Scripted.assignment "repoB")] []))%list,
     snd (main_loop Scripted.batch_api Scripted.no_user 5 None
            [(VInt 2, Scripted.assignment "repoB")] [])).
Proof.
  destruct (transport_error_isolated Scripted.batch_api Scripted.no_user 5
              (VInt 1) (Scripted.assignment "repoA") Scripted.org
              (VStr "repoA") Scripted.repoA_started
              Scripted.repoA_interrupted [] []
              [(VInt 2, Scripted.assignment "repoB")] [] [])
    as (H1 & H2 & _).
  - reflexivity.
  - reflexivity.
  - reflexivity.
  - reflexivity.
  - reflexivity.
  - right.
    exists [Scripted.pull 1 "a1" "ada"; Scripted.pull 2 "a2" "bob"],
      (Scripted.pull 3 "a3" "cy"), [Scripted.pull 4 "a4" "dee"].
    eexists. split; [reflexivity|]. split; vm_compute; reflexivity.
  - reflexivity.
  - split; [exact H1|exact H2].
Defined.

(** C10. The retrieval mutates its [assignment_data] in place: when a
    transport error interrupts it at some pull request, it returns [False]
    and the state it leaves, which is what the caller's assignments then
    hold, still has a record for every pull request processed before the
    failure; the failing step removes none and changes none under another
    number. *)
Theorem partial_records_remain
    (http_get : request -> outcome response)
    (query_user_id : value -> outcome value) (fuel : nat)
    (assignment_id assignment_data owner repo s1 s2 s3 : value)
    (prs0 : list (key * value)) (before after : list value)
    (pull_request : value) :
  get assignment_data "github_org" = Ret owner ->
  truthy owner = true ->
  get assignment_data "repo_name" = Ret repo ->
  truthy repo = true ->
  get_default assignment_data "pull_requests" (VDict []) = Ret (VDict prs0) ->
  init_pull_requests assignment_data = Ret s1 ->
  fetch_pull_requests http_get fuel owner repo
  = Ret (before ++ pull_request :: after)%list ->
  for_each (retrieve_pull_request http_get owner repo) before s1
  = (s2, Ret tt) ->
  retrieve_pull_request http_get owner repo pull_request s2
  = (s3, Raise RequestException) ->
  retrieve_assignment_submission_data http_get fuel assignment_id
    assignment_data = (s3, Ret (VBool false)) /\
  main http_get query_user_id fuel None [(assignment_id, assignment_data)]
  = ([(assignment_id, s3)], Ret []) /\
  exists prs2 prs3,
    has_pulls s2 prs2 /\
    has_pulls s3 prs3 /\
    (forall k, dict_lookup k prs2 <> None -> dict_lookup k prs3 <> None) /\
    (forall k, pull_request_key pull_request <> Some k ->
               dict_lookup k prs3 = dict_lookup k prs2) /\
    (forall q pr_number head_sha k,
        In q before ->
        item q "number" = Ret pr_number ->
        (head <- item q "head" ;; item head "sha") = Ret head_sha ->
        truthy pr_number = true ->
        truthy head_sha = true ->
        to_key pr_number = Ret k ->
        dict_lookup k prs3 <> None).
Proof.
  intros Ho To Hr Tr Hprs0 Hi Hf Hb Hp.
  assert (Herr : transport_error http_get fuel owner repo s1 s3)
    by (right; exists before, pull_request, after, s2; auto).
  split; [|split].
  - exact (retrieve_transport_error http_get fuel assignment_id
             assignment_data owner repo s1 s3
             (get_truthy_item _ _ _ Ho To) (get_truthy_item _ _ _ Hr Tr)
             Hi Herr).
  - unfold main.
    rewrite (main_loop_cons_ret _ _ _ _ _ _ s3 _ _ []
               (main_assignment_transport_error http_get query_user_id fuel
                  [] _ _ _ _ _ _ Ho To Hr Tr Hi Herr)).
    reflexivity.
  - destruct (init_pull_requests_has_pulls _ _ Hprs0) as (s1' & Hi' & Hs1).
    assert (s1' = s1) by congruence. subst s1'.
    destruct (for_each_stored http_get owner repo before s1 s2 prs0 Hs1 Hb)
      as (prs2 & Hs2 & _ & Hstored).
    destruct (retrieve_pull_request_frame http_get owner repo pull_request
                s2 prs2 Hs2) as (prs3 & Hs3 & Hkeep & Hother).
    rewrite Hp in Hs3. cbn [fst] in Hs3.
    exists prs2, prs3. repeat (split; [assumption|]).
    split; [intros k Hk; now apply Hother|].
    intros q n sha k Hin Hn Hsha Tn Tsha Hk. apply Hkeep. eauto.
Qed.

Lemma partial_records_remain_witness :
  retrieve_assignment_submission_data Scripted.batch_api 5 (VInt 1)
    (Scripted.assignment "repoA")
  = (Scripted.repoA_interrupted, Ret (VBool false)) /\
  main Scripted.batch_api Scripted.no_user 5 None
    [(VInt 1, Scripted.assignment "repoA")]
  = ([(VInt 1, Scripted.repoA_interrupted)], Ret []) /\
  exists prs3,
    has_pulls Scripted.repoA_interrupted prs3 /\
    dict_lookup (KInt 1) prs3 <> None /\
    dict_lookup (KInt 2) prs3 <> None.
Proof.
  destruct (partial_records_remain Scripted.batch_api Scripted.no_user 5
               (VInt 1) (Scripted.assignment "repoA") Scripted.org
               (VStr "repoA") Scripted.repoA_started
               (fst (for_each
                       (retrieve_pull_request Scripted.batch_api Scripted.org
                          (VStr "repoA"))
                       [Scripted.pull 1 "a1" "ada"; Scripted.pull 2 "a2" "bob"]
                       Scripted.repoA_started))
               Scripted.repoA_interrupted []
               [Scripted.pull 1 "a1" "ada"; Scripted.pull 2 "a2" "bob"]
               [Scripted.pull 4 "a4" "dee"] (Scripted.pull 3 "a3" "cy"))
    as (H1 & H2 & prs2 & prs3 & _ & Hs3 & _ & _ & Hstored).
  - reflexivity.
  - reflexivity.
  - reflexivity.
  - reflexivity.
  - reflexivity.
  - reflexivity.
  - reflexivity.
  - vm_compute. reflexivity.
  - vm_compute. reflexivity.
  - split; [exact H1|]. split; [exact H2|]. exists prs3.
    split; [exact Hs3|]. split.
    + apply (Hstored (Scripted.pull 1 "a1" "ada") (VInt 1) (VStr "a1"));
        first [reflexivity|simpl; auto].
    + apply (Hstored (Scripted.pull 2 "a2" "bob") (VInt 2) (VStr "a2"));
        first [reflexivity|simpl; auto].
Defined.

(** C7, as the code has it. An assignment whose organization or repository
    name is missing (absent, [None] or empty) makes [main] raise
    [ValueError] when its loop reaches it: the assignments before it have
    been processed, the assignment and those after it are left as they
    were, and no row is handed to the insert. *)
Theorem missing_repository_aborts
    (http_get : request -> outcome response)
    (query_user_id : value -> outcome value) (fuel : nat)
    (json_path : option value)
    (assignment_id assignment_data owner repo : value)
    (pre pre' post : list (value * value)) (values values' : list row) :
  get assignment_data "github_org" = Ret owner ->
  get assignment_data "repo_name" = Ret repo ->
  truthy owner = false \/ truthy repo = false ->
  main_loop http_get query_user_id fuel json_path pre values
  = (pre', Ret values') ->
  main_loop http_get query_user_id fuel json_path
    (pre ++ (assignment_id, assignment_data) :: post) values
  = ((pre' ++ (assignment_id, assignment_data) :: post)%list,
     Raise ValueError).
Proof.
  intros Ho Hr Hmiss Hpre. rewrite main_loop_app, Hpre. simpl.
  now rewrite (main_assignment_missing http_get query_user_id fuel json_path
                 values' assignment_id assignment_data owner repo Ho Hr Hmiss).
Qed.

Lemma missing_repository_aborts_witness :
  main_loop Scripted.batch_api Scripted.no_user 5 None
    ([] ++ (VInt 1, Scripted.incomplete_assignment)
        :: [(VInt 2, Scripted.assignment "repoB")]) []
  = (([] ++ (VInt 1, Scripted.incomplete_assignment)
         :: [(VInt 2, Scripted.assignment "repoB")])%list,
     Raise ValueError).
Proof.
  apply (missing_repository_aborts Scripted.batch_api Scripted.no_user 5 None
           (VInt 1) Scripted.incomplete_assignment (VStr "org") VNone
           [] [] [(VInt 2, Scripted.assignment "repoB")] [] []).
  - reflexivity.
  - reflexivity.
  - right. reflexivity.
  - reflexivity.
Defined.

(** C7, as stated, fails: in a batch of an assignment without repository
    name followed by a regular one, [main] raises [ValueError] and leaves
    the second assignment unprocessed, although on its own the second
    assignment yields a row. *)
Lemma missing_repository_not_isolated :
  main Scripted.batch_api Scripted.no_user 5 None
    [(VInt 1, Scripted.incomplete_assignment);
     (VInt 2, Scripted.assignment "repoB")]
  = ([(VInt 1, Scripted.incomplete_assignment);
      (VInt 2, Scripted.assignment "repoB")],
     Raise ValueError) /\
  exists s r,
    main Scripted.batch_api Scripted.no_user 5 None
      [(VInt 2, Scripted.assignment "repoB")]
    = ([(VInt 2, s)], Ret [r]).
Proof.
  split; [reflexivity|]. eexists. eexists. vm_compute. reflexivity.
Qed.

(** ** Rows *)

Section Rows.

Variable query_user_id : value -> outcome value.

Lemma add_assignment_submission_record_inv
    (assignment_id : value) (values values' : list row) (k : key)
    (pull_request_data : value) :
  add_assignment_submission_record query_user_id assignment_id values
    (k, pull_request_data) = Ret values' ->
  values' = values \/
  exists r,
    values' = (values ++ [r])%list /\
    row_assignment_id r = assignment_id /\
    row_pull_request_data r = pull_request_data /\
    get pull_request_data "github_username" = Ret (row_github_username r) /\
    truthy (row_github_username r) = true /\
    passes_preliminary_checks pull_request_data
    = Ret (row_passes_preliminary_checks r).
Proof.
  unfold add_assignment_submission_record.
  destruct (get pull_request_data "state") as [pr_state| |];
    cbn [bind]; try discriminate.
  destruct (get pull_request_data "github_username")
    as [github_username| |]; cbn [bind]; try discriminate.
  destruct (get pull_request_data "submission_link")
    as [submission_link| |]; cbn [bind]; try discriminate.
  destruct (passes_preliminary_checks pull_request_data) as [passes| |];
    cbn [bind]; try discriminate.
  destruct (get pull_request_data "submission_time")
    as [submission_time| |]; cbn [bind]; try discriminate.
  destruct (truthy github_username) eqn:Hu.
  - destruct (query_user_id github_username) as [user_result| |];
      cbn [bind try_except_pass]; try discriminate;
      [|intros H; injection H as <-; now left].
    destruct (if negb (truthy user_result) then Ret (VStr "null")
              else getitem user_result (VInt 0)) as [user_id| |];
      cbn [bind try_except_pass]; try discriminate;
      intros H; injection H as <-; [|now left].
    right. eexists. split; [reflexivity|]. cbn. auto.
  - cbn [try_except_pass]. intros H. injection H as <-. now left.
Qed.

Lemma add_assignment_submissions_loop_inv (assignment_id : value)
    (entries : list (key * value)) :
  forall values values',
    add_assignment_submissions_loop query_user_id assignment_id values
      entries = Ret values' ->
    exists added,
      values' = (values ++ added)%list /\
      forall r, In r added ->
        exists k pull_request_data,
          In (k, pull_request_data) entries /\
          row_pull_request_data r = pull_request_data /\
          get pull_request_data "github_username"
          = Ret (row_github_username r) /\
          truthy (row_github_username r) = true.
Proof.
  induction entries as [|[k data] rest IH]; intros values values';
    cbn [add_assignment_submissions_loop].
  - intros H. injection H as <-. exists []. split; [now rewrite app_nil_r|].
    intros r [].
  - destruct (add_assignment_submission_record query_user_id assignment_id
                values (k, data)) as [values1| |] eqn:Hstep;
      cbn [bind]; try discriminate.
    intros Hrest. destruct (IH _ _ Hrest) as (added & -> & Hadded).
    destruct (add_assignment_submission_record_inv _ _ _ _ _ Hstep)
      as [->|(r0 & -> & _ & Hdata & Huser & Htruthy & _)].
    + exists added. split; [reflexivity|].
      intros r Hr. destruct (Hadded r Hr) as (k' & d' & Hin & H).
      exists k', d'. split; [now right|exact H].
    + exists (r0 :: added). split; [now rewrite <- app_assoc|].
      intros r [<-|Hr].
      * exists k, data. split; [now left|auto].
      * destruct (Hadded r Hr) as (k' & d' & Hin & H).
        exists k', d'. split; [now right|exact H].
Qed.

End Rows.

(** C3, as the code has it. The check of a row is true exactly when the
    conclusion of the pull request's [workflow_run] is [success]; the
    status of the run is not consulted. *)
Theorem passes_iff_conclusion_success
    (query_user_id : value -> outcome value) (assignment_id : value)
    (values : list row) (k : key) (pull_request_data workflow_run : value)
    (r : row) :
  add_assignment_submission_record query_user_id assignment_id values
    (k, pull_request_data) = Ret (values ++ [r])%list ->
  get_default pull_request_data "workflow_run" (VDict []) = Ret workflow_run ->
  (row_passes_preliminary_checks r = true <->
   get workflow_run "conclusion" = Ret (VStr "success")).
Proof.
  intros Hrec Hrun.
  destruct (add_assignment_submission_record_inv _ _ _ _ _ _ Hrec)
    as [Heq|(r' & Heq & _ & _ & _ & _ & Hpass)].
  - apply (f_equal (@List.length row)) in Heq.
    rewrite length_app in Heq. simpl in Heq. lia.
  - apply app_inv_head in Heq. injection Heq as <-.
    unfold passes_preliminary_checks in Hpass. rewrite Hrun in Hpass.
    cbn [bind] in Hpass.
    destruct (get workflow_run "conclusion") as [conclusion| |];
      cbn [bind] in Hpass; try discriminate.
    injection Hpass as <-. rewrite py_eq_str. split; congruence.
Qed.

Lemma passes_iff_conclusion_success_witness :
  row_passes_preliminary_checks Scripted.in_progress_row = true <->
  get (record_of (Scripted.run_detail_of 11 "in_progress" (VStr "success")
                    "2024-01-01T10:00:00Z")) "conclusion"
  = Ret (VStr "success").
Proof.
  apply (passes_iff_conclusion_success Scripted.no_user (VInt 1) [] (KInt 1)
           Scripted.in_progress_record).
  - reflexivity.
  - reflexivity.
Defined.

(** C3, as stated, fails: a pull request whose only run is in progress and
    carries the conclusion [success] has that run selected and gets a row
    whose check is true, although the status of the selected run is not
    [completed]. *)
Lemma passes_with_run_in_progress :
  snd (main Scripted.in_progress_api Scripted.no_user 5 None
         [(VInt 1, Scripted.assignment "repo")])
  = Ret [Scripted.in_progress_row] /\
  row_passes_preliminary_checks Scripted.in_progress_row = true /\
  exists workflow_run,
    item (row_pull_request_data Scripted.in_progress_row) "workflow_run"
    = Ret workflow_run /\
    item workflow_run "status" = Ret (VStr "in_progress") /\
    item workflow_run "status" <> Ret (VStr "completed").
Proof.
  split; [vm_compute; reflexivity|]. split; [reflexivity|].
  eexists. split; [reflexivity|]. split; [reflexivity|discriminate].
Qed.

(** C9. The rows built for an assignment all come from pull requests with
    a truthy [github_username]; a pull request whose author handle is
    missing or empty has no row. *)
Theorem rows_only_for_usernames
    (query_user_id : value -> outcome value)
    (assignment_id assignment_data : value) (rows : list row) :
  add_assignment_submissions_records query_user_id assignment_id
    assignment_data = Ret rows ->
  exists entries,
    (pull_requests <- item assignment_data "pull_requests" ;;
     dict_items pull_requests) = Ret entries /\
    (forall r, In r rows ->
       exists k pull_request_data,
         In (k, pull_request_data) entries /\
         row_pull_request_data r = pull_request_data /\
         get pull_request_data "github_username"
         = Ret (row_github_username r) /\
         truthy (row_github_username r) = true) /\
    (forall k pull_request_data github_username,
        In (k, pull_request_data) entries ->
        get pull_request_data "github_username" = Ret github_username ->
        truthy github_username = false ->
        forall r, In r rows -> row_pull_request_data r <> pull_request_data).
Proof.
  unfold add_assignment_submissions_records. intros H.
  destruct (item assignment_data "pull_requests") as [pull_requests| |];
    cbn [bind] in *; try discriminate.
  destruct (dict_items pull_requests) as [entries| |];
    cbn [bind] in *; try discriminate.
  destruct (add_assignment_submissions_loop_inv _ _ _ _ _ H)
    as (added & -> & Hadded). simpl in *.
  exists entries. split; [reflexivity|]. split; [exact Hadded|].
  intros k data u Hin Hu Tu r Hr Hdata.
  destruct (Hadded r Hr) as (k' & data' & _ & Hdata' & Hu' & Tu').
  assert (Hsame : data' = data) by congruence. rewrite Hsame in Hu'.
  assert (u = row_github_username r) by congruence. congruence.
Qed.

Lemma rows_only_for_usernames_witness :
  exists entries,
    (pull_requests <- item Scripted.anonymous_data "pull_requests" ;;
     dict_items pull_requests) = Ret entries /\
    forall k pull_request_data github_username,
      In (k, pull_request_data) entries ->
      get pull_request_data "github_username" = Ret github_username ->
      truthy github_username = false ->
      forall r,
        In r (match add_assignment_submissions_records Scripted.no_user
                      (VInt 1) Scripted.anonymous_data with
              | Ret rows => rows
              | _ => []
              end) ->
        row_pull_request_data r <> pull_request_data.
Proof.
  destruct (rows_only_for_usernames Scripted.no_user (VInt 1)
              Scripted.anonymous_data
              (match add_assignment_submissions_records Scripted.no_user
                       (VInt 1) Scripted.anonymous_data with
               | Ret rows => rows
               | _ => []
               end)) as (entries & He & _ & H).
  - reflexivity.
  - exists entries. split; [exact He|exact H].
Defined.

(** ** Malformed pull requests *)

Section Malformed.

Variable http_get : request -> outcome response.
Variables owner repo : value.

(** An entry whose number or head SHA is there but falsy ([None], zero,
    empty) is skipped: the state is untouched and the loop goes on. *)
Lemma retrieve_pull_request_skips (pull_request pr_number head_sha s : value) :
  item pull_request "number" = Ret pr_number ->
  (head <- item pull_request "head" ;; item head "sha") = Ret head_sha ->
  truthy pr_number = false \/ truthy head_sha = false ->
  retrieve_pull_request http_get owner repo pull_request s = (s, Ret tt).
Proof.
  intros Hn Hsha Hfalsy. unfold retrieve_pull_request.
  rewrite bindM_lift, Hn, bindM_lift, Hsha.
  destruct Hfalsy as [-> | ->]; [reflexivity|].
  now rewrite orb_true_r.
Qed.

(** An entry without the key ['number'] raises [KeyError]. *)
Lemma retrieve_pull_request_no_number (kvs : list (key * value)) (s : value) :
  dict_lookup (KStr "number") kvs = None ->
  retrieve_pull_request http_get owner repo (VDict kvs) s
  = (s, Raise KeyError).
Proof.
  intros H. unfold retrieve_pull_request. rewrite bindM_lift.
  unfold item, getitem. cbn [to_key bind]. now rewrite H.
Qed.

(** An entry whose [head] has no key ['sha'] raises [KeyError]. *)
Lemma retrieve_pull_request_no_sha (kvs head : list (key * value))
    (pr_number s : value) :
  dict_lookup (KStr "number") kvs = Some pr_number ->
  dict_lookup (KStr "head") kvs = Some (VDict head) ->
  dict_lookup (KStr "sha") head = None ->
  retrieve_pull_request http_get owner repo (VDict kvs) s
  = (s, Raise KeyError).
Proof.
  intros Hn Hh Hs. unfold retrieve_pull_request. rewrite bindM_lift.
  unfold item, getitem. cbn [to_key bind]. rewrite Hn, bindM_lift, Hh.
  cbn [bind]. now rewrite Hs.
Qed.

(** A [KeyError] is not caught by the handler of the retrieval. *)
Lemma try_except_request_other {A : Type} (m handler : M A)
    (s s' : value) (e : exn) :
  m s = (s', Raise e) ->
  e <> RequestException ->
  try_except_request m handler s = (s', Raise e).
Proof.
  intros H He. unfold try_except_request. rewrite H.
  destruct e; congruence.
Qed.

End Malformed.

(** C4, on the code. A listing whose second pull request has a [head]
    without [sha] makes the retrieval of the assignment raise [KeyError],
    which nothing catches: [main] ends with that exception, the third pull
    request of the listing is not recorded and the second assignment of
    the batch is left unprocessed. *)
Theorem pull_request_without_sha_aborts :
  snd (retrieve_assignment_submission_data Scripted.malformed_api 5 (VInt 1)
         (Scripted.assignment "repoA")) = Raise KeyError /\
  snd (main Scripted.malformed_api Scripted.no_user 5 None
         [(VInt 1, Scripted.assignment "repoA");
          (VInt 2, Scripted.assignment "repoB")]) = Raise KeyError /\
  exists s prs,
    fst (main Scripted.malformed_api Scripted.no_user 5 None
           [(VInt 1, Scripted.assignment "repoA");
            (VInt 2, Scripted.assignment "repoB")])
    = [(VInt 1, s); (VInt 2, Scripted.assignment "repoB")] /\
    has_pulls s prs /\
    dict_lookup (KInt 1) prs <> None /\
    dict_lookup (KInt 3) prs = None.
Proof.
  split; [vm_compute; reflexivity|]. split; [vm_compute; reflexivity|].
  eexists. eexists. split; [vm_compute; reflexivity|].
  split; [reflexivity|]. split; [discriminate|reflexivity].
Qed.

(** ** The scripted scenarios, evaluated *)

Example selects_latest_success :
  process_workflow_runs Scripted.three_runs_api Scripted.org Scripted.repo
    (VList Scripted.three_runs)
  = Ret (record_of (Scripted.run_detail_of 3 "completed" (VStr "success")
                      "2024-01-01T12:00:00Z")).
Proof. reflexivity. Qed.

Example fallback_keeps_first_of_tie :
  process_workflow_runs Scripted.two_runs_api Scripted.org Scripted.repo
    (VList Scripted.two_runs)
  = Ret (record_of (Scripted.run_detail_of 4 "completed" (VStr "failure")
                      "2024-01-02T10:00:00Z")).
Proof. reflexivity. Qed.

Example success_keeps_first_of_tie :
  process_workflow_runs Scripted.tied_runs_api Scripted.org Scripted.repo
    (VList Scripted.tied_runs)
  = Ret (record_of (Scripted.run_detail_of 6 "completed" (VStr "success")
                      "2024-01-02T10:00:00Z")).
Proof. reflexivity. Qed.

Example null_sha_is_skipped :
  exists r1 r3,
    snd (main Scripted.null_sha_api Scripted.no_user 5 None
           [(VInt 1, Scripted.assignment "repoA")]) = Ret [r1; r3] /\
    row_github_username r1 = VStr "ada" /\
    row_github_username r3 = VStr "cy".
Proof. eexists. eexists. split; [vm_compute; reflexivity|]. split; reflexivity. Qed.

Example batch_rows_of_second_assignment :
  exists r,
    snd (main Scripted.batch_api Scripted.no_user 5 None
           [(VInt 1, Scripted.assignment "repoA");
            (VInt 2, Scripted.assignment "repoB")]) = Ret [r] /\
    row_assignment_id r = VInt 2 /\
    row_passes_preliminary_checks r = true.
Proof. eexists. split; [vm_compute; reflexivity|]. split; reflexivity. Qed.

Example interrupted_assignment_state :
  exists prs record3,
    has_pulls Scripted.repoA_interrupted prs /\
    dict_lookup (KInt 1) prs <> None /\
    dict_lookup (KInt 2) prs <> None /\
    dict_lookup (KInt 3) prs = Some record3 /\
    item record3 "workflow_run" = Ret (VDict []) /\
    dict_lookup (KInt 4) prs = None.
Proof.
  eexists. eexists. split; [reflexivity|].
  split; [discriminate|]. split; [discriminate|].
  split; [reflexivity|]. split; reflexivity.
Qed.

(** * Further properties of the code *)

(** ** Pagination: failures and endless listings *)

Section PaginationFailure.

Variable http_get : request -> outcome response.
Variables owner repo : value.
Variable pages : list (list value).

Hypothesis Hpages :
  forall k page,
    nth_error pages k = Some page ->
    page <> [] /\
    exists res,
      http_get (GetPulls owner repo (Z.of_nat k + 1)) = Ret res /\
      200 <= status_code res < 300 /\
      body res = VList page /\
      has_next res = true.

Hypothesis Hfails :
  request_fails http_get
    (GetPulls owner repo (Z.of_nat (List.length pages) + 1)).

Lemma fetch_pull_requests_loop_failing (n : nat) :
  forall (k fuel : nat) (all_pulls : list value),
    (k + n = List.length pages)%nat ->
    (n < fuel)%nat ->
    fetch_pull_requests_loop http_get fuel owner repo (Z.of_nat k + 1)
      all_pulls
    = Raise RequestException.
Proof.
  induction n as [|n IH]; intros k fuel all_pulls Hk Hfuel;
    (destruct fuel as [|fuel]; [lia|]).
  - replace k with (List.length pages) by lia. simpl.
    destruct Hfails as [->|(res & -> & Hst)]; [reflexivity|].
    cbn [bind]. now rewrite (raise_for_status_error _ Hst).
  - destruct (nth_error pages k) as [page|] eqn:Hpage;
      [|apply nth_error_None in Hpage; lia].
    destruct (Hpages k page Hpage) as (Hne & res & Hget & Hst & Hbody & Hnext).
    rewrite (fetch_pull_requests_loop_step _ _ _ _ _ _ res Hget
               (raise_for_status_success _ Hst)).
    rewrite Hbody, Hnext. destruct page as [|x page']; [congruence|].
    cbn [truthy negb iterate bind].
    replace (Z.of_nat k + 1 + 1) with (Z.of_nat (S k) + 1) by lia.
    apply IH; lia.
Qed.

End PaginationFailure.

(** X1. When the pages of a listing are served with a next page announced
    and the request for the page after them fails in transport, the
    fetcher raises [RequestException]: the pull requests of the pages
    already fetched are not returned. *)
Theorem fetch_pull_requests_all_or_nothing
    (http_get : request -> outcome response) (owner repo : value)
    (pages : list (list value)) (fuel : nat) :
  (forall k page,
      nth_error pages k = Some page ->
      page <> [] /\
      exists res,
        http_get (GetPulls owner repo (Z.of_nat k + 1)) = Ret res /\
        200 <= status_code res < 300 /\
        body res = VList page /\
        has_next res = true) ->
  request_fails http_get
    (GetPulls owner repo (Z.of_nat (List.length pages) + 1)) ->
  (List.length pages < fuel)%nat ->
  fetch_pull_requests http_get fuel owner repo = Raise RequestException.
Proof.
  intros Hpages Hfails Hfuel. unfold fetch_pull_requests.
  apply (fetch_pull_requests_loop_failing http_get owner repo pages Hpages
           Hfails (List.length pages) 0 fuel []); lia.
Qed.

Lemma fetch_pull_requests_all_or_nothing_witness :
  fetch_pull_requests Scripted.failing_page_api 2 Scripted.org Scripted.repo
  = Raise RequestException.
Proof.
  apply (fetch_pull_requests_all_or_nothing Scripted.failing_page_api
           Scripted.org Scripted.repo
           [[Scripted.pull 1 "a1" "ada"; Scripted.pull 2 "b2" "bob"]] 2).
  - intros [|k] page Hpage; simpl in Hpage;
      [|destruct k; discriminate Hpage].
    injection Hpage as <-. split; [discriminate|].
    eexists. split; [reflexivity|]. split; [simpl; lia|].
    split; reflexivity.
  - right. eexists. split; [reflexivity|]. simpl. lia.
  - simpl. lia.
Defined.

(** X2. The loop has no bound of its own: against an API that answers
    every page with a non-empty body and announces a next page each time,
    it does not finish, whatever the fuel. *)
Theorem fetch_pull_requests_endless
    (http_get : request -> outcome response) (owner repo : value) :
  (forall page,
      1 <= page ->
      exists res,
        http_get (GetPulls owner repo page) = Ret res /\
        200 <= status_code res < 300 /\
        truthy (body res) = true /\
        (exists new_pulls, iterate (body res) = Ret new_pulls) /\
        has_next res = true) ->
  forall fuel, fetch_pull_requests http_get fuel owner repo = OutOfFuel.
Proof.
  intros Hall fuel. unfold fetch_pull_requests.
  assert (H : forall page all_pulls,
             1 <= page ->
             fetch_pull_requests_loop http_get fuel owner repo page all_pulls
             = OutOfFuel).
  { induction fuel as [|fuel IH]; intros page all_pulls Hpage;
      [reflexivity|].
    destruct (Hall page Hpage)
      as (res & Hget & Hst & Hbody & (new & Hnew) & Hnext).
    rewrite (fetch_pull_requests_loop_step _ _ _ _ _ _ res Hget
               (raise_for_status_success _ Hst)).
    rewrite Hbody, Hnew, Hnext. cbn [negb bind]. apply IH. lia. }
  apply H. lia.
Qed.

Lemma fetch_pull_requests_endless_witness :
  fetch_pull_requests Scripted.endless_api 25 Scripted.org Scripted.repo
  = OutOfFuel.
Proof.
  apply (fetch_pull_requests_endless Scripted.endless_api Scripted.org
           Scripted.repo).
  intros page _. eexists. split; [reflexivity|]. split; [simpl; lia|].
  split; [reflexivity|]. split; [eexists; reflexivity|reflexivity].
Defined.

(** ** The selector on arbitrary input *)

Lemma run_record_run_id (run_id workflow_json best_run : value)
    (conclusion : outcome value) :
  run_record run_id workflow_json conclusion = Ret best_run ->
  item best_run "run_id" = Ret run_id.
Proof.
  unfold run_record. intros H.
  repeat match type of H with
         | bind ?o _ = _ => destruct o; cbn [bind] in H; try discriminate H
         end.
  injection H as <-. reflexivity.
Qed.

Section SelectorLoop.

Variable http_get : request -> outcome response.
Variables owner repo : value.

Lemma process_workflow_runs_loop_app (l1 : list value) :
  forall (l2 : list value) (best : value * value),
    process_workflow_runs_loop http_get owner repo best (l1 ++ l2)
    = (best' <- process_workflow_runs_loop http_get owner repo best l1 ;;
       process_workflow_runs_loop http_get owner repo best' l2).
Proof.
  induction l1 as [|w l1 IH]; intros l2 best; [reflexivity|].
  cbn [app process_workflow_runs_loop].
  destruct (process_workflow_run http_get owner repo best w); cbn [bind];
    auto.
Qed.

Lemma process_workflow_run_skips (best : value * value)
    (workflow_run run_id : value) :
  get workflow_run "id" = Ret run_id ->
  truthy run_id = false ->
  process_workflow_run http_get owner repo best workflow_run = Ret best.
Proof.
  intros Hid Hfalsy. unfold process_workflow_run. destruct best.
  now rewrite Hid; cbn [bind]; rewrite Hfalsy.
Qed.

Lemma process_workflow_run_fails (best : value * value)
    (workflow_run run_id : value) :
  get workflow_run "id" = Ret run_id ->
  truthy run_id = true ->
  request_fails http_get (GetRun owner repo run_id) ->
  process_workflow_run http_get owner repo best workflow_run
  = Raise RequestException.
Proof.
  intros Hid Htruthy Hfail. unfold process_workflow_run. destruct best.
  rewrite Hid; cbn [bind]; rewrite Htruthy; cbn [negb].
  now rewrite (fetch_workflow_run_id_fails http_get owner repo run_id Hfail).
Qed.

Lemma built_from_run_weaken (runs runs' : list value) (best_run : value) :
  (forall w, In w runs -> In w runs') ->
  built_from_run http_get owner repo runs best_run ->
  built_from_run http_get owner repo runs' best_run.
Proof.
  intros Hsub [->|(w & run_id & wj & Hin & H)]; [now left|].
  right. exists w, run_id, wj. split; [auto|exact H].
Qed.

Lemma process_workflow_run_built (runs : list value)
    (recent most recent' most' workflow_run : value) :
  In workflow_run runs ->
  built_from_run http_get owner repo runs recent ->
  built_from_run http_get owner repo runs most ->
  process_workflow_run http_get owner repo (recent, most) workflow_run
  = Ret (recent', most') ->
  built_from_run http_get owner repo runs recent' /\
  built_from_run http_get owner repo runs most'.
Proof.
  intros Hin Hr Hm. unfold process_workflow_run.
  destruct (get workflow_run "id") as [run_id| |] eqn:Hid; cbn [bind];
    try discriminate.
  destruct (truthy run_id) eqn:Htruthy; cbn [negb];
    [|intros H; injection H as <- <-; auto].
  destruct (fetch_workflow_run_id http_get owner repo run_id)
    as [wj| |] eqn:Hfetch; cbn [bind]; try discriminate.
  destruct (item wj "status") as [run_status| |]; cbn [bind];
    try discriminate.
  assert (Hnew : forall conclusion v,
             run_record run_id wj conclusion = Ret v ->
             conclusion = item wj "conclusion" ->
             built_from_run http_get owner repo runs v).
  { intros conclusion v Hv ->. right. exists workflow_run, run_id, wj.
    repeat (split; [assumption|]). eapply run_record_run_id; eauto. }
  match goal with
  | |- bind ?o _ = _ -> _ =>
      destruct o as [recent1| |] eqn:Hrecent; cbn [bind]; try discriminate
  end.
  assert (Hr1 : built_from_run http_get owner repo runs recent1).
  { destruct (py_eq run_status (VStr "completed"));
      [|injection Hrecent as <-; exact Hr].
    destruct (item wj "conclusion") as [conclusion| |] eqn:Hc;
      cbn [bind] in Hrecent; try discriminate.
    destruct (py_eq conclusion (VStr "success"));
      [|injection Hrecent as <-; exact Hr].
    destruct (is_newer wj recent) as [[|]| |]; cbn [bind] in Hrecent;
      try discriminate; [|injection Hrecent as <-; exact Hr].
    apply (Hnew _ _ Hrecent). reflexivity. }
  destruct (is_newer wj most) as [[|]| |]; cbn [bind]; try discriminate.
  - destruct (run_record run_id wj (item wj "conclusion")) as [most1| |]
      eqn:Hmost; cbn [bind]; try discriminate.
    intros H. injection H as <- <-. split; [exact Hr1|].
    apply (Hnew _ _ Hmost eq_refl).
  - intros H. injection H as <- <-. auto.
Qed.

Lemma process_workflow_runs_loop_built (runs : list value) (l : list value) :
  forall recent most recent' most',
    (forall w, In w l -> In w runs) ->
    built_from_run http_get owner repo runs recent ->
    built_from_run http_get owner repo runs most ->
    process_workflow_runs_loop http_get owner repo (recent, most) l
    = Ret (recent', most') ->
    built_from_run http_get owner repo runs recent' /\
    built_from_run http_get owner repo runs most'.
Proof.
  induction l as [|w l IH]; intros recent most recent' most' Hsub Hr Hm;
    cbn [process_workflow_runs_loop].
  - intros H. injection H as <- <-. auto.
  - destruct (process_workflow_run http_get owner repo (recent, most) w)
      as [[recent1 most1]| |] eqn:Hstep; cbn [bind]; try discriminate.
    destruct (process_workflow_run_built runs _ _ _ _ w
                (Hsub w (or_introl eq_refl)) Hr Hm Hstep) as [Hr1 Hm1].
    apply IH; auto. intros w' Hw'. apply Hsub. now right.
Qed.

End SelectorLoop.

(** X3. Whatever the API answers, a best run that the selector returns is
    [None] or the record built from the detail that was fetched for the
    identifier of one of the given summaries; its [run_id] is that
    identifier. *)
Theorem process_workflow_runs_built_from_input
    (http_get : request -> outcome response)
    (owner repo workflow_runs best_run : value) :
  process_workflow_runs http_get owner repo workflow_runs = Ret best_run ->
  exists runs,
    iterate workflow_runs = Ret runs /\
    built_from_run http_get owner repo runs best_run.
Proof.
  unfold process_workflow_runs. intros H.
  destruct (py_len workflow_runs); cbn [bind] in H; try discriminate.
  destruct (iterate workflow_runs) as [runs| |]; cbn [bind] in H;
    try discriminate.
  exists runs. split; [reflexivity|].
  destruct (process_workflow_runs_loop http_get owner repo (VNone, VNone)
              runs) as [[recent most]| |] eqn:Hloop; cbn [bind] in H;
    try discriminate.
  injection H as <-.
  destruct (process_workflow_runs_loop_built http_get owner repo runs runs
              VNone VNone recent most (fun w Hw => Hw)
              (or_introl eq_refl) (or_introl eq_refl) Hloop) as [Hr Hm].
  unfold py_or. destruct (truthy recent); assumption.
Qed.

Lemma process_workflow_runs_built_from_input_witness :
  exists runs,
    iterate (VList Scripted.three_runs) = Ret runs /\
    built_from_run Scripted.three_runs_api Scripted.org Scripted.repo runs
      (record_of (Scripted.run_detail_of 3 "completed" (VStr "success")
                    "2024-01-01T12:00:00Z")).
Proof.
  apply (process_workflow_runs_built_from_input Scripted.three_runs_api
           Scripted.org Scripted.repo (VList Scripted.three_runs)).
  reflexivity.
Defined.

(** X4. A summary whose identifier is missing or falsy takes no part in
    the selection: with or without it the selector gives the same
    result. *)
Theorem process_workflow_runs_ignores_unidentified
    (http_get : request -> outcome response) (owner repo : value)
    (before after : list value) (workflow_run run_id : value) :
  get workflow_run "id" = Ret run_id ->
  truthy run_id = false ->
  process_workflow_runs http_get owner repo
    (VList (before ++ workflow_run :: after))
  = process_workflow_runs http_get owner repo (VList (before ++ after)).
Proof.
  intros Hid Hfalsy. unfold process_workflow_runs.
  cbn [py_len bind iterate].
  rewrite !process_workflow_runs_loop_app.
  destruct (process_workflow_runs_loop http_get owner repo (VNone, VNone)
              before) as [best| |]; cbn [bind]; try reflexivity.
  cbn [process_workflow_runs_loop].
  now rewrite (process_workflow_run_skips http_get owner repo best _ _ Hid
                 Hfalsy).
Qed.

Lemma process_workflow_runs_ignores_unidentified_witness :
  process_workflow_runs Scripted.three_runs_api Scripted.org Scripted.repo
    (VList ([Scripted.run_summary 1; Scripted.run_summary 2]
            ++ dict_of [("name", VStr "CI")] :: [Scripted.run_summary 3]))
  = process_workflow_runs Scripted.three_runs_api Scripted.org Scripted.repo
      (VList ([Scripted.run_summary 1; Scripted.run_summary 2]
              ++ [Scripted.run_summary 3])).
Proof.
  apply (process_workflow_runs_ignores_unidentified Scripted.three_runs_api
           Scripted.org Scripted.repo
           [Scripted.run_summary 1; Scripted.run_summary 2]
           [Scripted.run_summary 3] (dict_of [("name", VStr "CI")]) VNone).
  - reflexivity.
  - reflexivity.
Defined.

(** X5. When the detail request of a summary that the loop reaches fails
    in transport, the selector raises [RequestException]: the runs seen
    before it give no result. *)
Theorem process_workflow_runs_detail_failure
    (http_get : request -> outcome response) (owner repo : value)
    (before after : list value) (workflow_run run_id : value)
    (best : value * value) :
  process_workflow_runs_loop http_get owner repo (VNone, VNone) before
  = Ret best ->
  get workflow_run "id" = Ret run_id ->
  truthy run_id = true ->
  request_fails http_get (GetRun owner repo run_id) ->
  process_workflow_runs http_get owner repo
    (VList (before ++ workflow_run :: after))
  = Raise RequestException.
Proof.
  intros Hbefore Hid Htruthy Hfail. unfold process_workflow_runs.
  cbn [py_len bind iterate].
  rewrite process_workflow_runs_loop_app, Hbefore. cbn [bind].
  cbn [process_workflow_runs_loop].
  now rewrite (process_workflow_run_fails http_get owner repo best _ _ Hid
                 Htruthy Hfail).
Qed.

Lemma process_workflow_runs_detail_failure_witness :
  process_workflow_runs Scripted.missing_run_api Scripted.org Scripted.repo
    (VList ([Scripted.run_summary 11] ++ Scripted.run_summary 12 :: []))
  = Raise RequestException.
Proof.
  eapply (process_workflow_runs_detail_failure Scripted.missing_run_api
            Scripted.org Scripted.repo [Scripted.run_summary 11] []
            (Scripted.run_summary 12) (VInt 12)).
  - vm_compute. reflexivity.
  - reflexivity.
  - reflexivity.
  - right. eexists. split; [reflexivity|]. simpl. lia.
Defined.

(** ** One pull request, from its record to its best run *)

Lemma item_get_default (c : value) (k : string) (v default : value) :
  item c k = Ret v -> get_default c k default = Ret v.
Proof.
  intros H. apply item_dict_inv in H as (kvs & -> & Hl).
  unfold get_default. now rewrite Hl.
Qed.

Lemma empty_workflow_run_fails_check (record : value) :
  item record "workflow_run" = Ret (VDict []) ->
  passes_preliminary_checks record = Ret false.
Proof.
  intros H. unfold passes_preliminary_checks.
  now rewrite (item_get_default _ _ _ (VDict []) H).
Qed.

Section CompletePull.

Variable http_get : request -> outcome response.
Variables owner repo : value.

(** A complete pull request is stored with an empty [workflow_run] before
    any request for its runs is sent; what follows works on that state. *)
Lemma retrieve_pull_request_complete
    (pull_request pr_number head_sha s : value) (k : key)
    (prs : list (key * value)) :
  complete_pull pull_request pr_number head_sha k ->
  has_pulls s prs ->
  exists s1 record,
    has_pulls s1 (dict_set k record prs) /\
    item record "workflow_run" = Ret (VDict []) /\
    item record "head_sha" = Ret head_sha /\
    retrieve_pull_request http_get owner repo pull_request s
    = (workflow_runs <~
         lift (fetch_workflow_runs http_get owner repo pr_number head_sha) ;;
       best_run <~
         lift (process_workflow_runs http_get owner repo workflow_runs) ;;
       if truthy best_run then store_workflow_run pr_number best_run
       else retM tt) s1.
Proof.
  intros (Hn & Hsha & Tn & Tsha & Hk & (pr_id & Hid) & (state & Hstate)
          & (link & Hlink) & (user & Huser) & (time & Htime)) H.
  unfold retrieve_pull_request.
  rewrite bindM_lift, Hn, bindM_lift, Hsha, Tn, Tsha. cbn [negb orb].
  rewrite bindM_lift, Hid, bindM_lift, Hstate, bindM_lift, Hlink,
    bindM_lift, Huser, bindM_lift, Htime.
  unfold bindM at 1.
  match goal with
  | |- context [store_pull_request pr_number ?r s] =>
      pose proof (store_pull_request_run pr_number r s prs H) as Hst;
      rewrite Hk in Hst; destruct Hst as (s1 & -> & Hs1);
      exists s1, r
  end.
  split; [exact Hs1|]. repeat (split; [reflexivity|]). reflexivity.
Qed.

Lemma fetch_workflow_runs_body (pr_number head_sha : value) (res : response) :
  http_get (GetActionsRuns owner repo head_sha) = Ret res ->
  200 <= status_code res < 300 ->
  fetch_workflow_runs http_get owner repo pr_number head_sha
  = (workflow_runs <- get_default (body res) "workflow_runs" (VList []) ;;
     py_len workflow_runs ;;;
     Ret workflow_runs).
Proof.
  intros Hget Hst. unfold fetch_workflow_runs. rewrite Hget. cbn [bind].
  now rewrite (raise_for_status_success _ Hst).
Qed.

End CompletePull.

(** X6. A run list answered without the key ['workflow_runs'] counts as a
    commit without runs: the fetch gives the empty list, and the pull
    request is stored with an empty [workflow_run], fails the preliminary
    checks and lets the loop go on. *)
Theorem missing_workflow_runs_key_means_no_runs
    (http_get : request -> outcome response)
    (owner repo pull_request pr_number head_sha s : value) (k : key)
    (prs kvs : list (key * value)) (res : response) :
  complete_pull pull_request pr_number head_sha k ->
  has_pulls s prs ->
  http_get (GetActionsRuns owner repo head_sha) = Ret res ->
  200 <= status_code res < 300 ->
  body res = VDict kvs ->
  dict_lookup (KStr "workflow_runs") kvs = None ->
  fetch_workflow_runs http_get owner repo pr_number head_sha = Ret (VList []) /\
  exists s' record,
    retrieve_pull_request http_get owner repo pull_request s = (s', Ret tt) /\
    has_pulls s' (dict_set k record prs) /\
    item record "workflow_run" = Ret (VDict []) /\
    passes_preliminary_checks record = Ret false.
Proof.
  intros Hp Hs Hget Hst Hbody Hkey.
  assert (Hruns : fetch_workflow_runs http_get owner repo pr_number head_sha
                  = Ret (VList [])).
  { rewrite (fetch_workflow_runs_body _ _ _ _ _ _ Hget Hst), Hbody.
    unfold get_default. now rewrite Hkey. }
  split; [exact Hruns|].
  destruct (retrieve_pull_request_complete http_get owner repo _ _ _ _ _ _
              Hp Hs) as (s1 & record & Hs1 & Hrun & _ & ->).
  exists s1, record. rewrite bindM_lift, Hruns, bindM_lift.
  split; [reflexivity|]. split; [exact Hs1|]. split; [exact Hrun|].
  now apply empty_workflow_run_fails_check.
Qed.

Lemma missing_workflow_runs_key_means_no_runs_witness :
  fetch_workflow_runs Scripted.no_key_api Scripted.org Scripted.repo
    (VInt 1) (VStr "a1") = Ret (VList []) /\
  exists s' record,
    retrieve_pull_request Scripted.no_key_api Scripted.org Scripted.repo
      (Scripted.pull 1 "a1" "ada") Scripted.repoA_started = (s', Ret tt) /\
    has_pulls s' (dict_set (KInt 1) record []) /\
    item record "workflow_run" = Ret (VDict []) /\
    passes_preliminary_checks record = Ret false.
Proof.
  apply (missing_workflow_runs_key_means_no_runs Scripted.no_key_api
           Scripted.org Scripted.repo (Scripted.pull 1 "a1" "ada") (VInt 1)
           (VStr "a1") Scripted.repoA_started (KInt 1) []
           [(KStr "total_count", VInt 0)]
           (Scripted.ok (dict_of [("total_count", VInt 0)]) None)).
  - repeat split; try reflexivity; eexists; reflexivity.
  - reflexivity.
  - reflexivity.
  - simpl. lia.
  - reflexivity.
  - reflexivity.
Defined.

(** X7. A failure between the storing of a pull request's record and the
    storing of its best run, be it in the run list or in the selection,
    leaves the loop with that exception and the record in the state, its
    [workflow_run] still empty. *)
Theorem failure_after_store_leaves_record
    (http_get : request -> outcome response)
    (owner repo pull_request pr_number head_sha s : value) (k : key)
    (prs : list (key * value)) (e : exn) :
  complete_pull pull_request pr_number head_sha k ->
  has_pulls s prs ->
  (fetch_workflow_runs http_get owner repo pr_number head_sha = Raise e \/
   exists workflow_runs,
     fetch_workflow_runs http_get owner repo pr_number head_sha
     = Ret workflow_runs /\
     process_workflow_runs http_get owner repo workflow_runs = Raise e) ->
  exists s' record,
    retrieve_pull_request http_get owner repo pull_request s = (s', Raise e) /\
    has_pulls s' (dict_set k record prs) /\
    item record "head_sha" = Ret head_sha /\
    item record "workflow_run" = Ret (VDict []).
Proof.
  intros Hp Hs Hfail.
  destruct (retrieve_pull_request_complete http_get owner repo _ _ _ _ _ _
              Hp Hs) as (s1 & record & Hs1 & Hrun & Hsha & ->).
  exists s1, record. split; [|auto].
  rewrite bindM_lift.
  destruct Hfail as [->|(wr & -> & Hproc)]; [reflexivity|].
  now rewrite bindM_lift, Hproc.
Qed.

Lemma failure_after_store_leaves_record_witness :
  exists s' record,
    retrieve_pull_request Scripted.missing_run_api Scripted.org Scripted.repo
      (Scripted.pull 1 "a1" "ada") Scripted.repoA_started
    = (s', Raise RequestException) /\
    has_pulls s' (dict_set (KInt 1) record []) /\
    item record "head_sha" = Ret (VStr "a1") /\
    item record "workflow_run" = Ret (VDict []).
Proof.
  apply (failure_after_store_leaves_record Scripted.missing_run_api
           Scripted.org Scripted.repo (Scripted.pull 1 "a1" "ada") (VInt 1)
           (VStr "a1") Scripted.repoA_started (KInt 1) [] RequestException).
  - repeat split; try reflexivity; eexists; reflexivity.
  - reflexivity.
  - right. eexists. split; vm_compute; reflexivity.
Defined.

(** ** Exceptions the retrieval does not handle *)

Section Escapes.

Variable http_get : request -> outcome response.
Variable query_user_id : value -> outcome value.
Variable fuel : nat.

Lemma retrieve_other_exception
    (assignment_id assignment_data owner repo s1 s2 s3 : value)
    (before after : list value) (pull_request : value) (e : exn) :
  item assignment_data "github_org" = Ret owner ->
  item assignment_data "repo_name" = Ret repo ->
  init_pull_requests assignment_data = Ret s1 ->
  fetch_pull_requests http_get fuel owner repo
  = Ret (before ++ pull_request :: after)%list ->
  for_each (retrieve_pull_request http_get owner repo) before s1
  = (s2, Ret tt) ->
  retrieve_pull_request http_get owner repo pull_request s2 = (s3, Raise e) ->
  e <> RequestException ->
  retrieve_assignment_submission_data http_get fuel assignment_id
    assignment_data = (s3, Raise e).
Proof.
  intros Ho Hr Hi Hf Hb Hp He.
  rewrite (retrieve_assignment_submission_data_unfold _ _ _ _ _ _ _ Ho Hr Hi).
  apply try_except_request_other; [|exact He].
  rewrite (retrieve_pull_requests_unfold _ _ _ _ _ _ Hf).
  rewrite for_each_app, Hb. now rewrite for_each_cons, Hp.
Qed.

Lemma main_assignment_raises (values : list row)
    (assignment_id assignment_data owner repo s3 : value) (e : exn) :
  get assignment_data "github_org" = Ret owner ->
  truthy owner = true ->
  get assignment_data "repo_name" = Ret repo ->
  truthy repo = true ->
  retrieve_assignment_submission_data http_get fuel assignment_id
    assignment_data = (s3, Raise e) ->
  main_assignment http_get query_user_id fuel None values assignment_id
    assignment_data
  = (s3, Raise e).
Proof.
  intros Ho To Hr Tr Hret. unfold main_assignment.
  unfold bindM at 1. unfold readM at 1. rewrite Ho.
  unfold bindM at 1. unfold readM at 1. rewrite Hr, To, Tr. cbn [negb orb].
  unfold bindM at 1. now rewrite Hret.
Qed.

End Escapes.

(** X8. Only [RequestException] is handled. When the processing of a
    listed pull request raises any other exception, the retrieval raises
    it, in the state reached, and [main] ends with it: the assignments
    before have been processed, those after are left as they were and no
    row is handed to the insert. *)
Theorem other_exceptions_abort_the_batch
    (http_get : request -> outcome response)
    (query_user_id : value -> outcome value) (fuel : nat)
    (assignment_id assignment_data owner repo s1 s2 s3 : value)
    (before after : list value) (pull_request : value) (e : exn)
    (pre pre' post : list (value * value)) (values values' : list row) :
  get assignment_data "github_org" = Ret owner ->
  truthy owner = true ->
  get assignment_data "repo_name" = Ret repo ->
  truthy repo = true ->
  init_pull_requests assignment_data = Ret s1 ->
  fetch_pull_requests http_get fuel owner repo
  = Ret (before ++ pull_request :: after)%list ->
  for_each (retrieve_pull_request http_get owner repo) before s1
  = (s2, Ret tt) ->
  retrieve_pull_request http_get owner repo pull_request s2 = (s3, Raise e) ->
  e <> RequestException ->
  main_loop http_get query_user_id fuel None pre values = (pre', Ret values') ->
  retrieve_assignment_submission_data http_get fuel assignment_id
    assignment_data = (s3, Raise e) /\
  main_loop http_get query_user_id fuel None
    (pre ++ (assignment_id, assignment_data) :: post) values
  = ((pre' ++ (assignment_id, s3) :: post)%list, Raise e).
Proof.
  intros Ho To Hr Tr Hi Hf Hb Hp He Hpre.
  assert (Hret : retrieve_assignment_submission_data http_get fuel
                   assignment_id assignment_data = (s3, Raise e))
    by (eapply retrieve_other_exception; eauto using get_truthy_item).
  split; [exact Hret|].
  rewrite main_loop_app, Hpre. simpl.
  now rewrite (main_assignment_raises http_get query_user_id fuel values'
                 _ _ _ _ _ _ Ho To Hr Tr Hret).
Qed.

Lemma other_exceptions_abort_the_batch_witness :
  exists s3,
    retrieve_assignment_submission_data Scripted.null_runs_api 5 (VInt 1)
      (Scripted.assignment "repo") = (s3, Raise TypeError) /\
    main_loop Scripted.null_runs_api Scripted.no_user 5 None
      ([] ++ (VInt 1, Scripted.assignment "repo")
          :: [(VInt 2, Scripted.assignment "repoB")]) []
    = (([] ++ (VInt 1, s3) :: [(VInt 2, Scripted.assignment "repoB")])%list,
       Raise TypeError).
Proof.
  eexists.
  eapply (other_exceptions_abort_the_batch Scripted.null_runs_api
            Scripted.no_user 5 (VInt 1) (Scripted.assignment "repo")
            Scripted.org Scripted.repo
            (fst (modifyM init_pull_requests (Scripted.assignment "repo")))
            (fst (modifyM init_pull_requests (Scripted.assignment "repo")))
            _ [] [] (Scripted.pull 1 "a1" "ada") TypeError [] []
            [(VInt 2, Scripted.assignment "repoB")] [] []).
  - reflexivity.
  - reflexivity.
  - reflexivity.
  - reflexivity.
  - reflexivity.
  - reflexivity.
  - reflexivity.
  - vm_compute. reflexivity.
  - discriminate.
  - reflexivity.
Defined.

(** ** What a retrieval leaves of its argument *)

Lemma same_other_fields_refl (kvs : list (key * value)) :
  same_other_fields (VDict kvs) (VDict kvs).
Proof. exists kvs, kvs. auto. Qed.

Lemma same_other_fields_trans (s1 s2 s3 : value) :
  same_other_fields s1 s2 -> same_other_fields s2 s3 ->
  same_other_fields s1 s3.
Proof.
  intros (k1 & k2 & -> & -> & H12) (k2' & k3 & E & -> & H23).
  injection E as <-. exists k1, k3. repeat split.
  intros k Hk. now rewrite H23, H12.
Qed.

Lemma set_item_pull_requests_fields (kvs : list (key * value))
    (v s' : value) :
  set_item (VDict kvs) "pull_requests" v = Ret s' ->
  same_other_fields (VDict kvs) s'.
Proof.
  intros H. injection H as <-. eexists _, _. repeat split.
  intros k Hk. now apply dict_lookup_set_other.
Qed.

(** Every mutation of the state is an assignment to ['pull_requests']. *)
Lemma modifyM_pull_requests_fields (f : value -> outcome value)
    (kvs : list (key * value)) :
  (forall s', f (VDict kvs) = Ret s' ->
              exists v, set_item (VDict kvs) "pull_requests" v = Ret s') ->
  same_other_fields (VDict kvs) (fst (modifyM f (VDict kvs))).
Proof.
  intros Hf. unfold modifyM.
  destruct (f (VDict kvs)) as [s'| |] eqn:E; cbn [fst];
    try apply same_other_fields_refl.
  destruct (Hf s' eq_refl) as (v & Hv).
  eapply set_item_pull_requests_fields; eauto.
Qed.

Lemma store_pull_request_fields (pr_number record : value)
    (kvs : list (key * value)) :
  same_other_fields (VDict kvs)
    (fst (store_pull_request pr_number record (VDict kvs))).
Proof.
  apply modifyM_pull_requests_fields. intros s' H.
  destruct (item (VDict kvs) "pull_requests") as [prs| |]; cbn [bind] in H;
    try discriminate.
  destruct (setitem prs pr_number record) as [prs'| |]; cbn [bind] in H;
    try discriminate.
  eauto.
Qed.

Lemma store_workflow_run_fields (pr_number best_run : value)
    (kvs : list (key * value)) :
  same_other_fields (VDict kvs)
    (fst (store_workflow_run pr_number best_run (VDict kvs))).
Proof.
  apply modifyM_pull_requests_fields. intros s' H.
  destruct (item (VDict kvs) "pull_requests") as [prs| |]; cbn [bind] in H;
    try discriminate.
  destruct (getitem prs pr_number) as [record| |]; cbn [bind] in H;
    try discriminate.
  destruct (set_item record "workflow_run" best_run) as [record'| |];
    cbn [bind] in H; try discriminate.
  destruct (setitem prs pr_number record') as [prs'| |]; cbn [bind] in H;
    try discriminate.
  eauto.
Qed.

Section OtherFields.

Variable http_get : request -> outcome response.
Variables owner repo : value.

Lemma retrieve_pull_request_fields (pull_request : value)
    (kvs : list (key * value)) :
  same_other_fields (VDict kvs)
    (fst (retrieve_pull_request http_get owner repo pull_request (VDict kvs))).
Proof.
  unfold retrieve_pull_request.
  repeat (rewrite bindM_lift;
          match goal with
          | |- context [match ?o with Ret _ => _ | _ => _ end] =>
              destruct o; [|apply same_other_fields_refl..]
          end).
  match goal with
  | |- context [if ?b then _ else _] =>
      destruct b; [apply same_other_fields_refl|]
  end.
  repeat (rewrite bindM_lift;
          match goal with
          | |- context [match ?o with Ret _ => _ | _ => _ end] =>
              destruct o; [|apply same_other_fields_refl..]
          end).
  unfold bindM at 1.
  match goal with
  | |- context [store_pull_request ?n ?r (VDict kvs)] =>
      pose proof (store_pull_request_fields n r kvs) as Hstore;
      destruct (store_pull_request n r (VDict kvs)) as [s1 [[]| |]];
      cbn [fst] in Hstore; try exact Hstore
  end.
  assert (Hs1 := Hstore). destruct Hs1 as (k0 & kvs1 & _ & -> & _).
  repeat (rewrite bindM_lift;
          match goal with
          | |- context [match ?o with Ret _ => _ | _ => _ end] =>
              destruct o; [|exact Hstore..]
          end).
  match goal with
  | |- context [truthy ?best_run] =>
      destruct (truthy best_run); [|exact Hstore];
      eapply same_other_fields_trans;
      [exact Hstore|apply store_workflow_run_fields]
  end.
Qed.

Lemma for_each_fields (pulls : list value) :
  forall kvs,
    same_other_fields (VDict kvs)
      (fst (for_each (retrieve_pull_request http_get owner repo) pulls
              (VDict kvs))).
Proof.
  induction pulls as [|p pulls IH]; intros kvs;
    [apply same_other_fields_refl|].
  rewrite for_each_cons.
  pose proof (retrieve_pull_request_fields p kvs) as Hp.
  destruct (retrieve_pull_request http_get owner repo p (VDict kvs))
    as [s1 [[]| |]]; cbn [fst] in Hp; try exact Hp.
  assert (Hs1 := Hp). destruct Hs1 as (k0 & kvs1 & _ & -> & _).
  eapply same_other_fields_trans; [exact Hp|apply IH].
Qed.

End OtherFields.

(** X9. Whatever its outcome, a retrieval changes no field of
    [assignment_data] other than ['pull_requests'], and it removes none of
    the pull-request records that were there before the call. *)
Theorem retrieval_touches_only_pull_requests
    (http_get : request -> outcome response) (fuel : nat)
    (assignment_id assignment_data owner repo : value)
    (prs0 : list (key * value)) :
  item assignment_data "github_org" = Ret owner ->
  item assignment_data "repo_name" = Ret repo ->
  get_default assignment_data "pull_requests" (VDict []) = Ret (VDict prs0) ->
  same_other_fields assignment_data
    (fst (retrieve_assignment_submission_data http_get fuel assignment_id
            assignment_data)) /\
  exists prs',
    has_pulls
      (fst (retrieve_assignment_submission_data http_get fuel assignment_id
              assignment_data)) prs' /\
    forall k, dict_lookup k prs0 <> None -> dict_lookup k prs' <> None.
Proof.
  intros Ho Hr Hprs0.
  destruct (init_pull_requests_has_pulls _ _ Hprs0) as (s1 & Hi & Hs1).
  rewrite (retrieve_assignment_submission_data_unfold _ _ _ _ _ _ _ Ho Hr Hi).
  assert (Hinit : same_other_fields assignment_data s1).
  { unfold init_pull_requests in Hi. rewrite Hprs0 in Hi. cbn [bind] in Hi.
    destruct assignment_data; try discriminate.
    eapply set_item_pull_requests_fields; eauto. }
  assert (Hd := Hinit). destruct Hd as (kvs0 & kvs1 & _ & E1 & _).
  assert (Hstate :
    forall pulls,
      fst (try_except_request
             (fun s =>
                match for_each (retrieve_pull_request http_get owner repo)
                        pulls s with
                | (s', Ret _) => (s', Ret s')
                | (s', Raise e) => (s', Raise e)
                | (s', OutOfFuel) => (s', OutOfFuel)
                end) (retM (VBool false)) s1)
      = fst (for_each (retrieve_pull_request http_get owner repo) pulls s1)).
  { intros pulls. unfold try_except_request, retM.
    destruct (for_each _ pulls s1) as [s' [[]|[]|]]; reflexivity. }
  unfold try_except_request.
  destruct (fetch_pull_requests http_get fuel owner repo) as [pulls|e|]
    eqn:Hf.
  - rewrite (retrieve_pull_requests_unfold _ _ _ _ _ _ Hf).
    specialize (Hstate pulls). unfold try_except_request in Hstate.
    rewrite Hstate. split.
    + eapply same_other_fields_trans; [exact Hinit|].
      rewrite E1. apply for_each_fields.
    + destruct (for_each_frame http_get owner repo pulls s1 prs0 Hs1)
        as (prs' & H' & Hkeep & _). eauto.
  - unfold retrieve_pull_requests. rewrite bindM_lift, Hf.
    destruct e; cbn [fst retM]; split; eauto.
  - unfold retrieve_pull_requests. rewrite bindM_lift, Hf. cbn [fst].
    split; eauto.
Qed.

Lemma retrieval_touches_only_pull_requests_witness :
  same_other_fields (Scripted.assignment "repoA") Scripted.repoA_interrupted /\
  exists prs', has_pulls Scripted.repoA_interrupted prs'.
Proof.
  destruct (retrieval_touches_only_pull_requests Scripted.batch_api 5
              (VInt 1) (Scripted.assignment "repoA") Scripted.org
              (VStr "repoA") []) as (H1 & prs' & H2 & _).
  - reflexivity.
  - reflexivity.
  - reflexivity.
  - split; [exact H1|]. exists prs'. exact H2.
Defined.

(** X10. A retrieval that returns gives either [False] or the mutated
    [assignment_data] itself, which is truthy: [main] builds rows from
    every retrieval that did not meet a transport error. *)
Theorem retrieval_returns_false_or_its_argument
    (http_get : request -> outcome response) (fuel : nat)
    (assignment_id assignment_data owner repo s' result : value)
    (prs0 : list (key * value)) :
  item assignment_data "github_org" = Ret owner ->
  item assignment_data "repo_name" = Ret repo ->
  get_default assignment_data "pull_requests" (VDict []) = Ret (VDict prs0) ->
  retrieve_assignment_submission_data http_get fuel assignment_id
    assignment_data = (s', Ret result) ->
  result = VBool false \/ (result = s' /\ truthy result = true).
Proof.
  intros Ho Hr Hprs0.
  destruct (init_pull_requests_has_pulls _ _ Hprs0) as (s1 & Hi & Hs1).
  rewrite (retrieve_assignment_submission_data_unfold _ _ _ _ _ _ _ Ho Hr Hi).
  unfold try_except_request.
  destruct (fetch_pull_requests http_get fuel owner repo) as [pulls|e|]
    eqn:Hf.
  - rewrite (retrieve_pull_requests_unfold _ _ _ _ _ _ Hf).
    destruct (for_each_frame http_get owner repo pulls s1 prs0 Hs1)
      as (prs' & H' & _).
    destruct (for_each (retrieve_pull_request http_get owner repo) pulls s1)
      as [s2 [[]|e|]]; cbn [fst] in H'.
    + intros E. injection E as <- <-. right. split; [reflexivity|].
      apply item_dict_inv in H' as (kvs & -> & Hl).
      destruct kvs; [discriminate|reflexivity].
    + destruct e; unfold retM; intros E; try discriminate.
      injection E as <- <-. now left.
    + discriminate.
  - unfold retrieve_pull_requests. rewrite bindM_lift, Hf.
    destruct e; unfold retM; intros E; try discriminate.
    injection E as <- <-. now left.
  - unfold retrieve_pull_requests. rewrite bindM_lift, Hf. discriminate.
Qed.

Lemma retrieval_returns_false_or_its_argument_witness :
  fst (retrieve_assignment_submission_data Scripted.scenario_api 5 (VInt 7)
         (Scripted.assignment "repo")) = VBool false \/
  (fst (retrieve_assignment_submission_data Scripted.scenario_api 5 (VInt 7)
          (Scripted.assignment "repo"))
   = fst (retrieve_assignment_submission_data Scripted.scenario_api 5 (VInt 7)
            (Scripted.assignment "repo")) /\
   truthy (fst (retrieve_assignment_submission_data Scripted.scenario_api 5
                  (VInt 7) (Scripted.assignment "repo"))) = true).
Proof.
  apply (retrieval_returns_false_or_its_argument Scripted.scenario_api 5
           (VInt 7) (Scripted.assignment "repo") Scripted.org Scripted.repo
           (fst (retrieve_assignment_submission_data Scripted.scenario_api 5
                   (VInt 7) (Scripted.assignment "repo")))
           (fst (retrieve_assignment_submission_data Scripted.scenario_api 5
                   (VInt 7) (Scripted.assignment "repo")))
           []).
  - reflexivity.
  - reflexivity.
  - reflexivity.
  - vm_compute. reflexivity.
Defined.

(** ** Rows: what drops one and what stops all *)

Lemma get_total (c : value) (k k' : string) (v : value) :
  get c k = Ret v -> exists v', get c k' = Ret v'.
Proof.
  destruct c; try discriminate. intros _. unfold get, get_default.
  destruct (dict_lookup (KStr k') kvs); eauto.
Qed.

Section RowLoop.

Variable query_user_id : value -> outcome value.

Lemma add_assignment_submissions_loop_app (assignment_id : value)
    (l1 : list (key * value)) :
  forall (l2 : list (key * value)) (values : list row),
    add_assignment_submissions_loop query_user_id assignment_id values
      (l1 ++ l2)
    = (values' <- add_assignment_submissions_loop query_user_id assignment_id
                    values l1 ;;
       add_assignment_submissions_loop query_user_id assignment_id values' l2).
Proof.
  induction l1 as [|entry l1 IH]; intros l2 values; [reflexivity|].
  cbn [app add_assignment_submissions_loop].
  destruct (add_assignment_submission_record query_user_id assignment_id
              values entry); cbn [bind]; auto.
Qed.

(** An entry without author handle, or whose user lookup raises, leaves
    the collected rows as they were. *)
Lemma add_assignment_submission_record_dropped
    (assignment_id : value) (values : list row) (k : key)
    (pull_request_data github_username : value) (passes : bool) :
  get pull_request_data "github_username" = Ret github_username ->
  passes_preliminary_checks pull_request_data = Ret passes ->
  truthy github_username = false \/
  (exists e, query_user_id github_username = Raise e) ->
  add_assignment_submission_record query_user_id assignment_id values
    (k, pull_request_data) = Ret values.
Proof.
  intros Hu Hp Hdrop. unfold add_assignment_submission_record.
  destruct (get_total _ _ "state" _ Hu) as (st & ->).
  destruct (get_total _ _ "submission_link" _ Hu) as (link & ->).
  destruct (get_total _ _ "submission_time" _ Hu) as (time & ->).
  rewrite Hu, Hp. cbn [bind].
  destruct (truthy github_username) eqn:Tu; [|reflexivity].
  destruct Hdrop as [|[e ->]]; [discriminate|reflexivity].
Qed.

Lemma add_assignment_submission_record_raises
    (assignment_id : value) (values : list row) (k : key)
    (pull_request_data : value) (e : exn) :
  passes_preliminary_checks pull_request_data = Raise e ->
  forall rows,
    add_assignment_submission_record query_user_id assignment_id values
      (k, pull_request_data) <> Ret rows.
Proof.
  intros Hp rows. unfold add_assignment_submission_record.
  destruct (get pull_request_data "state"); cbn [bind]; try discriminate.
  destruct (get pull_request_data "github_username"); cbn [bind];
    try discriminate.
  destruct (get pull_request_data "submission_link"); cbn [bind];
    try discriminate.
  rewrite Hp. discriminate.
Qed.

End RowLoop.

(** X11. A pull request whose user lookup raises, like one without author
    handle, only loses its own row: the rows built for the assignment are
    those built without that pull request. *)
Theorem failed_lookup_drops_only_its_row
    (query_user_id : value -> outcome value)
    (assignment_id assignment_data assignment_data' : value)
    (before after : list (key * value)) (k : key)
    (pull_request_data github_username : value) (passes : bool) :
  item assignment_data "pull_requests"
  = Ret (VDict (before ++ (k, pull_request_data) :: after)) ->
  item assignment_data' "pull_requests" = Ret (VDict (before ++ after)) ->
  get pull_request_data "github_username" = Ret github_username ->
  passes_preliminary_checks pull_request_data = Ret passes ->
  truthy github_username = false \/
  (exists e, query_user_id github_username = Raise e) ->
  add_assignment_submissions_records query_user_id assignment_id
    assignment_data
  = add_assignment_submissions_records query_user_id assignment_id
      assignment_data'.
Proof.
  intros H1 H2 Hu Hp Hdrop. unfold add_assignment_submissions_records.
  rewrite H1, H2. cbn [bind dict_items].
  rewrite !add_assignment_submissions_loop_app.
  destruct (add_assignment_submissions_loop query_user_id assignment_id []
              before) as [values| |]; cbn [bind]; try reflexivity.
  cbn [add_assignment_submissions_loop].
  now rewrite (add_assignment_submission_record_dropped query_user_id
                 assignment_id values k _ _ _ Hu Hp Hdrop).
Qed.

Lemma failed_lookup_drops_only_its_row_witness :
  add_assignment_submissions_records Scripted.failing_lookup (VInt 1)
    (dict_of [("pull_requests",
               VDict ([Scripted.entry 1 "ada"]
                      ++ Scripted.entry 2 "bob" :: [Scripted.entry 3 "cy"]))])
  = add_assignment_submissions_records Scripted.failing_lookup (VInt 1)
      (dict_of [("pull_requests",
                 VDict ([Scripted.entry 1 "ada"] ++ [Scripted.entry 3 "cy"]))]).
Proof.
  apply (failed_lookup_drops_only_its_row Scripted.failing_lookup (VInt 1)
           _ _ [Scripted.entry 1 "ada"] [Scripted.entry 3 "cy"] (KInt 2)
           (snd (Scripted.entry 2 "bob")) (VStr "bob") false).
  - reflexivity.
  - reflexivity.
  - reflexivity.
  - reflexivity.
  - right. exists DatabaseError. reflexivity.
Defined.

(** X12. Reading an entry happens outside the [try]: when the check of
    one entry raises, as it does for a [workflow_run] that is not a
    dictionary, the whole call fails to return: no rows at all, those of
    the other entries included. *)
Theorem unreadable_entry_yields_no_rows
    (query_user_id : value -> outcome value)
    (assignment_id assignment_data : value)
    (entries : list (key * value)) (k : key) (pull_request_data : value)
    (e : exn) :
  item assignment_data "pull_requests" = Ret (VDict entries) ->
  In (k, pull_request_data) entries ->
  passes_preliminary_checks pull_request_data = Raise e ->
  returned (add_assignment_submissions_records query_user_id assignment_id
              assignment_data) = None.
Proof.
  intros Hitem Hin Hp. unfold add_assignment_submissions_records.
  rewrite Hitem. cbn [bind dict_items]. clear Hitem.
  generalize (@nil row).
  induction entries as [|entry entries IH]; intros values; [destruct Hin|].
  cbn [add_assignment_submissions_loop].
  destruct Hin as [->|Hin].
  - pose proof (add_assignment_submission_record_raises query_user_id
                  assignment_id values k _ e Hp) as Hno.
    destruct (add_assignment_submission_record query_user_id assignment_id
                values (k, pull_request_data)) as [values'| |];
      cbn [bind]; try reflexivity.
    exfalso. now apply (Hno values').
  - destruct (add_assignment_submission_record query_user_id assignment_id
                values entry) as [values'| |]; cbn [bind]; try reflexivity.
    now apply IH.
Qed.

Lemma unreadable_entry_yields_no_rows_witness :
  returned
    (add_assignment_submissions_records Scripted.no_user (VInt 1)
       (dict_of [("pull_requests",
                  VDict [Scripted.entry 1 "ada"; Scripted.null_run_entry])]))
  = None.
Proof.
  apply (unreadable_entry_yields_no_rows Scripted.no_user (VInt 1) _
           [Scripted.entry 1 "ada"; Scripted.null_run_entry] (KInt 9)
           (snd Scripted.null_run_entry) AttributeError).
  - reflexivity.
  - right. left. reflexivity.
  - reflexivity.
Defined.

(** ** The batch: where rows come from *)

Section RowOrigin.

Variable http_get : request -> outcome response.
Variable query_user_id : value -> outcome value.
Variable fuel : nat.

Lemma add_assignment_submissions_loop_ids (assignment_id : value)
    (entries : list (key * value)) :
  forall values values',
    add_assignment_submissions_loop query_user_id assignment_id values
      entries = Ret values' ->
    exists added,
      values' = (values ++ added)%list /\
      forall r, In r added ->
        row_assignment_id r = assignment_id /\
        truthy (row_github_username r) = true.
Proof.
  induction entries as [|[k data] rest IH]; intros values values';
    cbn [add_assignment_submissions_loop].
  - intros H. injection H as <-. exists []. split; [now rewrite app_nil_r|].
    intros r [].
  - destruct (add_assignment_submission_record query_user_id assignment_id
                values (k, data)) as [values1| |] eqn:Hstep;
      cbn [bind]; try discriminate.
    intros Hrest. destruct (IH _ _ Hrest) as (added & -> & Hadded).
    destruct (add_assignment_submission_record_inv _ _ _ _ _ _ Hstep)
      as [->|(r0 & -> & Hid & _ & _ & Htruthy & _)].
    + exists added. auto.
    + exists (r0 :: added). split; [now rewrite <- app_assoc|].
      intros r [<-|Hr]; auto.
Qed.

Lemma main_assignment_rows (json_path : option value) (values values' : list row)
    (assignment_id assignment_data s : value) :
  main_assignment http_get query_user_id fuel json_path values assignment_id
    assignment_data = (s, Ret values') ->
  exists added,
    values' = (values ++ added)%list /\
    forall r, In r added ->
      row_assignment_id r = assignment_id /\
      truthy (row_github_username r) = true.
Proof.
  unfold main_assignment. unfold bindM at 1. unfold readM at 1.
  destruct (get assignment_data "github_org") as [owner| |];
    try discriminate.
  unfold bindM at 1. unfold readM at 1.
  destruct (get assignment_data "repo_name") as [repo| |]; try discriminate.
  destruct (negb (truthy owner) || negb (truthy repo)); [discriminate|].
  unfold bindM at 1.
  destruct (match json_path with
            | Some content => retM content
            | None => retrieve_assignment_submission_data http_get fuel
                        assignment_id
            end assignment_data) as [s1 [new| |]]; try discriminate.
  destruct (truthy new).
  - rewrite bindM_lift. unfold add_assignment_submissions_records.
    destruct (item new "pull_requests") as [prs| |]; cbn [bind];
      try discriminate.
    destruct (dict_items prs) as [entries| |]; cbn [bind]; try discriminate.
    destruct (add_assignment_submissions_loop query_user_id assignment_id []
                entries) as [rows| |] eqn:Hloop; try discriminate.
    unfold retM. intros E. injection E as _ <-.
    destruct (add_assignment_submissions_loop_ids _ _ _ _ Hloop)
      as (added & -> & Hadded).
    exists added. auto.
  - unfold retM. intros E. injection E as _ <-.
    exists []. split; [now rewrite app_nil_r|]. intros r [].
Qed.

Lemma main_assignment_offline (content : value) (values : list row)
    (assignment_id assignment_data : value) :
  main_assignment http_get query_user_id fuel (Some content) values
    assignment_id assignment_data
  = (assignment_data,
     owner <- get assignment_data "github_org" ;;
     repo <- get assignment_data "repo_name" ;;
     if negb (truthy owner) || negb (truthy repo) then Raise ValueError
     else if truthy content then
            rows <- add_assignment_submissions_records query_user_id
                      assignment_id content ;;
            Ret (values ++ rows)%list
          else Ret values).
Proof.
  unfold main_assignment. unfold bindM at 1. unfold readM at 1.
  destruct (get assignment_data "github_org") as [owner| |];
    try reflexivity.
  unfold bindM at 1. unfold readM at 1. cbn [bind].
  destruct (get assignment_data "repo_name") as [repo| |]; try reflexivity.
  cbn [bind].
  destruct (negb (truthy owner) || negb (truthy repo)); [reflexivity|].
  unfold bindM at 1. unfold retM at 1.
  destruct (truthy content); [|reflexivity].
  rewrite bindM_lift.
  destruct (add_assignment_submissions_records query_user_id assignment_id
              content); reflexivity.
Qed.

End RowOrigin.

(** X13. Every row that [main] hands to the insert carries the identifier
    of an assignment of the batch and a truthy [github_username]; the rows
    collected before are kept in front. *)
Theorem main_rows_come_from_the_batch
    (http_get : request -> outcome response)
    (query_user_id : value -> outcome value) (fuel : nat)
    (json_path : option value) (assignments : list (value * value)) :
  forall (values values' : list row) (assignments' : list (value * value)),
    main_loop http_get query_user_id fuel json_path assignments values
    = (assignments', Ret values') ->
    exists added,
      values' = (values ++ added)%list /\
      forall r, In r added ->
        In (row_assignment_id r) (map fst assignments) /\
        truthy (row_github_username r) = true.
Proof.
  induction assignments as [|[aid ad] rest IH];
    intros values values' assignments'; cbn [main_loop].
  - intros E. injection E as _ <-. exists []. split; [now rewrite app_nil_r|].
    intros r [].
  - destruct (main_assignment http_get query_user_id fuel json_path values
                aid ad) as [s [values1| |]] eqn:Hstep; try discriminate.
    destruct (main_loop http_get query_user_id fuel json_path rest values1)
      as [rest' result] eqn:Hrest.
    intros E. injection E as _ ->.
    destruct (main_assignment_rows _ _ _ _ _ _ _ _ _ Hstep)
      as (added1 & -> & H1).
    destruct (IH _ _ _ Hrest) as (added2 & -> & H2).
    exists (added1 ++ added2)%list. split; [now rewrite app_assoc|].
    intros r Hr. apply in_app_or in Hr as [Hr|Hr].
    + destruct (H1 r Hr) as [-> Ht]. split; [now left|exact Ht].
    + destruct (H2 r Hr) as [Hin Ht]. split; [now right|exact Ht].
Qed.

Lemma main_rows_come_from_the_batch_witness :
  exists added,
    (match snd (main Scripted.batch_api Scripted.no_user 5 None
                  [(VInt 1, Scripted.assignment "repoA");
                   (VInt 2, Scripted.assignment "repoB")]) with
     | Ret rows => rows
     | _ => []
     end) = ([] ++ added)%list /\
    forall r, In r added ->
      In (row_assignment_id r) [VInt 1; VInt 2] /\
      truthy (row_github_username r) = true.
Proof.
  apply (main_rows_come_from_the_batch Scripted.batch_api Scripted.no_user 5
           None [(VInt 1, Scripted.assignment "repoA");
                 (VInt 2, Scripted.assignment "repoB")] [] _
           (fst (main Scripted.batch_api Scripted.no_user 5 None
                   [(VInt 1, Scripted.assignment "repoA");
                    (VInt 2, Scripted.assignment "repoB")]))).
  vm_compute. reflexivity.
Defined.

(** X14. With a [json_path], [main] neither calls the API nor mutates any
    assignment: its result is the same for every API and every fuel, and
    the assignments come out as they went in. *)
Theorem main_with_json_path_is_offline
    (http_get http_get' : request -> outcome response)
    (query_user_id : value -> outcome value) (fuel fuel' : nat)
    (content : value) (assignments : list (value * value)) :
  main http_get query_user_id fuel (Some content) assignments
  = main http_get' query_user_id fuel' (Some content) assignments /\
  fst (main http_get query_user_id fuel (Some content) assignments)
  = assignments.
Proof.
  unfold main. generalize (@nil row).
  induction assignments as [|[aid ad] rest IH]; intros values;
    [split; reflexivity|].
  cbn [main_loop]. rewrite !main_assignment_offline.
  match goal with
  | |- context [match ?o with Ret _ => _ | Raise _ => _ | OutOfFuel => _ end] =>
      destruct o as [values'| |]
  end; try (split; reflexivity).
  destruct (IH values') as [Hsame Hfst]. rewrite <- Hsame.
  destruct (main_loop http_get query_user_id fuel (Some content) rest
              values') as [rest' result].
  cbn [fst] in *. subst rest'. split; reflexivity.
Qed.

(** X15. With a [json_path] the same file serves every assignment: when
    each assignment names its organization and repository and the content
    is truthy, the rows of the batch are, in order, the rows built from
    that content for each assignment identifier. *)
Theorem main_with_json_path_repeats_the_file
    (http_get : request -> outcome response)
    (query_user_id : value -> outcome value) (fuel : nat)
    (content : value) (rows_of : value -> list row)
    (assignments : list (value * value)) :
  truthy content = true ->
  (forall aid ad,
      In (aid, ad) assignments ->
      (exists owner repo,
          get ad "github_org" = Ret owner /\ truthy owner = true /\
          get ad "repo_name" = Ret repo /\ truthy repo = true) /\
      add_assignment_submissions_records query_user_id aid content
      = Ret (rows_of aid)) ->
  snd (main http_get query_user_id fuel (Some content) assignments)
  = Ret (flat_map (fun a => rows_of (fst a)) assignments).
Proof.
  intros Hc. unfold main.
  change (flat_map (fun a => rows_of (fst a)) assignments)
    with ([] ++ flat_map (fun a => rows_of (fst a)) assignments)%list.
  generalize (@nil row).
  induction assignments as [|[aid ad] rest IH]; intros values Hall.
  - simpl. now rewrite app_nil_r.
  - cbn [main_loop]. rewrite main_assignment_offline.
    destruct (Hall aid ad (or_introl eq_refl))
      as ((owner & repo & -> & To & -> & Tr) & Hrows).
    cbn [bind]. rewrite To, Tr, Hc, Hrows. cbn [negb orb bind].
    specialize (IH (values ++ rows_of aid)%list
                  (fun a d H => Hall a d (or_intror H))).
    destruct (main_loop http_get query_user_id fuel (Some content) rest
                (values ++ rows_of aid)) as [rest' result].
    cbn [snd] in *. rewrite IH. cbn [flat_map fst].
    now rewrite app_assoc.
Qed.

Lemma main_with_json_path_repeats_the_file_witness :
  snd (main Scripted.batch_api Scripted.no_user 0
         (Some Scripted.anonymous_data)
         [(VInt 1, Scripted.assignment "repoA");
          (VInt 2, Scripted.assignment "repoB")])
  = Ret (flat_map
           (fun a =>
              match add_assignment_submissions_records Scripted.no_user
                      (fst a) Scripted.anonymous_data with
              | Ret rows => rows
              | _ => []
              end)
           [(VInt 1, Scripted.assignment "repoA");
            (VInt 2, Scripted.assignment "repoB")]).
Proof.
  apply (main_with_json_path_repeats_the_file Scripted.batch_api
           Scripted.no_user 0 Scripted.anonymous_data
           (fun aid =>
              match add_assignment_submissions_records Scripted.no_user
                      aid Scripted.anonymous_data with
              | Ret rows => rows
              | _ => []
              end)).
  - reflexivity.
  - intros aid ad [E|[E|[]]]; injection E as <- <-;
      (split; [exists (VStr "org"); eexists; repeat split; reflexivity
              |reflexivity]).
Defined.

(** ** Skipped entries, and the check of a processed pull request *)

(** X16. A listed entry whose number or head SHA is there but falsy
    ([None], zero, empty) takes no part in the retrieval: the loop over
    the listing ends in the same state and with the same outcome as over
    the listing without it. *)
Theorem falsy_pull_request_takes_no_part
    (http_get : request -> outcome response)
    (owner repo pull_request pr_number head_sha s : value)
    (before after : list value) :
  item pull_request "number" = Ret pr_number ->
  (head <- item pull_request "head" ;; item head "sha") = Ret head_sha ->
  truthy pr_number = false \/ truthy head_sha = false ->
  for_each (retrieve_pull_request http_get owner repo)
    (before ++ pull_request :: after) s
  = for_each (retrieve_pull_request http_get owner repo) (before ++ after) s.
Proof.
  intros Hn Hsha Hfalsy. rewrite !for_each_app.
  destruct (for_each (retrieve_pull_request http_get owner repo) before s)
    as [s1 [[]| |]]; try reflexivity.
  rewrite for_each_cons.
  now rewrite (retrieve_pull_request_skips http_get owner repo _ _ _ s1
                 Hn Hsha Hfalsy).
Qed.

Lemma falsy_pull_request_takes_no_part_witness :
  for_each (retrieve_pull_request Scripted.null_sha_api Scripted.org
              (VStr "repoA"))
    ([Scripted.pull 1 "a1" "ada"] ++ Scripted.pull_null_sha
       :: [Scripted.pull 3 "a3" "cy"]) Scripted.repoA_started
  = for_each (retrieve_pull_request Scripted.null_sha_api Scripted.org
                (VStr "repoA"))
      ([Scripted.pull 1 "a1" "ada"] ++ [Scripted.pull 3 "a3" "cy"])
      Scripted.repoA_started.
Proof.
  apply (falsy_pull_request_takes_no_part Scripted.null_sha_api Scripted.org
           (VStr "repoA") Scripted.pull_null_sha (VInt 2) VNone).
  - reflexivity.
  - reflexivity.
  - right. reflexivity.
Defined.

Lemma store_workflow_run_exact (pr_number best_run s : value) (k : key)
    (prs fields : list (key * value)) :
  has_pulls s prs ->
  to_key pr_number = Ret k ->
  dict_lookup k prs = Some (VDict fields) ->
  exists s',
    store_workflow_run pr_number best_run s = (s', Ret tt) /\
    has_pulls s'
      (dict_set k (VDict (dict_set (KStr "workflow_run") best_run fields))
         prs).
Proof.
  intros H Hk Hl. unfold store_workflow_run, modifyM. rewrite H.
  cbn [bind getitem]. rewrite Hk. cbn [bind]. rewrite Hl.
  cbn [bind set_item setitem to_key]. rewrite Hk. cbn [bind].
  destruct (has_pulls_set s prs
              (dict_set k
                 (VDict (dict_set (KStr "workflow_run") best_run fields))
                 prs) H) as (s' & -> & Hs').
  eauto.
Qed.

Lemma passes_of_selected_run (fields : list (key * value)) (d : run_detail) :
  passes_preliminary_checks
    (VDict (dict_set (KStr "workflow_run") (record_of d) fields))
  = Ret (py_eq (d_conclusion d) (VStr "success")).
Proof.
  unfold passes_preliminary_checks, get_default.
  now rewrite dict_lookup_set_same.
Qed.

Lemma latest_in (P : run_detail -> bool) (ds : list run_detail)
    (d : run_detail) :
  latest P None ds = Some d -> In d ds.
Proof.
  intros H.
  pose proof (latest_spec P (fun d => P d = true)
                (fun d => conj (fun H => H) (fun H => H)) ds None) as Hs.
  rewrite H in Hs. destruct Hs as [[E _]|(i & (Hi & _) & _)];
    [discriminate|eauto using nth_error_In].
Qed.

(** X17. The selection and the check together: for a complete pull
    request whose runs resolve, and on an API where only completed runs
    carry the conclusion [success], the pull request ends with one record
    whose check is true exactly when one of its runs completed with
    success. *)
Theorem pull_request_passes_iff_a_run_succeeded
    (http_get : request -> outcome response)
    (owner repo pull_request pr_number head_sha s : value) (k : key)
    (prs : list (key * value)) (workflow_runs : list value)
    (ds : list run_detail) :
  complete_pull pull_request pr_number head_sha k ->
  has_pulls s prs ->
  fetch_workflow_runs http_get owner repo pr_number head_sha
  = Ret (VList workflow_runs) ->
  resolve_runs http_get owner repo workflow_runs = Some ds ->
  (forall d, In d ds -> d_conclusion d = VStr "success" ->
             d_status d = VStr "completed") ->
  exists s' prs' record passes,
    retrieve_pull_request http_get owner repo pull_request s = (s', Ret tt) /\
    has_pulls s' prs' /\
    dict_lookup k prs' = Some record /\
    passes_preliminary_checks record = Ret passes /\
    (passes = true <-> exists d, In d ds /\ is_success d).
Proof.
  intros Hp Hs Hruns Hres Hapi.
  assert (Hk : to_key pr_number = Ret k) by apply Hp.
  destruct (retrieve_pull_request_complete http_get owner repo _ _ _ _ _ _
              Hp Hs) as (s1 & record0 & Hs1 & Hrun & _ & ->).
  rewrite bindM_lift, Hruns, bindM_lift.
  rewrite (process_workflow_runs_resolved _ _ _ _ _ Hres).
  pose proof (latest_spec successb is_success successb_is_success ds None)
    as Hsucc.
  destruct (item_dict_inv _ _ _ Hrun) as (fields & -> & _).
  destruct (latest successb None ds) as [d|] eqn:Hlatest.
  - (* a successful run is selected *)
    destruct Hsucc as [[E _]|(i & (Hi & Hd & _) & _)]; [discriminate|].
    cbn [truthy record_of dict_of map].
    destruct (store_workflow_run_exact pr_number (record_of d) s1 k _ fields
                Hs1 Hk (dict_lookup_set_same _ _ _)) as (s2 & -> & Hs2).
    exists s2. eexists. eexists. eexists.
    split; [reflexivity|]. split; [exact Hs2|].
    split; [apply dict_lookup_set_same|].
    split; [apply passes_of_selected_run|].
    assert (Hc : d_conclusion d = VStr "success") by apply Hd.
    rewrite Hc. simpl. split; [|reflexivity].
    intros _. exists d. split; [eauto using nth_error_In|exact Hd].
  - destruct Hsucc as [_ Hnone].
    destruct (latest (fun _ => true) None ds) as [d|] eqn:Hany;
      cbn [encode_run].
    + (* the latest run of any outcome is selected *)
      cbn [truthy record_of dict_of map].
      destruct (store_workflow_run_exact pr_number (record_of d) s1 k _
                  fields Hs1 Hk (dict_lookup_set_same _ _ _))
        as (s2 & -> & Hs2).
      exists s2. eexists. eexists. eexists.
      split; [reflexivity|]. split; [exact Hs2|].
      split; [apply dict_lookup_set_same|].
      split; [apply passes_of_selected_run|].
      pose proof (latest_in _ _ _ Hany) as Hin.
      split.
      * intros Hpass. apply py_eq_str in Hpass.
        exfalso. apply (Hnone d Hin). split; auto.
      * intros (d' & Hin' & Hd'). exfalso. now apply (Hnone d').
    + (* no run at all *)
      cbn [truthy]. unfold retM.
      exists s1. eexists. eexists. exists false.
      split; [reflexivity|]. split; [exact Hs1|].
      split; [apply dict_lookup_set_same|].
      split; [now apply empty_workflow_run_fails_check|].
      split; [discriminate|].
      intros (d' & Hin' & Hd'). exfalso. now apply (Hnone d').
Qed.

Lemma pull_request_passes_iff_a_run_succeeded_witness :
  exists s' prs' record passes,
    retrieve_pull_request Scripted.scenario_api Scripted.org Scripted.repo
      (Scripted.pull 1 "a1" "ada") Scripted.repoA_started = (s', Ret tt) /\
    has_pulls s' prs' /\
    dict_lookup (KInt 1) prs' = Some record /\
    passes_preliminary_checks record = Ret passes /\
    (passes = true <->
     exists d,
       In d [Scripted.run_detail_of 11 "completed" (VStr "success")
               "2024-01-01T10:00:00Z"] /\
       is_success d).
Proof.
  apply (pull_request_passes_iff_a_run_succeeded Scripted.scenario_api
           Scripted.org Scripted.repo (Scripted.pull 1 "a1" "ada") (VInt 1)
           (VStr "a1") Scripted.repoA_started (KInt 1) []
           [Scripted.run_summary 11]
           [Scripted.run_detail_of 11 "completed" (VStr "success")
              "2024-01-01T10:00:00Z"]).
  - repeat split; try reflexivity; eexists; reflexivity.
  - reflexivity.
  - reflexivity.
  - reflexivity.
  - intros d [<-|[]] _. reflexivity.
Defined.
